(** * Pingora gateway controller: route binding, grants, weights and sync

    A shallow embedding of the reconciliation core of
    lexfrei/pingora-gateway-controller (Go) together with the properties
    its specification states about it.

    Conventions of the embedding:
    - a Go [string] is a [string]; byte slicing [s[n:]] is [slice_from];
    - a Go pointer that may be nil is an [option];
    - a Go [(T, error)] result is a [result T];
    - a Go [map] is a stdpp [gmap];
    - [int32] and [uint64] are [Z] with the wrap-around written out;
    - an interface of an external collaborator (the Kubernetes client, the
      label-selector library, the proxy's RPC client) is a record or a
      class of functions. *)

From Stdlib Require Import ZArith Ascii String List Bool Lia DecimalString.
From stdpp Require Import base option list gmap strings fin_maps.

Local Open Scope string_scope.
Local Open Scope list_scope.
Local Open Scope Z_scope.

(* ===================================================================== *)
(** ** Go errors *)
(* ===================================================================== *)

(** Errors as the code builds them: a library error, [errors.Wrap],
    [errors.New]/[errors.Newf].  [NilDereference] stands for the panic of a
    nil pointer dereference. *)
Inductive error : Type :=
  | LibError (msg : string)
  | Wrap (inner : error) (msg : string)
  | Newf (msg : string)
  | NilDereference.

Inductive result (A : Type) : Type :=
  | Ok (a : A)
  | Err (e : error).
Arguments Ok {A} a.
Arguments Err {A} e.

Definition is_ok {A} (r : result A) : bool :=
  match r with Ok _ => true | Err _ => false end.

(* ===================================================================== *)
(** ** Strings: the functions of Go's [strings] package the code calls *)
(* ===================================================================== *)

Module GoStrings.

(** [strings.ToLower] first scans for a byte of [utf8.RuneSelf] (0x80) or
    more; a string without one is ASCII and has its bytes [A]-[Z] folded,
    one by one.  A string with one goes through the Unicode tables, which
    the embedding leaves out: [ToLower] below is [strings.ToLower] on the
    strings that [isASCII] accepts, as hostnames (DNS names) are, and a
    theorem that fixes the answer of the matcher says so. *)
Fixpoint isASCII (s : string) : bool :=
  match s with
  | EmptyString => true
  | String c rest => (Nat.ltb (nat_of_ascii c) 128 && isASCII rest)%bool
  end.

Definition lower_ascii (c : ascii) : ascii :=
  let n := nat_of_ascii c in
  if (Nat.leb 65 n && Nat.leb n 90)%bool then ascii_of_nat (n + 32) else c.

Fixpoint ToLower (s : string) : string :=
  match s with
  | EmptyString => EmptyString
  | String c rest => String (lower_ascii c) (ToLower rest)
  end.

(** [s[n:]]; every call site stays within [len(s)]. *)
Fixpoint slice_from (n : nat) (s : string) : string :=
  match n, s with
  | O, _ => s
  | S n', String _ rest => slice_from n' rest
  | S _, EmptyString => EmptyString
  end.

(** [strings.HasPrefix(s, prefix)]:
    [len(s) >= len(prefix) && s[:len(prefix)] == prefix]. *)
Definition HasPrefix (s prefix : string) : bool :=
  (Nat.leb (String.length prefix) (String.length s)
   && String.eqb (String.substring 0 (String.length prefix) s) prefix)%bool.

(** [strings.HasSuffix(s, suffix)]:
    [len(s) >= len(suffix) && s[len(s)-len(suffix):] == suffix]. *)
Definition HasSuffix (s suffix : string) : bool :=
  (Nat.leb (String.length suffix) (String.length s)
   && String.eqb (slice_from (String.length s - String.length suffix) s) suffix)%bool.

End GoStrings.
Import GoStrings.

(* ===================================================================== *)
(** ** The observed resources (Gateway API and core types) *)
(* ===================================================================== *)

(** The label-selector library of the cluster API machinery
    ([metav1.LabelSelectorAsSelector], [labels.Selector.Matches]) is an
    external collaborator: the code only converts a selector, and matches
    the converted selector against a namespace's labels. *)
Class LabelSelectorLib : Type := {
  LabelSelector : Type;
  Selector : Type;
  LabelSelectorAsSelector : LabelSelector -> result Selector;
  Matches : Selector -> gmap string string -> bool
}.

(** [gatewayv1.GroupName]. *)
Definition GroupName : string := "gateway.networking.k8s.io".

(** [gatewayv1.FromNamespaces] values. *)
Definition NamespacesFromAll : string := "All".
Definition NamespacesFromSelector : string := "Selector".
Definition NamespacesFromSame : string := "Same".
Definition NamespacesFromNone : string := "None".

(** [gatewayv1.ProtocolType] values. *)
Definition HTTPProtocolType : string := "HTTP".
Definition HTTPSProtocolType : string := "HTTPS".
Definition TLSProtocolType : string := "TLS".
Definition TCPProtocolType : string := "TCP".
Definition UDPProtocolType : string := "UDP".

(** [gatewayv1.RouteConditionReason] values the evaluator uses. *)
Definition RouteReasonAccepted : string := "Accepted".
Definition RouteReasonNotAllowedByListeners : string := "NotAllowedByListeners".
Definition RouteReasonNoMatchingListenerHostname : string := "NoMatchingListenerHostname".
Definition RouteReasonNoMatchingParent : string := "NoMatchingParent".

Record RouteGroupKind : Type := {
  rgk_Group : option string;
  rgk_Kind : string
}.

Record RouteNamespaces `{LabelSelectorLib} : Type := {
  rn_From : option string;
  rn_Selector : option LabelSelector
}.

Record AllowedRoutes `{LabelSelectorLib} : Type := {
  ar_Namespaces : option RouteNamespaces;
  ar_Kinds : list RouteGroupKind
}.

Record Listener `{LabelSelectorLib} : Type := {
  l_Name : string;
  l_Hostname : option string;
  l_Port : Z;
  l_Protocol : string;
  l_AllowedRoutes : option AllowedRoutes
}.

Record Gateway `{LabelSelectorLib} : Type := {
  gw_Name : string;
  gw_Namespace : string;
  gw_GatewayClassName : string;
  gw_Listeners : list Listener
}.

Record ParentReference : Type := {
  pr_Kind : option string;
  pr_Namespace : option string;
  pr_Name : string;
  pr_SectionName : option string
}.

Record BackendRef : Type := {
  br_Kind : option string;
  br_Name : string;
  br_Namespace : option string;
  (** the value behind the pointer, which the builder dereferences for a
      Service backend; the API server makes it mandatory there *)
  br_Port : Z;
  br_Weight : option Z
}.

(** A route rule: the backend references.  Matches, filters and timeouts
    play no part in the properties below and are left out. *)
Record RouteRule : Type := {
  rr_BackendRefs : list BackendRef
}.

(** [gatewayv1.HTTPRoute] and [gatewayv1.GRPCRoute]: the two Go types have
    the same fields as far as binding and syncing read them. *)
Record Route : Type := {
  r_Namespace : string;
  r_Name : string;
  r_ParentRefs : list ParentReference;
  r_Hostnames : list string;
  r_Rules : list RouteRule
}.

(** [corev1.Namespace]: the labels. *)
Record Namespace : Type := {
  ns_Name : string;
  ns_Labels : gmap string string
}.

(** [gatewayv1beta1.ReferenceGrant]. *)
Record ReferenceGrantFrom : Type := {
  rgf_Group : string;
  rgf_Kind : string;
  rgf_Namespace : string
}.

Record ReferenceGrantTo : Type := {
  rgt_Group : string;
  rgt_Kind : string;
  rgt_Name : option string
}.

Record ReferenceGrant : Type := {
  rg_Namespace : string;
  rg_Name : string;
  rg_From : list ReferenceGrantFrom;
  rg_To : list ReferenceGrantTo
}.

(** [client.Client]: the reads the reconciliation core performs.  A [Get]
    or [List] either yields the object(s) or an error. *)
Record Client `{LabelSelectorLib} : Type := {
  GetNamespace : string -> result Namespace;
  GetGateway : string -> string -> result Gateway;
  ListHTTPRoutes : result (list Route);
  ListGRPCRoutes : result (list Route);
  ListReferenceGrants : string -> result (list ReferenceGrant)
}.

(* ===================================================================== *)
(** ** Package routebinding: hostname matcher *)
(* ===================================================================== *)

(** [matchesWildcard(wildcardHost, specificHost)]. *)
Definition matchesWildcard (wildcardHost specificHost : string) : bool :=
  let suffix := slice_from 1 wildcardHost in
  if negb (HasSuffix specificHost suffix) then false
  else if String.eqb specificHost (slice_from 1 suffix) then false
  else true.

(** [hostnameMatches(listenerHost, routeHost)]. *)
Definition hostnameMatches (listenerHost routeHost : string) : bool :=
  let listenerHost := ToLower listenerHost in
  let routeHost := ToLower routeHost in
  if String.eqb listenerHost routeHost then true
  else
    let listenerIsWildcard := HasPrefix listenerHost "*." in
    let routeIsWildcard := HasPrefix routeHost "*." in
    if (listenerIsWildcard && routeIsWildcard)%bool then
      let listenerSuffix := slice_from 1 listenerHost in
      let routeSuffix := slice_from 1 routeHost in
      String.eqb listenerSuffix routeSuffix
    else if listenerIsWildcard then matchesWildcard listenerHost routeHost
    else if routeIsWildcard then matchesWildcard routeHost listenerHost
    else false.

(** [HostnamesIntersect(listenerHostname, routeHostnames)]; the loop is
    [existsb]: it returns at the first route hostname that matches. *)
Definition HostnamesIntersect (listenerHostname : option string)
    (routeHostnames : list string) : bool :=
  match listenerHostname with
  | None => true
  | Some lh =>
      if String.eqb lh "" then true
      else if (List.length routeHostnames =? 0)%nat then true
      else existsb (fun routeHost => hostnameMatches lh routeHost) routeHostnames
  end.

(* ===================================================================== *)
(** ** Package routebinding: kind gate *)
(* ===================================================================== *)

Definition KindHTTPRoute : string := "HTTPRoute".
Definition KindGRPCRoute : string := "GRPCRoute".
Definition KindTLSRoute : string := "TLSRoute".
Definition KindTCPRoute : string := "TCPRoute".
Definition KindUDPRoute : string := "UDPRoute".

(** [getDefaultKindsForProtocol(protocol)]. *)
Definition getDefaultKindsForProtocol (protocol : string) : list RouteGroupKind :=
  let group := GroupName in
  if (String.eqb protocol HTTPProtocolType || String.eqb protocol HTTPSProtocolType)%bool then
    [ {| rgk_Group := Some group; rgk_Kind := KindHTTPRoute |};
      {| rgk_Group := Some group; rgk_Kind := KindGRPCRoute |} ]
  else if String.eqb protocol TLSProtocolType then
    [ {| rgk_Group := Some group; rgk_Kind := KindTLSRoute |} ]
  else if String.eqb protocol TCPProtocolType then
    [ {| rgk_Group := Some group; rgk_Kind := KindTCPRoute |} ]
  else if String.eqb protocol UDPProtocolType then
    [ {| rgk_Group := Some group; rgk_Kind := KindUDPRoute |} ]
  else
    [ {| rgk_Group := Some group; rgk_Kind := KindHTTPRoute |};
      {| rgk_Group := Some group; rgk_Kind := KindGRPCRoute |} ].

(** [getAllowedKinds(allowedRoutes, protocol)]. *)
Definition getAllowedKinds `{LabelSelectorLib} (allowedRoutes : option AllowedRoutes)
    (protocol : string) : list RouteGroupKind :=
  match allowedRoutes with
  | Some ar =>
      if (0 <? List.length (ar_Kinds ar))%nat then ar_Kinds ar
      else getDefaultKindsForProtocol protocol
  | None => getDefaultKindsForProtocol protocol
  end.

(** [kindMatches(allowed, routeKind)]. *)
Definition kindMatches (allowed : RouteGroupKind) (routeKind : string) : bool :=
  if negb (String.eqb (rgk_Kind allowed) routeKind) then false
  else
    let allowedGroup :=
      match rgk_Group allowed with
      | Some g => if negb (String.eqb g "") then g else GroupName
      | None => GroupName
      end in
    String.eqb allowedGroup GroupName.

(** [IsRouteKindAllowed(allowedRoutes, protocol, routeKind)]. *)
Definition IsRouteKindAllowed `{LabelSelectorLib} (allowedRoutes : option AllowedRoutes)
    (protocol routeKind : string) : bool :=
  let kinds := getAllowedKinds allowedRoutes protocol in
  existsb (fun allowed => kindMatches allowed routeKind) kinds.

(* ===================================================================== *)
(** ** Package routebinding: namespace gate and binding evaluator *)
(* ===================================================================== *)

Module routebinding.

(** [Validator]: holds the cluster client. *)
Record Validator `{LabelSelectorLib} : Type := NewValidator {
  client : Client
}.

End routebinding.
Import routebinding.

(** [getNamespaceFrom(allowedRoutes)]. *)
Definition getNamespaceFrom `{LabelSelectorLib} (allowedRoutes : option AllowedRoutes) : string :=
  match allowedRoutes with
  | None => NamespacesFromSame
  | Some ar =>
      match ar_Namespaces ar with
      | None => NamespacesFromSame
      | Some nss =>
          match rn_From nss with
          | None => NamespacesFromSame
          | Some from => from
          end
      end
  end.

(** [Validator.namespaceMatchesSelector(ctx, allowedRoutes, routeNamespace)].
    The selector is converted before the namespace is fetched. *)
Definition namespaceMatchesSelector `{LabelSelectorLib} (v : Validator)
    (allowedRoutes : option AllowedRoutes) (routeNamespace : string) : result bool :=
  match allowedRoutes with
  | None => Err NilDereference
  | Some ar =>
      match ar_Namespaces ar with
      | None => Err NilDereference
      | Some nss =>
          match rn_Selector nss with
          | None => Ok false
          | Some sel =>
              match LabelSelectorAsSelector sel with
              | Err err => Err (Wrap err "invalid label selector")
              | Ok selector =>
                  match GetNamespace (client v) routeNamespace with
                  | Err _ => Ok false
                  | Ok namespace => Ok (Matches selector (ns_Labels namespace))
                  end
              end
          end
      end
  end.

(** [Validator.IsNamespaceAllowed(ctx, allowedRoutes, gatewayNamespace,
    routeNamespace)]. *)
Definition IsNamespaceAllowed `{LabelSelectorLib} (v : Validator)
    (allowedRoutes : option AllowedRoutes)
    (gatewayNamespace routeNamespace : string) : result bool :=
  let from := getNamespaceFrom allowedRoutes in
  if String.eqb from NamespacesFromSame then
    Ok (String.eqb gatewayNamespace routeNamespace)
  else if String.eqb from NamespacesFromAll then Ok true
  else if String.eqb from NamespacesFromSelector then
    namespaceMatchesSelector v allowedRoutes routeNamespace
  else if String.eqb from NamespacesFromNone then Ok false
  else Ok (String.eqb gatewayNamespace routeNamespace).

(** [RouteInfo]. *)
Record RouteInfo : Type := {
  ri_Name : string;
  ri_Namespace : string;
  ri_Hostnames : list string;
  ri_Kind : string;
  ri_SectionName : option string
}.

(** [BindingResult]. *)
Record BindingResult : Type := {
  Accepted : bool;
  Reason : string;
  Message : string;
  MatchedListeners : list string
}.

Definition defaultRejectionMessage : string := "Route not accepted".

(** [getReasonMessage(reason)]. *)
Definition getReasonMessage (reason : string) : string :=
  if String.eqb reason RouteReasonNoMatchingListenerHostname then
    "No listener hostname matches route hostnames"
  else if String.eqb reason RouteReasonNotAllowedByListeners then
    "Route not allowed by listener allowedRoutes policy"
  else if String.eqb reason RouteReasonNoMatchingParent then
    "No matching listener found"
  else defaultRejectionMessage.

(** [Validator.listenerAcceptsRoute(ctx, listener, gatewayNamespace, route)]. *)
Definition listenerAcceptsRoute `{LabelSelectorLib} (v : Validator)
    (listener : Listener) (gatewayNamespace : string) (route : RouteInfo)
    : result string :=
  if negb (HostnamesIntersect (l_Hostname listener) (ri_Hostnames route)) then
    Ok RouteReasonNoMatchingListenerHostname
  else
    match IsNamespaceAllowed v (l_AllowedRoutes listener) gatewayNamespace
            (ri_Namespace route) with
    | Err err => Err err
    | Ok allowed =>
        if negb allowed then Ok RouteReasonNotAllowedByListeners
        else if negb (IsRouteKindAllowed (l_AllowedRoutes listener)
                        (l_Protocol listener) (ri_Kind route)) then
          Ok RouteReasonNotAllowedByListeners
        else Ok RouteReasonAccepted
    end.

(** The section-name filter at the head of the loop body of
    [findMatchingListeners]: [true] when the listener is skipped. *)
Definition skippedBySectionName `{LabelSelectorLib} (route : RouteInfo)
    (listener : Listener) : bool :=
  match ri_SectionName route with
  | Some sn => negb (String.eqb sn (l_Name listener))
  | None => false
  end.

(** The loop of [findMatchingListeners] over [gateway.Spec.Listeners], with
    its two loop variables [matchedListeners] and [lastRejectionReason];
    an error of a gate leaves the loop at once. *)
Fixpoint walkListeners `{LabelSelectorLib} (v : Validator) (gatewayNamespace : string)
    (route : RouteInfo) (listeners : list Listener)
    (matchedListeners : list string) (lastRejectionReason : string)
    : result (list string * string) :=
  match listeners with
  | [] => Ok (matchedListeners, lastRejectionReason)
  | listener :: rest =>
      if skippedBySectionName route listener then
        walkListeners v gatewayNamespace route rest matchedListeners lastRejectionReason
      else
        match listenerAcceptsRoute v listener gatewayNamespace route with
        | Err err => Err err
        | Ok reason =>
            if String.eqb reason RouteReasonAccepted then
              walkListeners v gatewayNamespace route rest
                (matchedListeners ++ [l_Name listener]) lastRejectionReason
            else
              walkListeners v gatewayNamespace route rest matchedListeners reason
        end
  end.

(** [Validator.findMatchingListeners(ctx, gateway, route)]. *)
Definition findMatchingListeners `{LabelSelectorLib} (v : Validator)
    (gateway : Gateway) (route : RouteInfo) : result (list string * string) :=
  if (List.length (gw_Listeners gateway) =? 0)%nat then
    Ok ([], RouteReasonNoMatchingParent)
  else
    match walkListeners v (gw_Namespace gateway) route (gw_Listeners gateway) [] "" with
    | Err err => Err err
    | Ok (matchedListeners, lastRejectionReason) =>
        if (List.length matchedListeners =? 0)%nat then
          match ri_SectionName route with
          | Some _ => Ok ([], RouteReasonNoMatchingParent)
          | None =>
              if String.eqb lastRejectionReason "" then
                Ok ([], RouteReasonNoMatchingParent)
              else Ok ([], lastRejectionReason)
          end
        else Ok (matchedListeners, "")
    end.

(** [Validator.ValidateBinding(ctx, gateway, route)]. *)
Definition ValidateBinding `{LabelSelectorLib} (v : Validator)
    (gateway : Gateway) (route : RouteInfo) : result BindingResult :=
  match findMatchingListeners v gateway route with
  | Err err => Err err
  | Ok (matchedListeners, rejectionReason) =>
      if (List.length matchedListeners =? 0)%nat then
        Ok {| Accepted := false;
              Reason := rejectionReason;
              Message := getReasonMessage rejectionReason;
              MatchedListeners := [] |}
      else
        Ok {| Accepted := true;
              Reason := RouteReasonAccepted;
              Message := "Route accepted";
              MatchedListeners := matchedListeners |}
  end.

(* ===================================================================== *)
(** ** Package referencegrant: cross-namespace grant validator *)
(* ===================================================================== *)

Module referencegrant.

(** [Reference]: one end of a reference between two resources. *)
Record Reference : Type := {
  Group : string;
  Kind : string;
  Namespace : string;
  Name : string
}.

(** [Validator]: holds the cluster client. *)
Record Validator `{LabelSelectorLib} : Type := NewValidator {
  client : Client
}.

(** [Validator.matchesFrom(grantFrom, fromRef)]. *)
Definition matchesFrom (grantFrom : ReferenceGrantFrom) (fromRef : Reference) : bool :=
  if negb (String.eqb (rgf_Group grantFrom) (Group fromRef)) then false
  else if negb (String.eqb (rgf_Kind grantFrom) (Kind fromRef)) then false
  else if negb (String.eqb (rgf_Namespace grantFrom) (Namespace fromRef)) then false
  else true.

(** [Validator.matchesTo(grantTo, toRef)]. *)
Definition matchesTo (grantTo : ReferenceGrantTo) (toRef : Reference) : bool :=
  let grantGroup := rgt_Group grantTo in
  let grantGroup := if String.eqb grantGroup "core" then "" else grantGroup in
  if negb (String.eqb grantGroup (Group toRef)) then false
  else if negb (String.eqb (rgt_Kind grantTo) (Kind toRef)) then false
  else
    match rgt_Name grantTo with
    | Some name => if negb (String.eqb name (Name toRef)) then false else true
    | None => true
    end.

(** [Validator.grantAllowsReference(grant, fromRef, toRef)]. *)
Definition grantAllowsReference (grant : ReferenceGrant) (fromRef toRef : Reference) : bool :=
  let fromAllowed := existsb (fun grantFrom => matchesFrom grantFrom fromRef) (rg_From grant) in
  if negb fromAllowed then false
  else existsb (fun grantTo => matchesTo grantTo toRef) (rg_To grant).

(** [Validator.IsReferenceAllowed(ctx, fromRef, toRef)]. *)
Definition IsReferenceAllowed `{LabelSelectorLib} (v : Validator)
    (fromRef toRef : Reference) : result bool :=
  if String.eqb (Namespace fromRef) (Namespace toRef) then Ok true
  else
    match ListReferenceGrants (client v) (Namespace toRef) with
    | Err err => Err (Wrap err "failed to list ReferenceGrants")
    | Ok grants =>
        Ok (existsb (fun grant => grantAllowsReference grant fromRef toRef) grants)
    end.

End referencegrant.

(* ===================================================================== *)
(** ** Package ingress: backend weights and the route-to-proxy builder *)
(* ===================================================================== *)

(** [int32] and [uint32] conversions of a mathematical integer. *)
Definition wrap_int32 (z : Z) : Z := (z + 2147483648) mod 4294967296 - 2147483648.
Definition to_uint32 (z : Z) : Z := z mod 4294967296.
Definition to_uint64 (z : Z) : Z := z mod 18446744073709551616.

Definition DefaultBackendWeight : Z := 1.
Definition MinBackendWeight : Z := 0.
Definition MaxBackendWeight : Z := 1000000.

(** [WeightedRef]: a backend reference with an optional weight. *)
Class WeightedRef (T : Type) : Type := {
  GetWeight : T -> option Z
}.

#[export] Instance BackendRef_WeightedRef : WeightedRef BackendRef := {
  GetWeight := br_Weight
}.

(** The loop of [SelectHighestWeightIndex]: [i] is the index of the head of
    [refs]; [selectedIdx] and [highestWeight] are the loop variables. *)
Fixpoint selectLoop {T} `{WeightedRef T} (refs : list T) (i : Z)
    (selectedIdx highestWeight : Z) : Z :=
  match refs with
  | [] => selectedIdx
  | ref :: rest =>
      let weight :=
        match GetWeight ref with
        | Some w => w
        | None => DefaultBackendWeight
        end in
      if weight =? 0 then selectLoop rest (i + 1) selectedIdx highestWeight
      else if ((selectedIdx =? -1) || (highestWeight <? weight))%bool then
        selectLoop rest (i + 1) i weight
      else selectLoop rest (i + 1) selectedIdx highestWeight
  end.

(** [SelectHighestWeightIndex(refs)]. *)
Definition SelectHighestWeightIndex {T} `{WeightedRef T} (refs : list T) : Z :=
  if (List.length refs =? 0)%nat then -1
  else selectLoop refs 0 (-1) 0.

(** [routingv1.Backend], the wire backend. *)
Inductive BackendProtocol : Type :=
  | BACKEND_PROTOCOL_UNSPECIFIED
  | BACKEND_PROTOCOL_HTTP.

Record Backend : Type := {
  b_Address : string;
  b_Weight : Z;
  b_Protocol : BackendProtocol
}.

(** The wire rule and the wire route; matches and [timeout_ms] are left
    out with the fields of [RouteRule] they are built from. *)
Record WireRule : Type := {
  wr_Backends : list Backend
}.

Record WireRoute : Type := {
  w_Id : string;
  w_Hostnames : list string;
  w_Rules : list WireRule
}.

Record PingoraBuilder : Type := NewPingoraBuilder {
  clusterDomain : string
}.

(** The [%d] verb of [fmt.Sprintf] on an integer. *)
Definition format_d (z : Z) : string :=
  DecimalString.NilZero.string_of_int (Z.to_int z).

(** [PingoraBuilder.buildBackend(namespace, ref)]; [None] is the nil
    result for a backend that is not a Service.  [br_Port] is the port the
    code reads through [*ref.Port]: a [BackendRef] is a reference whose
    port is set, and [buildBackendRef] further down has the nil port. *)
Definition buildBackend (b : PingoraBuilder) (namespace : string) (ref : BackendRef)
    : option Backend :=
  let notService :=
    match br_Kind ref with
    | Some k => negb (String.eqb k "Service")
    | None => false
    end in
  if notService then None
  else
    let backendNamespace :=
      match br_Namespace ref with
      | Some ns => ns
      | None => namespace
      end in
    let address :=
      br_Name ref +:+ "." +:+ backendNamespace +:+ ".svc." +:+ clusterDomain b
        +:+ ":" +:+ format_d (br_Port ref) in
    let weight :=
      match br_Weight ref with
      | Some w => if 0 <? w then to_uint32 w else 1
      | None => 1
      end in
    Some {| b_Address := address;
            b_Weight := weight;
            b_Protocol := BACKEND_PROTOCOL_HTTP |}.

(** [PingoraBuilder.buildHTTPRouteRule] and [buildGRPCRouteRule], as far as
    the backends go: a backend reference that is not a Service yields no
    wire backend. *)
Definition buildRouteRuleBackends (b : PingoraBuilder) (namespace : string)
    (rule : RouteRule) : WireRule :=
  {| wr_Backends :=
       fold_left
         (fun backends backendRef =>
            match buildBackend b namespace backendRef with
            | Some backend => backends ++ [backend]
            | None => backends
            end)
         (rr_BackendRefs rule) [] |}.

(** [PingoraBuilder.BuildHTTPRoute(route)]. *)
Definition BuildHTTPRoute (b : PingoraBuilder) (route : Route) : WireRoute :=
  {| w_Id := r_Namespace route +:+ "/" +:+ r_Name route;
     w_Hostnames := map (fun hostname => hostname) (r_Hostnames route);
     w_Rules := map (buildRouteRuleBackends b (r_Namespace route)) (r_Rules route) |}.

(** [PingoraBuilder.BuildGRPCRoute(route)]. *)
Definition BuildGRPCRoute (b : PingoraBuilder) (route : Route) : WireRoute :=
  {| w_Id := r_Namespace route +:+ "/" +:+ r_Name route;
     w_Hostnames := map (fun hostname => hostname) (r_Hostnames route);
     w_Rules := map (buildRouteRuleBackends b (r_Namespace route)) (r_Rules route) |}.

(* ===================================================================== *)
(** ** Package controller: the Gateway reconciler's attached-route count *)
(* ===================================================================== *)

Definition kindGateway : string := "Gateway".

(** [time.Duration] in nanoseconds. *)
Definition Second : Z := 1000000000.
Definition configErrorRequeueDelay : Z := 30 * Second.
Definition apiErrorRequeueDelay : Z := 30 * Second.

Record PingoraGatewayReconciler `{LabelSelectorLib} : Type := {
  gr_Client : Client;
  gr_GatewayClassName : string;
  gr_ControllerName : string
}.

(** [PingoraGatewayReconciler.refMatchesGateway(ref, gateway, routeNamespace)]. *)
Definition refMatchesGateway `{LabelSelectorLib} (ref : ParentReference)
    (gateway : Gateway) (routeNamespace : string) : bool :=
  if negb (String.eqb (pr_Name ref) (gw_Name gateway)) then false
  else
    let refNamespace :=
      match pr_Namespace ref with
      | Some ns => ns
      | None => routeNamespace
      end in
    String.eqb refNamespace (gw_Namespace gateway).

(** [result[listenerName]++] on a [map[SectionName]int32]: a missing key
    reads as the zero value. *)
Definition incrAttached (result : gmap string Z) (listenerName : string) : gmap string Z :=
  <[listenerName := wrap_int32 (default 0 (result !! listenerName) + 1)]> result.

(** The body of the loop over [route.Spec.ParentRefs] in
    [countAttachedRoutes]. *)
Definition countParentRef `{LabelSelectorLib} (validator : routebinding.Validator)
    (gateway : Gateway) (routeKind : string) (route : Route)
    (result : gmap string Z) (ref : ParentReference) : gmap string Z :=
  if negb (refMatchesGateway ref gateway (r_Namespace route)) then result
  else
    let routeInfo :=
      {| ri_Name := r_Name route;
         ri_Namespace := r_Namespace route;
         ri_Hostnames := r_Hostnames route;
         ri_Kind := routeKind;
         ri_SectionName := pr_SectionName ref |} in
    match ValidateBinding validator gateway routeInfo with
    | Err _ => result
    | Ok bindingResult =>
        if negb (Accepted bindingResult) then result
        else fold_left incrAttached (MatchedListeners bindingResult) result
    end.

(** The loop over the listed routes of one kind in [countAttachedRoutes]. *)
Definition countRoutes `{LabelSelectorLib} (validator : routebinding.Validator)
    (gateway : Gateway) (routeKind : string) (items : list Route)
    (result : gmap string Z) : gmap string Z :=
  fold_left
    (fun result route =>
       fold_left (countParentRef validator gateway routeKind route)
         (r_ParentRefs route) result)
    items result.

(** [PingoraGatewayReconciler.countAttachedRoutes(ctx, gateway)]. *)
Definition countAttachedRoutes `{LabelSelectorLib} (r : PingoraGatewayReconciler)
    (gateway : Gateway) : gmap string Z :=
  let result :=
    fold_left (fun result listener => <[l_Name listener := 0]> result)
      (gw_Listeners gateway) ∅ in
  let validator := routebinding.NewValidator _ (gr_Client r) in
  let result :=
    match ListHTTPRoutes (gr_Client r) with
    | Err _ => result
    | Ok items => countRoutes validator gateway KindHTTPRoute items result
    end in
  match ListGRPCRoutes (gr_Client r) with
  | Err _ => result
  | Ok items => countRoutes validator gateway KindGRPCRoute items result
  end.

(** [gatewayv1.ListenerStatus] as [updateStatus] fills it: conditions are
    (type, status, reason, message). *)
Record ListenerStatus : Type := {
  ls_Name : string;
  ls_SupportedKinds : list RouteGroupKind;
  ls_AttachedRoutes : Z;
  ls_Conditions : list (string * bool * string * string)
}.

(** The listener statuses [updateStatus] writes for the freshly fetched
    Gateway: [attachedRoutes[listener.Name]] reads the count. *)
Definition listenerStatuses `{LabelSelectorLib} (r : PingoraGatewayReconciler)
    (freshGateway : Gateway) : list ListenerStatus :=
  let attachedRoutes := countAttachedRoutes r freshGateway in
  fold_left
    (fun statuses listener =>
       statuses ++
       [ {| ls_Name := l_Name listener;
            ls_SupportedKinds :=
              [ {| rgk_Group := Some GroupName; rgk_Kind := "HTTPRoute" |};
                {| rgk_Group := Some GroupName; rgk_Kind := "GRPCRoute" |} ];
            ls_AttachedRoutes := default 0 (attachedRoutes !! l_Name listener);
            ls_Conditions :=
              [ ("Accepted", true, "Accepted", "Listener accepted");
                ("Programmed", true, "Programmed", "Listener programmed");
                ("ResolvedRefs", true, "ResolvedRefs", "References resolved") ] |} ])
    (gw_Listeners freshGateway) [].

(* ===================================================================== *)
(** ** Package controller: the unified route syncer *)
(* ===================================================================== *)

(** The proxy's RPC surface ([routingv1]). *)
Record UpdateRoutesRequest : Type := {
  req_HttpRoutes : list WireRoute;
  req_GrpcRoutes : list WireRoute;
  req_Version : Z
}.

Record UpdateRoutesResponse : Type := {
  resp_Success : bool;
  resp_Error : string;
  resp_HttpRouteCount : Z;
  resp_GrpcRouteCount : Z;
  resp_AppliedVersion : Z
}.

(** [routingv1.RoutingServiceClient]: a call either fails at the transport
    or returns the proxy's reply. *)
Record RoutingServiceClient : Type := {
  UpdateRoutes : UpdateRoutesRequest -> result UpdateRoutesResponse
}.

(** [*grpc.ClientConn]. *)
Record ClientConn : Type := {
  cc_Target : string
}.

(** [config.ResolvedPingoraConfig], the fields the syncer reads. *)
Record ResolvedPingoraConfig : Type := {
  rc_Address : string;
  rc_ConfigName : string
}.

(** [config.PingoraResolver], the three methods the syncer calls. *)
Record PingoraResolver : Type := {
  ResolveFromGatewayClassName : string -> result ResolvedPingoraConfig;
  CreateGRPCConnection : ResolvedPingoraConfig -> result ClientConn;
  CreateRoutingClient : ClientConn -> RoutingServiceClient
}.

(** [routeBindingInfo]. *)
Record routeBindingInfo : Type := {
  bindingResults : gmap nat BindingResult
}.

(** [SyncResult]. *)
Record SyncResult : Type := {
  HTTPRoutes : list Route;
  GRPCRoutes : list Route;
  HTTPRouteBindings : gmap string routeBindingInfo;
  GRPCRouteBindings : gmap string routeBindingInfo
}.

(** What a sync does besides returning: the calls to the resolver when it
    connects, the closing of a connection, metric records, and the RPC it
    sends together with the transport's answer. *)
Inductive Effect : Type :=
  | ResolveConfig (gatewayClassName : string)
  | DialProxy (address : string)
  | RecordSyncDuration (status : string)
  | RecordSyncError (errorType : string)
  | RecordGRPCCall (method status : string)
  | RecordSyncedRoutes (routeType : string) (count : nat)
  | ConnClose (conn : ClientConn)
  | CallUpdateRoutes (req : UpdateRoutesRequest) (reply : result UpdateRoutesResponse).

(** [PingoraRouteSyncer]: configuration, the connection state guarded by
    [connMu], and the version counter. *)
Record PingoraRouteSyncer `{LabelSelectorLib} : Type := {
  s_Client : Client;
  s_ClusterDomain : string;
  s_GatewayClassName : string;
  s_ConfigResolver : PingoraResolver;
  s_builder : PingoraBuilder;
  s_bindingValidator : routebinding.Validator;
  s_conn : option ClientConn;
  s_grpcClient : option RoutingServiceClient;
  s_configName : string;
  s_version : Z
}.

(** [NewPingoraRouteSyncer]. *)
Definition NewPingoraRouteSyncer `{LabelSelectorLib} (c : Client)
    (clusterDomain gatewayClassName : string) (configResolver : PingoraResolver)
    : PingoraRouteSyncer :=
  {| s_Client := c;
     s_ClusterDomain := clusterDomain;
     s_GatewayClassName := gatewayClassName;
     s_ConfigResolver := configResolver;
     s_builder := NewPingoraBuilder clusterDomain;
     s_bindingValidator := routebinding.NewValidator _ c;
     s_conn := None;
     s_grpcClient := None;
     s_configName := "";
     s_version := 0 |}.

Definition set_connection `{LabelSelectorLib} (s : PingoraRouteSyncer)
    (conn : option ClientConn) (grpcClient : option RoutingServiceClient)
    (configName : string) : PingoraRouteSyncer :=
  {| s_Client := s_Client s;
     s_ClusterDomain := s_ClusterDomain s;
     s_GatewayClassName := s_GatewayClassName s;
     s_ConfigResolver := s_ConfigResolver s;
     s_builder := s_builder s;
     s_bindingValidator := s_bindingValidator s;
     s_conn := conn;
     s_grpcClient := grpcClient;
     s_configName := configName;
     s_version := s_version s |}.

Definition set_version `{LabelSelectorLib} (s : PingoraRouteSyncer) (version : Z)
    : PingoraRouteSyncer :=
  {| s_Client := s_Client s;
     s_ClusterDomain := s_ClusterDomain s;
     s_GatewayClassName := s_GatewayClassName s;
     s_ConfigResolver := s_ConfigResolver s;
     s_builder := s_builder s;
     s_bindingValidator := s_bindingValidator s;
     s_conn := s_conn s;
     s_grpcClient := s_grpcClient s;
     s_configName := s_configName s;
     s_version := version |}.

(** [PingoraRouteSyncer.Connect(ctx)]: the syncer afterwards, what it did,
    and the error if any. *)
Definition Connect `{LabelSelectorLib} (s : PingoraRouteSyncer)
    : PingoraRouteSyncer * list Effect * option error :=
  let closing :=
    match s_conn s with
    | Some conn => [ConnClose conn]
    | None => []
    end in
  let resolving := closing ++ [ResolveConfig (s_GatewayClassName s)] in
  match ResolveFromGatewayClassName (s_ConfigResolver s) (s_GatewayClassName s) with
  | Err err => (s, resolving, Some (Wrap err "failed to resolve Pingora config"))
  | Ok resolved =>
      let dialing := resolving ++ [DialProxy (rc_Address resolved)] in
      match CreateGRPCConnection (s_ConfigResolver s) resolved with
      | Err err => (s, dialing, Some (Wrap err "failed to create gRPC connection"))
      | Ok conn =>
          (set_connection s (Some conn)
             (Some (CreateRoutingClient (s_ConfigResolver s) conn))
             (rc_ConfigName resolved),
           dialing, None)
      end
  end.

(** [PingoraRouteSyncer.Close()]. *)
Definition Close `{LabelSelectorLib} (s : PingoraRouteSyncer)
    : PingoraRouteSyncer * list Effect :=
  match s_conn s with
  | Some conn => (set_connection s None None (s_configName s), [ConnClose conn])
  | None => (s, [])
  end.

(** [PingoraRouteSyncer.IsConnected()]. *)
Definition IsConnected `{LabelSelectorLib} (s : PingoraRouteSyncer) : bool :=
  match s_grpcClient s with
  | Some _ => true
  | None => false
  end.

(** The loop over [route.Spec.ParentRefs] in [getRelevantHTTPRoutes] and
    [getRelevantGRPCRoutes]; [refIdx] is the index of the head of [refs]. *)
Fixpoint evalParentRefs `{LabelSelectorLib} (s : PingoraRouteSyncer)
    (routeKind : string) (route : Route) (refs : list ParentReference)
    (refIdx : nat) (bindingResults : gmap nat BindingResult)
    (hasAcceptedBinding : bool) : gmap nat BindingResult * bool :=
  match refs with
  | [] => (bindingResults, hasAcceptedBinding)
  | ref :: rest =>
      let skip :=
        evalParentRefs s routeKind route rest (S refIdx) bindingResults
          hasAcceptedBinding in
      let otherKind :=
        match pr_Kind ref with
        | Some k => negb (String.eqb k kindGateway)
        | None => false
        end in
      if otherKind then skip
      else
        let namespace :=
          match pr_Namespace ref with
          | Some ns => ns
          | None => r_Namespace route
          end in
        match GetGateway (s_Client s) namespace (pr_Name ref) with
        | Err _ => skip
        | Ok gateway =>
            if negb (String.eqb (gw_GatewayClassName gateway) (s_GatewayClassName s))
            then skip
            else
              let routeInfo :=
                {| ri_Name := r_Name route;
                   ri_Namespace := r_Namespace route;
                   ri_Hostnames := r_Hostnames route;
                   ri_Kind := routeKind;
                   ri_SectionName := pr_SectionName ref |} in
              match ValidateBinding (s_bindingValidator s) gateway routeInfo with
              | Err _ => skip
              | Ok result =>
                  evalParentRefs s routeKind route rest (S refIdx)
                    (<[refIdx := result]> bindingResults)
                    (if Accepted result then true else hasAcceptedBinding)
              end
        end
  end.

(** The key of a route in the binding maps: [route.Namespace + "/" +
    route.Name]. *)
Definition routeKey (route : Route) : string :=
  r_Namespace route +:+ "/" +:+ r_Name route.

(** The body of the loop over [routeList.Items]. *)
Definition collectRoute `{LabelSelectorLib} (s : PingoraRouteSyncer)
    (routeKind : string) (acc : list Route * gmap string routeBindingInfo)
    (route : Route) : list Route * gmap string routeBindingInfo :=
  let '(relevantRoutes, bindings) := acc in
  let '(results, hasAcceptedBinding) :=
    evalParentRefs s routeKind route (r_ParentRefs route) 0%nat ∅ false in
  let bindings := <[routeKey route := {| bindingResults := results |}]> bindings in
  if hasAcceptedBinding then (relevantRoutes ++ [route], bindings)
  else (relevantRoutes, bindings).

(** [PingoraRouteSyncer.getRelevantHTTPRoutes(ctx)]. *)
Definition getRelevantHTTPRoutes `{LabelSelectorLib} (s : PingoraRouteSyncer)
    : result (list Route * gmap string routeBindingInfo) :=
  match ListHTTPRoutes (s_Client s) with
  | Err err => Err (Wrap err "failed to list httproutes")
  | Ok items => Ok (fold_left (collectRoute s KindHTTPRoute) items ([], ∅))
  end.

(** [PingoraRouteSyncer.getRelevantGRPCRoutes(ctx)]. *)
Definition getRelevantGRPCRoutes `{LabelSelectorLib} (s : PingoraRouteSyncer)
    : result (list Route * gmap string routeBindingInfo) :=
  match ListGRPCRoutes (s_Client s) with
  | Err err => Err (Wrap err "failed to list grpcroutes")
  | Ok items => Ok (fold_left (collectRoute s KindGRPCRoute) items ([], ∅))
  end.

(** What [SyncAllRoutes] hands back: [ctrl.Result.RequeueAfter], the
    [*SyncResult] (nil is [None]), the error (nil is [None]), the syncer
    afterwards and what the call did, in order. *)
Record SyncOutcome `{LabelSelectorLib} : Type := {
  RequeueAfter : Z;
  syncResult : option SyncResult;
  syncErr : option error;
  syncer' : PingoraRouteSyncer;
  effects : list Effect
}.

(** The outcome [out] of the rest of a call, after the effects [before]. *)
Definition afterEffects `{LabelSelectorLib} (before : list Effect) (out : SyncOutcome)
    : SyncOutcome :=
  {| RequeueAfter := RequeueAfter out;
     syncResult := syncResult out;
     syncErr := syncErr out;
     syncer' := syncer' out;
     effects := before ++ effects out |}.

(** [SyncAllRoutes] from the point where the connection is ensured:
    collect the relevant routes, build the wire routes, take the next
    version, push, and read the reply. *)
Definition syncConnected `{LabelSelectorLib} (s : PingoraRouteSyncer) : SyncOutcome :=
  match getRelevantHTTPRoutes s with
  | Err err =>
      {| RequeueAfter := 0; syncResult := None;
         syncErr := Some (Wrap err "failed to list httproutes");
         syncer' := s; effects := [] |}
  | Ok (httpRoutes, httpBindings) =>
      match getRelevantGRPCRoutes s with
      | Err err =>
          {| RequeueAfter := 0; syncResult := None;
             syncErr := Some (Wrap err "failed to list grpcroutes");
             syncer' := s; effects := [] |}
      | Ok (grpcRoutes, grpcBindings) =>
          let pingoraHTTPRoutes := map (BuildHTTPRoute (s_builder s)) httpRoutes in
          let pingoraGRPCRoutes := map (BuildGRPCRoute (s_builder s)) grpcRoutes in
          let version := to_uint64 (s_version s + 1) in
          let s := set_version s version in
          let req :=
            {| req_HttpRoutes := pingoraHTTPRoutes;
               req_GrpcRoutes := pingoraGRPCRoutes;
               req_Version := version |} in
          let result :=
            {| HTTPRoutes := httpRoutes;
               GRPCRoutes := grpcRoutes;
               HTTPRouteBindings := httpBindings;
               GRPCRouteBindings := grpcBindings |} in
          match s_grpcClient s with
          | None =>
              {| RequeueAfter := apiErrorRequeueDelay; syncResult := None;
                 syncErr := None; syncer' := s;
                 effects := [RecordSyncDuration "error"; RecordSyncError "not_connected"] |}
          | Some grpcClient =>
              match UpdateRoutes grpcClient req with
              | Err err =>
                  let '(s, closing) :=
                    match s_conn s with
                    | Some conn =>
                        (set_connection s None None (s_configName s), [ConnClose conn])
                    | None => (s, [])
                    end in
                  {| RequeueAfter := apiErrorRequeueDelay;
                     syncResult := Some result;
                     syncErr := Some (Wrap err "failed to update routes via gRPC");
                     syncer' := s;
                     effects := [CallUpdateRoutes req (Err err);
                                 RecordGRPCCall "UpdateRoutes" "error";
                                 RecordSyncDuration "error";
                                 RecordSyncError "grpc_error"] ++ closing |}
              | Ok resp =>
                  if negb (resp_Success resp) then
                    {| RequeueAfter := apiErrorRequeueDelay;
                       syncResult := Some result;
                       syncErr := Some (Newf ("route update failed: " +:+ resp_Error resp));
                       syncer' := s;
                       effects := [CallUpdateRoutes req (Ok resp);
                                   RecordGRPCCall "UpdateRoutes" "failed";
                                   RecordSyncDuration "error";
                                   RecordSyncError "update_failed"] |}
                  else
                    {| RequeueAfter := 0;
                       syncResult := Some result;
                       syncErr := None;
                       syncer' := s;
                       effects := [CallUpdateRoutes req (Ok resp);
                                   RecordGRPCCall "UpdateRoutes" "success";
                                   RecordSyncDuration "success";
                                   RecordSyncedRoutes "http" (List.length httpRoutes);
                                   RecordSyncedRoutes "grpc" (List.length grpcRoutes)] |}
              end
          end
      end
  end.

(** [PingoraRouteSyncer.SyncAllRoutes(ctx)]: connect when no client handle
    is held, then go on as [syncConnected]. *)
Definition SyncAllRoutes `{LabelSelectorLib} (s : PingoraRouteSyncer) : SyncOutcome :=
  if negb (IsConnected s) then
    match Connect s with
    | (s, connectEffects, Some _) =>
        {| RequeueAfter := apiErrorRequeueDelay; syncResult := None; syncErr := None;
           syncer' := s;
           effects := connectEffects ++
                      [RecordSyncDuration "error"; RecordSyncError "connection_failed"] |}
    | (s, connectEffects, None) => afterEffects connectEffects (syncConnected s)
    end
  else syncConnected s.

(* ===================================================================== *)
(** ** Error texts *)
(* ===================================================================== *)

(** [err.Error()]: [errors.Wrap(err, msg)] reads [msg], a colon and the
    text of [err]. *)
Fixpoint Error (err : error) : string :=
  match err with
  | LibError msg => msg
  | Wrap inner msg => msg +:+ ": " +:+ Error inner
  | Newf msg => msg
  | NilDereference => "runtime error: invalid memory address or nil pointer dereference"
  end.

(* ===================================================================== *)
(** ** Package v1alpha1: the PingoraConfig resource *)
(* ===================================================================== *)

Definition DefaultGRPCPort : Z := 50051.
Definition DefaultConnectTimeout : Z := 5.
Definition DefaultRequestTimeout : Z := 30.
Definition DefaultKeepaliveTime : Z := 30.
Definition DefaultMaxRetries : Z := 3.
Definition DefaultRetryBackoff : Z := 1000.

Record SecretReference : Type := {
  sr_Name : string;
  sr_Namespace : string
}.

Record TLSConfig : Type := {
  tls_Enabled : bool;
  tls_SecretRef : option SecretReference;
  tls_InsecureSkipVerify : bool;
  tls_ServerName : string
}.

Record ConnectionConfig : Type := {
  cn_ConnectTimeoutSeconds : option Z;
  cn_RequestTimeoutSeconds : option Z;
  cn_KeepaliveTimeSeconds : option Z;
  cn_MaxRetries : option Z;
  cn_RetryBackoffMs : option Z
}.

Record PingoraConfigSpec : Type := {
  pcs_Address : string;
  pcs_TLS : option TLSConfig;
  pcs_Connection : option ConnectionConfig
}.

(** [PingoraConfig]: cluster-scoped, so it has a name and no namespace. *)
Record PingoraConfig : Type := {
  pc_Name : string;
  pc_Spec : PingoraConfigSpec
}.

(** [PingoraConfigSpec.IsTLSEnabled()]. *)
Definition IsTLSEnabled (c : PingoraConfigSpec) : bool :=
  match pcs_TLS c with
  | Some tls => tls_Enabled tls
  | None => false
  end.

(** [PingoraConfigSpec.GetConnectTimeout()]. *)
Definition GetConnectTimeout (c : PingoraConfigSpec) : Z :=
  match pcs_Connection c with
  | None => DefaultConnectTimeout
  | Some connection =>
      match cn_ConnectTimeoutSeconds connection with
      | None => DefaultConnectTimeout
      | Some seconds => seconds
      end
  end.

(** [PingoraConfigSpec.GetRequestTimeout()]. *)
Definition GetRequestTimeout (c : PingoraConfigSpec) : Z :=
  match pcs_Connection c with
  | None => DefaultRequestTimeout
  | Some connection =>
      match cn_RequestTimeoutSeconds connection with
      | None => DefaultRequestTimeout
      | Some seconds => seconds
      end
  end.

(** [PingoraConfigSpec.GetKeepaliveTime()]. *)
Definition GetKeepaliveTime (c : PingoraConfigSpec) : Z :=
  match pcs_Connection c with
  | None => DefaultKeepaliveTime
  | Some connection =>
      match cn_KeepaliveTimeSeconds connection with
      | None => DefaultKeepaliveTime
      | Some seconds => seconds
      end
  end.

(** [PingoraConfigSpec.GetMaxRetries()]. *)
Definition GetMaxRetries (c : PingoraConfigSpec) : Z :=
  match pcs_Connection c with
  | None => DefaultMaxRetries
  | Some connection =>
      match cn_MaxRetries connection with
      | None => DefaultMaxRetries
      | Some retries => retries
      end
  end.

(** [PingoraConfigSpec.GetRetryBackoff()]. *)
Definition GetRetryBackoff (c : PingoraConfigSpec) : Z :=
  match pcs_Connection c with
  | None => DefaultRetryBackoff
  | Some connection =>
      match cn_RetryBackoffMs connection with
      | None => DefaultRetryBackoff
      | Some milliseconds => milliseconds
      end
  end.

(* ===================================================================== *)
(** ** Package config: resolving the PingoraConfig of a GatewayClass *)
(* ===================================================================== *)

(** [gatewayv1.ParametersReference] and [gatewayv1.GatewayClass], as far as
    the resolver reads them. *)
Record ParametersReference : Type := {
  pref_Group : string;
  pref_Kind : string;
  pref_Name : string
}.

Record GatewayClass : Type := {
  gc_Name : string;
  gc_ParametersRef : option ParametersReference
}.

(** [corev1.Secret]. *)
Record Secret : Type := {
  sec_Name : string;
  sec_Namespace : string;
  sec_Data : gmap string (list Byte.byte)
}.

(** The reads of [client.Client] that the resolver and the config mapper
    perform: a GatewayClass and a PingoraConfig by name, a Secret by
    namespace and name. *)
Record ConfigClient : Type := {
  GetGatewayClass : string -> result GatewayClass;
  GetPingoraConfig : string -> result PingoraConfig;
  GetSecret : string -> string -> result Secret
}.

Module config.

Definition PingoraParametersRefGroup : string := "pingora.k8s.lex.la".
Definition PingoraParametersRefKind : string := "PingoraConfig".

(** [time.Millisecond], in nanoseconds like [Second]. *)
Definition Millisecond : Z := 1000000.

(** [ResolvedPingoraConfig], all fields. *)
Record ResolvedPingoraConfig : Type := {
Address : string;
TLSEnabled : bool;
TLSCert : list Byte.byte;
TLSKey : list Byte.byte;
TLSCA : list Byte.byte;
TLSInsecureSkipVerify : bool;
TLSServerName : string;
ConnectTimeout : Z;
RequestTimeout : Z;
KeepaliveTime : Z;
MaxRetries : Z;
RetryBackoff : Z;
ConfigName : string
}.

Record PingoraResolver : Type := NewPingoraResolver {
client : ConfigClient;
defaultNamespace : string
}.

(** [PingoraResolver.getSecret(ctx, name, namespace)]. *)
Definition getSecret (r : PingoraResolver) (name namespace : string) : result Secret :=
let namespace := if String.eqb namespace "" then defaultNamespace r else namespace in
match GetSecret (client r) namespace name with
| Err err => Err (Wrap err ("failed to get secret " +:+ namespace +:+ "/" +:+ name))
| Ok secret => Ok secret
end.

(** [PingoraResolver.resolveConfig(ctx, config)].  An [int32] number of
  seconds or milliseconds times the unit stays within [int64]. *)
Definition resolveConfig (r : PingoraResolver) (config : PingoraConfig)
  : result ResolvedPingoraConfig :=
let spec := pc_Spec config in
if String.eqb (pcs_Address spec) "" then Err (Newf "address is required in PingoraConfig")
else
  let resolved := fun (insecureSkipVerify : bool) (serverName : string)
                      (cert key ca : list Byte.byte) =>
    {| Address := pcs_Address spec;
       TLSEnabled := IsTLSEnabled spec;
       TLSCert := cert;
       TLSKey := key;
       TLSCA := ca;
       TLSInsecureSkipVerify := insecureSkipVerify;
       TLSServerName := serverName;
       ConnectTimeout := GetConnectTimeout spec * Second;
       RequestTimeout := GetRequestTimeout spec * Second;
       KeepaliveTime := GetKeepaliveTime spec * Second;
       MaxRetries := GetMaxRetries spec;
       RetryBackoff := GetRetryBackoff spec * Millisecond;
       ConfigName := pc_Name config |} in
  if IsTLSEnabled spec then
    match pcs_TLS spec with
    | Some tls =>
        match tls_SecretRef tls with
        | Some secretRef =>
            match getSecret r (sr_Name secretRef) (sr_Namespace secretRef) with
            | Err err => Err (Wrap err "failed to get TLS secret")
            | Ok secret =>
                Ok (resolved (tls_InsecureSkipVerify tls) (tls_ServerName tls)
                      (default [] (sec_Data secret !! "tls.crt"))
                      (default [] (sec_Data secret !! "tls.key"))
                      (default [] (sec_Data secret !! "ca.crt")))
            end
        | None =>
            Ok (resolved (tls_InsecureSkipVerify tls) (tls_ServerName tls) [] [] [])
        end
    | None => Ok (resolved false "" [] [] [])
    end
  else Ok (resolved false "" [] [] []).

(** [PingoraResolver.ResolveFromGatewayClass(ctx, gatewayClass)]. *)
Definition ResolveFromGatewayClass (r : PingoraResolver) (gatewayClass : GatewayClass)
  : result ResolvedPingoraConfig :=
match gc_ParametersRef gatewayClass with
| None => Err (Newf "GatewayClass has no parametersRef")
| Some ref =>
    if negb (String.eqb (pref_Group ref) PingoraParametersRefGroup) then
      Err (Newf ("unsupported parametersRef group: " +:+ pref_Group ref
                 +:+ " (expected " +:+ PingoraParametersRefGroup +:+ ")"))
    else if negb (String.eqb (pref_Kind ref) PingoraParametersRefKind) then
      Err (Newf ("unsupported parametersRef kind: " +:+ pref_Kind ref
                 +:+ " (expected " +:+ PingoraParametersRefKind +:+ ")"))
    else
      match GetPingoraConfig (client r) (pref_Name ref) with
      | Err err => Err (Wrap err ("failed to get PingoraConfig " +:+ pref_Name ref))
      | Ok config => resolveConfig r config
      end
end.

(** [PingoraResolver.ResolveFromGatewayClassName(ctx, gatewayClassName)]. *)
Definition ResolveFromGatewayClassName (r : PingoraResolver) (gatewayClassName : string)
  : result ResolvedPingoraConfig :=
match GetGatewayClass (client r) gatewayClassName with
| Err err => Err (Wrap err ("failed to get GatewayClass " +:+ gatewayClassName))
| Ok gatewayClass => ResolveFromGatewayClass r gatewayClass
end.

(** [PingoraResolver.GetConfigForGatewayClass(ctx, gatewayClass)]. *)
Definition GetConfigForGatewayClass (r : PingoraResolver) (gatewayClass : GatewayClass)
  : result PingoraConfig :=
match gc_ParametersRef gatewayClass with
| None => Err (Newf "GatewayClass has no parametersRef")
| Some ref =>
    if (negb (String.eqb (pref_Group ref) PingoraParametersRefGroup)
        || negb (String.eqb (pref_Kind ref) PingoraParametersRefKind))%bool then
      Err (Newf ("unsupported parametersRef: " +:+ pref_Group ref +:+ "/"
                 +:+ pref_Kind ref))
    else
      match GetPingoraConfig (client r) (pref_Name ref) with
      | Err err => Err (Wrap err ("failed to get PingoraConfig " +:+ pref_Name ref))
      | Ok config => Ok config
      end
end.

End config.

(* ===================================================================== *)
(** ** Package ingress: rules with their matches and timeouts *)
(* ===================================================================== *)

(** [time.ParseDuration] is an external collaborator: a duration string
    parses to a number of nanoseconds, or not at all. *)
Class DurationLib : Type := {
  ParseDuration : string -> result Z
}.

(** [parseGatewayDuration(s)]. *)
Definition parseGatewayDuration `{DurationLib} (s : string) : result Z := ParseDuration s.

(** [time.Duration.Milliseconds()]: the integer quotient, towards zero. *)
Definition Milliseconds (d : Z) : Z := Z.quot d 1000000.

(** The match types of [gatewayv1]. *)
Definition PathMatchExact : string := "Exact".
Definition PathMatchPathPrefix : string := "PathPrefix".
Definition PathMatchRegularExpression : string := "RegularExpression".
Definition HeaderMatchExact : string := "Exact".
Definition HeaderMatchRegularExpression : string := "RegularExpression".
Definition QueryParamMatchExact : string := "Exact".
Definition QueryParamMatchRegularExpression : string := "RegularExpression".
Definition GRPCMethodMatchExact : string := "Exact".
Definition GRPCMethodMatchRegularExpression : string := "RegularExpression".
Definition GRPCHeaderMatchExact : string := "Exact".
Definition GRPCHeaderMatchRegularExpression : string := "RegularExpression".

(** [gatewayv1.HTTPPathMatch], [HTTPHeaderMatch] (also the shape of
    [HTTPQueryParamMatch] and [GRPCHeaderMatch]), [HTTPRouteMatch],
    [HTTPRouteTimeouts] and [HTTPRouteRule]. *)
Record HTTPPathMatch : Type := {
  hpm_Type : option string;
  hpm_Value : option string
}.

Record NameValueMatch : Type := {
  nvm_Type : option string;
  nvm_Name : string;
  nvm_Value : string
}.

Record HTTPRouteMatch : Type := {
  hm_Path : option HTTPPathMatch;
  hm_Headers : list NameValueMatch;
  hm_QueryParams : list NameValueMatch;
  hm_Method : option string
}.

Record HTTPRouteTimeouts : Type := {
  ht_Request : option string;
  ht_BackendRequest : option string
}.

(** [gatewayv1.HTTPBackendRef] and [gatewayv1.GRPCBackendRef], as far as
    the builder reads them: the [gatewayv1.BackendRef] inside, with its
    port the pointer that it is. *)
Record HTTPBackendRef : Type := {
  hbr_Kind : option string;
  hbr_Name : string;
  hbr_Namespace : option string;
  hbr_Port : option Z;
  hbr_Weight : option Z
}.

Record HTTPRouteRule : Type := {
  hrr_Matches : list HTTPRouteMatch;
  hrr_BackendRefs : list HTTPBackendRef;
  hrr_Timeouts : option HTTPRouteTimeouts
}.

(** [gatewayv1.GRPCMethodMatch], [GRPCRouteMatch] and [GRPCRouteRule]. *)
Record GRPCMethodMatch : Type := {
  gmm_Type : option string;
  gmm_Service : option string;
  gmm_Method : option string
}.

Record GRPCRouteMatch : Type := {
  gm_Method : option GRPCMethodMatch;
  gm_Headers : list NameValueMatch
}.

Record GRPCRouteRule : Type := {
  grr_Matches : list GRPCRouteMatch;
  grr_BackendRefs : list HTTPBackendRef
}.

(** The wire types of [routingv1]; an enum's zero value is its
    [UNSPECIFIED] member. *)
Inductive PathMatchType : Type :=
  | PATH_MATCH_TYPE_UNSPECIFIED
  | PATH_MATCH_TYPE_EXACT
  | PATH_MATCH_TYPE_PREFIX
  | PATH_MATCH_TYPE_REGEX.

Inductive ValueMatchType : Type :=
  | MATCH_TYPE_UNSPECIFIED
  | MATCH_TYPE_EXACT
  | MATCH_TYPE_REGEX.

Record WirePathMatch : Type := {
  wpm_Type : PathMatchType;
  wpm_Value : string
}.

(** [routingv1.HeaderMatch] and [routingv1.QueryParamMatch]. *)
Record WireValueMatch : Type := {
  wvm_Name : string;
  wvm_Value : string;
  wvm_Type : ValueMatchType
}.

Record WireHTTPRouteMatch : Type := {
  whm_Path : option WirePathMatch;
  whm_Method : string;
  whm_Headers : list WireValueMatch;
  whm_QueryParams : list WireValueMatch
}.

Record WireHTTPRouteRule : Type := {
  whr_Matches : list WireHTTPRouteMatch;
  whr_Backends : list Backend;
  whr_TimeoutMs : Z
}.

Record WireGRPCMethodMatch : Type := {
  wgm_Service : string;
  wgm_Method : string;
  wgm_Type : ValueMatchType
}.

Record WireGRPCRouteMatch : Type := {
  wgrm_Method : option WireGRPCMethodMatch;
  wgrm_Headers : list WireValueMatch
}.

Record WireGRPCRouteRule : Type := {
  wgr_Matches : list WireGRPCRouteMatch;
  wgr_Backends : list Backend
}.

(** The switch on a match type shared by [buildHeaderMatch],
    [buildQueryParamMatch], [buildGRPCHeaderMatch] and the method match of
    [buildGRPCRouteMatch]: a nil type is exact, and a type that is neither
    of the two leaves the zero value. *)
Definition valueMatchType (type : option string) (exact regularExpression : string)
    : ValueMatchType :=
  match type with
  | Some t =>
      if String.eqb t exact then MATCH_TYPE_EXACT
      else if String.eqb t regularExpression then MATCH_TYPE_REGEX
      else MATCH_TYPE_UNSPECIFIED
  | None => MATCH_TYPE_EXACT
  end.

(** [PingoraBuilder.buildHeaderMatch(match)]. *)
Definition buildHeaderMatch (b : PingoraBuilder) (m : NameValueMatch) : WireValueMatch :=
  {| wvm_Name := nvm_Name m;
     wvm_Value := nvm_Value m;
     wvm_Type := valueMatchType (nvm_Type m) HeaderMatchExact HeaderMatchRegularExpression |}.

(** [PingoraBuilder.buildQueryParamMatch(match)]. *)
Definition buildQueryParamMatch (b : PingoraBuilder) (m : NameValueMatch)
    : WireValueMatch :=
  {| wvm_Name := nvm_Name m;
     wvm_Value := nvm_Value m;
     wvm_Type :=
       valueMatchType (nvm_Type m) QueryParamMatchExact QueryParamMatchRegularExpression |}.

(** [PingoraBuilder.buildGRPCHeaderMatch(match)]. *)
Definition buildGRPCHeaderMatch (b : PingoraBuilder) (m : NameValueMatch)
    : WireValueMatch :=
  {| wvm_Name := nvm_Name m;
     wvm_Value := nvm_Value m;
     wvm_Type :=
       valueMatchType (nvm_Type m) GRPCHeaderMatchExact GRPCHeaderMatchRegularExpression |}.

(** [PingoraBuilder.buildHTTPRouteMatch(match)].  The path's value and type
    are dereferenced as they are: a nil one is a nil dereference. *)
Definition buildHTTPRouteMatch (b : PingoraBuilder) (m : HTTPRouteMatch)
    : result WireHTTPRouteMatch :=
  let path :=
    match hm_Path m with
    | Some p =>
        match hpm_Value p, hpm_Type p with
        | Some value, Some type =>
            Ok (Some {| wpm_Type :=
                          if String.eqb type PathMatchExact then PATH_MATCH_TYPE_EXACT
                          else if String.eqb type PathMatchPathPrefix
                               then PATH_MATCH_TYPE_PREFIX
                          else if String.eqb type PathMatchRegularExpression
                               then PATH_MATCH_TYPE_REGEX
                          else PATH_MATCH_TYPE_UNSPECIFIED;
                        wpm_Value := value |})
        | _, _ => Err NilDereference
        end
    | None => Ok None
    end in
  match path with
  | Err err => Err err
  | Ok path =>
      Ok {| whm_Path := path;
            whm_Method := default "" (hm_Method m);
            whm_Headers := map (buildHeaderMatch b) (hm_Headers m);
            whm_QueryParams := map (buildQueryParamMatch b) (hm_QueryParams m) |}
  end.

(** The loop of [buildHTTPRouteRule] over [rule.Matches]. *)
Fixpoint buildHTTPRouteMatches (b : PingoraBuilder) (matches : list HTTPRouteMatch)
    (built : list WireHTTPRouteMatch) : result (list WireHTTPRouteMatch) :=
  match matches with
  | [] => Ok built
  | m :: rest =>
      match buildHTTPRouteMatch b m with
      | Err err => Err err
      | Ok wireMatch => buildHTTPRouteMatches b rest (built ++ [wireMatch])
      end
  end.

(** A backend reference whose port is set, with the port read through
    the pointer. *)
Definition withPort (ref : HTTPBackendRef) (port : Z) : BackendRef :=
  {| br_Kind := hbr_Kind ref;
     br_Name := hbr_Name ref;
     br_Namespace := hbr_Namespace ref;
     br_Port := port;
     br_Weight := hbr_Weight ref |}.

(** [PingoraBuilder.buildBackend(namespace, ref)] on a reference as the
    API has it.  The kind is tested first; [*ref.Port] is then evaluated
    for the address, and on a reference without a port it is a nil
    dereference.  With a port the result is that of [buildBackend]. *)
Definition buildBackendRef (b : PingoraBuilder) (namespace : string)
    (ref : HTTPBackendRef) : result (option Backend) :=
  let notService :=
    match hbr_Kind ref with
    | Some k => negb (String.eqb k "Service")
    | None => false
    end in
  if notService then Ok None
  else
    match hbr_Port ref with
    | None => Err NilDereference
    | Some port => Ok (buildBackend b namespace (withPort ref port))
    end.

(** The loop over [rule.BackendRefs] of [buildHTTPRouteRule] and
    [buildGRPCRouteRule]. *)
Fixpoint buildBackends (b : PingoraBuilder) (namespace : string)
    (backendRefs : list HTTPBackendRef) (backends : list Backend)
    : result (list Backend) :=
  match backendRefs with
  | [] => Ok backends
  | backendRef :: rest =>
      match buildBackendRef b namespace backendRef with
      | Err err => Err err
      | Ok (Some backend) => buildBackends b namespace rest (backends ++ [backend])
      | Ok None => buildBackends b namespace rest backends
      end
  end.

(** [PingoraBuilder.buildHTTPRouteRule(namespace, rule)]: the matches, then
    the backends, then the timeout. *)
Definition buildHTTPRouteRule `{DurationLib} (b : PingoraBuilder) (namespace : string)
    (rule : HTTPRouteRule) : result WireHTTPRouteRule :=
  let matches :=
    if (List.length (hrr_Matches rule) =? 0)%nat then
      Ok [ {| whm_Path := Some {| wpm_Type := PATH_MATCH_TYPE_PREFIX; wpm_Value := "/" |};
              whm_Method := ""; whm_Headers := []; whm_QueryParams := [] |} ]
    else buildHTTPRouteMatches b (hrr_Matches rule) [] in
  match matches with
  | Err err => Err err
  | Ok matches =>
      match buildBackends b namespace (hrr_BackendRefs rule) [] with
      | Err err => Err err
      | Ok backends =>
          let timeoutMs :=
            match hrr_Timeouts rule with
            | Some timeouts =>
                match ht_Request timeouts with
                | Some request =>
                    match parseGatewayDuration request with
                    | Ok timeout =>
                        let ms := Milliseconds timeout in
                        if 0 <? ms then to_uint64 ms else 0
                    | Err _ => 0
                    end
                | None => 0
                end
            | None => 0
            end in
          Ok {| whr_Matches := matches; whr_Backends := backends;
                whr_TimeoutMs := timeoutMs |}
      end
  end.

(** [PingoraBuilder.buildGRPCRouteMatch(match)]. *)
Definition buildGRPCRouteMatch (b : PingoraBuilder) (m : GRPCRouteMatch)
    : WireGRPCRouteMatch :=
  {| wgrm_Method :=
       match gm_Method m with
       | Some method =>
           Some {| wgm_Service := default "" (gmm_Service method);
                   wgm_Method := default "" (gmm_Method method);
                   wgm_Type :=
                     valueMatchType (gmm_Type method) GRPCMethodMatchExact
                       GRPCMethodMatchRegularExpression |}
       | None => None
       end;
     wgrm_Headers := map (buildGRPCHeaderMatch b) (gm_Headers m) |}.

(** [PingoraBuilder.buildGRPCRouteRule(namespace, rule)]. *)
Definition buildGRPCRouteRule (b : PingoraBuilder) (namespace : string)
    (rule : GRPCRouteRule) : result WireGRPCRouteRule :=
  let matches :=
    fold_left (fun matches m => matches ++ [buildGRPCRouteMatch b m])
      (grr_Matches rule) [] in
  match buildBackends b namespace (grr_BackendRefs rule) [] with
  | Err err => Err err
  | Ok backends => Ok {| wgr_Matches := matches; wgr_Backends := backends |}
  end.

(* ===================================================================== *)
(** ** Package controller: event mappers *)
(* ===================================================================== *)

(** [reconcile.Request]: the namespaced name of the object to reconcile. *)
Record Request : Type := {
  rq_Namespace : string;
  rq_Name : string
}.

(** The [Route] interface with its two implementations; the record [Route]
    of the model stands for [gatewayv1.HTTPRoute] and [gatewayv1.GRPCRoute]
    alike. *)
Inductive WrappedRoute : Type :=
  | HTTPRouteWrapper (route : Route)
  | GRPCRouteWrapper (route : Route).

Module wrapper.

Definition wrapped (w : WrappedRoute) : Route :=
  match w with
  | HTTPRouteWrapper route => route
  | GRPCRouteWrapper route => route
  end.

Definition GetName (w : WrappedRoute) : string := r_Name (wrapped w).
Definition GetNamespace (w : WrappedRoute) : string := r_Namespace (wrapped w).
Definition GetHostnames (w : WrappedRoute) : list string := r_Hostnames (wrapped w).
Definition GetParentRefs (w : WrappedRoute) : list ParentReference :=
  r_ParentRefs (wrapped w).

Definition GetRouteKind (w : WrappedRoute) : string :=
  match w with
  | HTTPRouteWrapper _ => KindHTTPRoute
  | GRPCRouteWrapper _ => KindGRPCRoute
  end.

End wrapper.

(** [extractCrossNamespaceBackends(routeNamespace, refs)] with its two loop
    variables, the slice [namespaces] and the map [seen]; a key that is
    missing from [seen] reads as [false]. *)
Definition extractCrossNamespaceBackends (routeNamespace : string)
    (refs : list BackendRef) : list string :=
  fst (fold_left
         (fun (state : list string * gmap string bool) ref =>
            let '(namespaces, seen) := state in
            match br_Namespace ref with
            | Some backendNs =>
                if (negb (String.eqb backendNs routeNamespace)
                    && negb (default false (seen !! backendNs)))%bool
                then (namespaces ++ [backendNs], <[backendNs := true]> seen)
                else state
            | None => state
            end)
         refs ([], ∅)).

(** [GetCrossNamespaceBackendNamespaces()], the same for both wrappers. *)
Definition GetCrossNamespaceBackendNamespaces (w : WrappedRoute) : list string :=
  let refs :=
    fold_left
      (fun refs rule => fold_left (fun refs ref => refs ++ [ref]) (rr_BackendRefs rule) refs)
      (r_Rules (wrapper.wrapped w)) [] in
  extractCrossNamespaceBackends (r_Namespace (wrapper.wrapped w)) refs.

(** [client.Object]: the kinds of object the mappers are handed. *)
Inductive Object `{LabelSelectorLib} : Type :=
  | GatewayObject (gateway : Gateway)
  | GatewayClassObject (gatewayClass : GatewayClass)
  | ReferenceGrantObject (refGrant : ReferenceGrant)
  | HTTPRouteObject (route : Route)
  | GRPCRouteObject (route : Route)
  | PingoraConfigObject (pingoraConfig : PingoraConfig)
  | SecretObject (secret : Secret).

(** The literal [reconcile.Request{NamespacedName: ...}] of a route. *)
Definition requestFor (route : WrappedRoute) : Request :=
  {| rq_Namespace := wrapper.GetNamespace route; rq_Name := wrapper.GetName route |}.

(** [FindRoutesForReferenceGrant(obj, routes)]; [slices.Contains] is
    [existsb]. *)
Definition FindRoutesForReferenceGrant `{LabelSelectorLib} (obj : Object)
    (routes : list WrappedRoute) : list Request :=
  match obj with
  | ReferenceGrantObject refGrant =>
      let targetNamespace := rg_Namespace refGrant in
      fold_left
        (fun requests route =>
           let crossNsBackends := GetCrossNamespaceBackendNamespaces route in
           if existsb (fun ns => String.eqb ns targetNamespace) crossNsBackends
           then requests ++ [requestFor route]
           else requests)
        routes []
  | _ => []
  end.

(** [FindRoutesForGateway(obj, gatewayClassName, routes)]; the inner loop
    leaves at the first parent reference that names the Gateway. *)
Definition FindRoutesForGateway `{LabelSelectorLib} (obj : Object)
    (gatewayClassName : string) (routes : list WrappedRoute) : list Request :=
  match obj with
  | GatewayObject gateway =>
      if negb (String.eqb (gw_GatewayClassName gateway) gatewayClassName) then []
      else
        fold_left
          (fun requests route =>
             if existsb (fun ref => String.eqb (pr_Name ref) (gw_Name gateway))
                  (wrapper.GetParentRefs route)
             then requests ++ [requestFor route]
             else requests)
          routes []
  | _ => []
  end.

(** The loop of [IsRouteAcceptedByGateway] over [route.GetParentRefs()]. *)
Fixpoint acceptedByParentRefs `{LabelSelectorLib} (cli : Client)
    (validator : routebinding.Validator) (gatewayClassName : string)
    (route : WrappedRoute) (refs : list ParentReference) : bool :=
  match refs with
  | [] => false
  | ref :: rest =>
      let next := acceptedByParentRefs cli validator gatewayClassName route rest in
      let otherKind :=
        match pr_Kind ref with
        | Some k => negb (String.eqb k kindGateway)
        | None => false
        end in
      if otherKind then next
      else
        let namespace :=
          match pr_Namespace ref with
          | Some ns => ns
          | None => wrapper.GetNamespace route
          end in
        match GetGateway cli namespace (pr_Name ref) with
        | Err _ => next
        | Ok gateway =>
            if negb (String.eqb (gw_GatewayClassName gateway) gatewayClassName) then next
            else
              let routeInfo :=
                {| ri_Name := wrapper.GetName route;
                   ri_Namespace := wrapper.GetNamespace route;
                   ri_Hostnames := wrapper.GetHostnames route;
                   ri_Kind := wrapper.GetRouteKind route;
                   ri_SectionName := pr_SectionName ref |} in
              match ValidateBinding validator gateway routeInfo with
              | Err _ => next
              | Ok result => if Accepted result then true else next
              end
        end
  end.

(** [IsRouteAcceptedByGateway(ctx, cli, validator, gatewayClassName, route)]. *)
Definition IsRouteAcceptedByGateway `{LabelSelectorLib} (cli : Client)
    (validator : routebinding.Validator) (gatewayClassName : string)
    (route : WrappedRoute) : bool :=
  acceptedByParentRefs cli validator gatewayClassName route (wrapper.GetParentRefs route).

(** [FilterAcceptedRoutes(ctx, cli, validator, gatewayClassName, routes)]. *)
Definition FilterAcceptedRoutes `{LabelSelectorLib} (cli : Client)
    (validator : routebinding.Validator) (gatewayClassName : string)
    (routes : list WrappedRoute) : list Request :=
  fold_left
    (fun requests route =>
       if IsRouteAcceptedByGateway cli validator gatewayClassName route
       then requests ++ [requestFor route]
       else requests)
    routes [].

(** [PingoraConfigMapper]. *)
Record PingoraConfigMapper : Type := {
  m_Client : ConfigClient;
  m_GatewayClassName : string;
  m_ConfigResolver : config.PingoraResolver
}.

(** [PingoraConfigMapper.MapConfigToRequests(getRoutes)], applied to an
    object. *)
Definition MapConfigToRequests `{LabelSelectorLib} (m : PingoraConfigMapper)
    (getRoutes : unit -> list Request) (obj : Object) : list Request :=
  match obj with
  | PingoraConfigObject pingoraConfig =>
      match GetGatewayClass (m_Client m) (m_GatewayClassName m) with
      | Err _ => []
      | Ok gatewayClass =>
          match gc_ParametersRef gatewayClass with
          | None => []
          | Some ref =>
              if (negb (String.eqb (pref_Group ref) config.PingoraParametersRefGroup)
                  || negb (String.eqb (pref_Kind ref) config.PingoraParametersRefKind)
                  || negb (String.eqb (pref_Name ref) (pc_Name pingoraConfig)))%bool
              then []
              else getRoutes tt
          end
      end
  | _ => []
  end.

(** [PingoraConfigMapper.MapSecretToRequests(getRoutes)], applied to an
    object. *)
Definition MapSecretToRequests `{LabelSelectorLib} (m : PingoraConfigMapper)
    (getRoutes : unit -> list Request) (obj : Object) : list Request :=
  match obj with
  | SecretObject secret =>
      match GetGatewayClass (m_Client m) (m_GatewayClassName m) with
      | Err _ => []
      | Ok gatewayClass =>
          match config.GetConfigForGatewayClass (m_ConfigResolver m) gatewayClass with
          | Err _ => []
          | Ok pingoraConfig =>
              match pcs_TLS (pc_Spec pingoraConfig) with
              | Some tls =>
                  match tls_SecretRef tls with
                  | Some secretRef =>
                      let secretNS :=
                        if String.eqb (sr_Namespace secretRef) "" then "default"
                        else sr_Namespace secretRef in
                      if (String.eqb (sec_Name secret) (sr_Name secretRef)
                          && String.eqb (sec_Namespace secret) secretNS)%bool
                      then getRoutes tt
                      else []
                  | None => []
                  end
              | None => []
              end
          end
      end
  | _ => []
  end.

(* ===================================================================== *)
(** ** Package controller: the HTTPRoute and GRPCRoute reconcilers *)
(* ===================================================================== *)

Definition pingoraRouteAcceptedMessage : string :=
  "Route accepted and programmed in Pingora proxy".
Definition startupPendingRequeueDelay : Z := 1 * Second.
Definition resolvedRefsMessage : string := "References resolved".

(** [gatewayv1] condition types and reasons of a route. *)
Definition RouteConditionAccepted : string := "Accepted".
Definition RouteConditionResolvedRefs : string := "ResolvedRefs".
Definition RouteReasonResolvedRefs : string := "ResolvedRefs".
Definition RouteReasonPending : string := "Pending".

(** [metav1.ConditionStatus]. *)
Inductive ConditionStatus : Type :=
  | ConditionTrue
  | ConditionFalse
  | ConditionUnknown.

(** [metav1.Condition]; the observed generation and the transition time
    are left out with the generation of [Route] and the clock. *)
Record Condition : Type := {
  c_Type : string;
  c_Status : ConditionStatus;
  c_Reason : string;
  c_Message : string
}.

(** [gatewayv1.RouteParentStatus]; the parent reference is written without
    its group, which [ParentReference] leaves out. *)
Record RouteParentStatus : Type := {
  ps_ParentRef : ParentReference;
  ps_ControllerName : string;
  ps_Conditions : list Condition
}.

(** [PingoraHTTPRouteReconciler] and [PingoraGRPCRouteReconciler] are the
    same code written twice, for the two route types. *)
Inductive RouteType : Type :=
  | HTTPRouteType
  | GRPCRouteType.

Definition wrapRoute (t : RouteType) (route : Route) : WrappedRoute :=
  match t with
  | HTTPRouteType => HTTPRouteWrapper route
  | GRPCRouteType => GRPCRouteWrapper route
  end.

(** The resource name in the reconciler's error messages. *)
Definition resourceName (t : RouteType) : string :=
  match t with
  | HTTPRouteType => "httproute"
  | GRPCRouteType => "grpcroute"
  end.

(** The calls of [client.Client] on the reconciler's own route type: the
    [Get] of a route, the test [apierrors.IsNotFound] on its error, and
    [Status().Update] with the parent statuses it writes. *)
Record RouteClient : Type := {
  GetRoute : string -> string -> result Route;
  IsNotFound : error -> bool;
  UpdateRouteStatus : Route -> list RouteParentStatus -> option error
}.

Record PingoraRouteReconciler `{LabelSelectorLib} : Type := {
  rt_Type : RouteType;
  rt_Client : Client;
  rt_Routes : RouteClient;
  rt_GatewayClassName : string;
  rt_ControllerName : string;
  rt_bindingValidator : routebinding.Validator
}.

(** The routes of the reconciler's type: its [List], and its slice of a
    [SyncResult]. *)
Definition listRoutes `{LabelSelectorLib} (r : PingoraRouteReconciler)
    : result (list Route) :=
  match rt_Type r with
  | HTTPRouteType => ListHTTPRoutes (rt_Client r)
  | GRPCRouteType => ListGRPCRoutes (rt_Client r)
  end.

Definition syncedRoutes (t : RouteType) (res : SyncResult) : list Route :=
  match t with
  | HTTPRouteType => HTTPRoutes res
  | GRPCRouteType => GRPCRoutes res
  end.

Definition syncedBindings (t : RouteType) (res : SyncResult)
    : gmap string routeBindingInfo :=
  match t with
  | HTTPRouteType => HTTPRouteBindings res
  | GRPCRouteType => GRPCRouteBindings res
  end.

(** [isRouteForOurGateway(ctx, route)]. *)
Definition isRouteForOurGateway `{LabelSelectorLib} (r : PingoraRouteReconciler)
    (route : Route) : bool :=
  IsRouteAcceptedByGateway (rt_Client r) (rt_bindingValidator r) (rt_GatewayClassName r)
    (wrapRoute (rt_Type r) route).

(** The loop over [freshRoute.Spec.ParentRefs] in the closure of
    [updateRouteStatus]; [refIdx] is the index of the head of [refs] and
    [parents] is [freshRoute.Status.Parents]. *)
Fixpoint parentStatuses `{LabelSelectorLib} (r : PingoraRouteReconciler)
    (freshRoute : Route) (bindingInfo : routeBindingInfo) (syncErr : option error)
    (refs : list ParentReference) (refIdx : nat) (parents : list RouteParentStatus)
    : list RouteParentStatus :=
  match refs with
  | [] => parents
  | ref :: rest =>
      let skip :=
        parentStatuses r freshRoute bindingInfo syncErr rest (S refIdx) parents in
      let otherKind :=
        match pr_Kind ref with
        | Some k => negb (String.eqb k kindGateway)
        | None => false
        end in
      if otherKind then skip
      else
        let namespace :=
          match pr_Namespace ref with
          | Some ns => ns
          | None => r_Namespace freshRoute
          end in
        match GetGateway (rt_Client r) namespace (pr_Name ref) with
        | Err _ => skip
        | Ok gateway =>
            if negb (String.eqb (gw_GatewayClassName gateway) (rt_GatewayClassName r))
            then skip
            else
              let '(status, reason, message) :=
                match syncErr with
                | Some err => (ConditionFalse, RouteReasonPending, Error err)
                | None =>
                    match bindingResults bindingInfo !! refIdx with
                    | Some bindingResult =>
                        if negb (Accepted bindingResult) then
                          (ConditionFalse, Reason bindingResult, Message bindingResult)
                        else
                          (ConditionTrue, RouteReasonAccepted, pingoraRouteAcceptedMessage)
                    | None =>
                        (ConditionTrue, RouteReasonAccepted, pingoraRouteAcceptedMessage)
                    end
                end in
              let parentStatus :=
                {| ps_ParentRef :=
                     {| pr_Kind := pr_Kind ref;
                        pr_Namespace := Some namespace;
                        pr_Name := pr_Name ref;
                        pr_SectionName := pr_SectionName ref |};
                   ps_ControllerName := rt_ControllerName r;
                   ps_Conditions :=
                     [ {| c_Type := RouteConditionAccepted;
                          c_Status := status;
                          c_Reason := reason;
                          c_Message := message |};
                       {| c_Type := RouteConditionResolvedRefs;
                          c_Status := ConditionTrue;
                          c_Reason := RouteReasonResolvedRefs;
                          c_Message := resolvedRefsMessage |} ] |} in
              parentStatuses r freshRoute bindingInfo syncErr rest (S refIdx)
                (parents ++ [parentStatus])
        end
  end.

(** One [Status().Update] of a route: the fresh route, the parent statuses
    written and the answer. *)
Record StatusWrite : Type := {
  sw_Route : Route;
  sw_Parents : list RouteParentStatus;
  sw_Reply : option error
}.

(** [updateRouteStatus(ctx, route, bindingInfo, syncErr)]: the error, and
    the status write if the closure got that far.
    [retry.RetryOnConflict] hands back what the last run of the closure
    returns; against the one state of the cluster that [Client] and
    [RouteClient] describe every run returns the same, so the closure is
    run once.  [errors.Wrap] of a nil error is nil. *)
Definition updateRouteStatus `{LabelSelectorLib} (r : PingoraRouteReconciler)
    (route : Route) (bindingInfo : routeBindingInfo) (syncErr : option error)
    : option error * list StatusWrite :=
  let afterRetries := fun err =>
    Wrap err ("failed to update " +:+ resourceName (rt_Type r) +:+ " status after retries") in
  match GetRoute (rt_Routes r) (r_Namespace route) (r_Name route) with
  | Err err =>
      (Some (afterRetries
               (Wrap err ("failed to get fresh " +:+ resourceName (rt_Type r)))), [])
  | Ok freshRoute =>
      let parents :=
        parentStatuses r freshRoute bindingInfo syncErr (r_ParentRefs freshRoute) 0%nat [] in
      let reply := UpdateRouteStatus (rt_Routes r) freshRoute parents in
      let write := {| sw_Route := freshRoute; sw_Parents := parents; sw_Reply := reply |} in
      match reply with
      | Some err =>
          (Some (afterRetries
                   (Wrap err ("failed to update " +:+ resourceName (rt_Type r)
                              +:+ " status"))), [write])
      | None => (None, [write])
      end
  end.

(** What a reconcile hands back: [ctrl.Result.RequeueAfter], the error, the
    shared syncer afterwards, what the sync did and the status writes. *)
Record ReconcileOutcome `{LabelSelectorLib} : Type := {
  rec_RequeueAfter : Z;
  rec_Err : option error;
  rec_syncer : PingoraRouteSyncer;
  rec_effects : list Effect;
  rec_writes : list StatusWrite
}.

(** The loop of [syncAndUpdateStatus] over the routes of a [SyncResult],
    with its variable [statusUpdateErr]; a route key that is missing from
    the bindings reads as the zero [routeBindingInfo]. *)
Definition updateStatuses `{LabelSelectorLib} (r : PingoraRouteReconciler)
    (res : SyncResult) (syncErr : option error) : option error * list StatusWrite :=
  fold_left
    (fun (state : option error * list StatusWrite) route =>
       let '(statusUpdateErr, writes) := state in
       let bindingInfo :=
         default {| bindingResults := ∅ |}
           (syncedBindings (rt_Type r) res !! routeKey route) in
       let '(err, written) := updateRouteStatus r route bindingInfo syncErr in
       (match statusUpdateErr with
        | Some _ => statusUpdateErr
        | None => err
        end,
        writes ++ written))
    (syncedRoutes (rt_Type r) res) (None, []).

(** [syncAndUpdateStatus(ctx)], on the syncer both reconcilers share. *)
Definition syncAndUpdateStatus `{LabelSelectorLib} (r : PingoraRouteReconciler)
    (syncer : PingoraRouteSyncer) : ReconcileOutcome :=
  let out := SyncAllRoutes syncer in
  let '(statusUpdateErr, writes) :=
    match syncResult out with
    | Some res => updateStatuses r res (syncErr out)
    | None => (None, [])
    end in
  let done := fun (requeueAfter : Z) (err : option error) =>
    {| rec_RequeueAfter := requeueAfter;
       rec_Err := err;
       rec_syncer := syncer' out;
       rec_effects := effects out;
       rec_writes := writes |} in
  match syncErr out, RequeueAfter out =? 0 with
  | Some _, true => done (RequeueAfter out) None
  | _, _ =>
      match statusUpdateErr with
      | Some err => done 0 (Some err)
      | None => done (RequeueAfter out) None
      end
  end.

(** [Reconcile(ctx, req)]; [startupComplete] is the flag of the
    reconciler. *)
Definition Reconcile `{LabelSelectorLib} (r : PingoraRouteReconciler)
    (startupComplete : bool) (syncer : PingoraRouteSyncer) (req : Request)
    : ReconcileOutcome :=
  let untouched := fun (requeueAfter : Z) (err : option error) =>
    {| rec_RequeueAfter := requeueAfter;
       rec_Err := err;
       rec_syncer := syncer;
       rec_effects := [];
       rec_writes := [] |} in
  if negb startupComplete then untouched startupPendingRequeueDelay None
  else
    match GetRoute (rt_Routes r) (rq_Namespace req) (rq_Name req) with
    | Err err =>
        if IsNotFound (rt_Routes r) err then syncAndUpdateStatus r syncer
        else untouched 0 (Some (Wrap err ("failed to get " +:+ resourceName (rt_Type r))))
    | Ok route =>
        if negb (isRouteForOurGateway r route) then untouched 0 None
        else syncAndUpdateStatus r syncer
    end.

(** [Start(ctx)]: the error it returns, the flag [startupComplete] when it
    has returned, and the startup sync it ran. *)
Definition Start `{LabelSelectorLib} (r : PingoraRouteReconciler)
    (syncer : PingoraRouteSyncer) : option error * bool * ReconcileOutcome :=
  let out := syncAndUpdateStatus r syncer in
  (None, true, out).

(** [findRoutesForGateway(ctx, obj)]. *)
Definition findRoutesForGateway `{LabelSelectorLib} (r : PingoraRouteReconciler)
    (obj : Object) : list Request :=
  match listRoutes r with
  | Err _ => []
  | Ok items =>
      FindRoutesForGateway obj (rt_GatewayClassName r) (map (wrapRoute (rt_Type r)) items)
  end.

(** [findRoutesForReferenceGrant(ctx, obj)]. *)
Definition findRoutesForReferenceGrant `{LabelSelectorLib} (r : PingoraRouteReconciler)
    (obj : Object) : list Request :=
  match listRoutes r with
  | Err _ => []
  | Ok items =>
      let routes :=
        fold_left
          (fun routes route =>
             if isRouteForOurGateway r route then routes ++ [wrapRoute (rt_Type r) route]
             else routes)
          items [] in
      FindRoutesForReferenceGrant obj routes
  end.

(** [getAllRelevantRoutes(ctx)]. *)
Definition getAllRelevantRoutes `{LabelSelectorLib} (r : PingoraRouteReconciler)
    : list Request :=
  match listRoutes r with
  | Err _ => []
  | Ok items =>
      FilterAcceptedRoutes (rt_Client r) (rt_bindingValidator r) (rt_GatewayClassName r)
        (map (wrapRoute (rt_Type r)) items)
  end.

(* ===================================================================== *)
(** ** Predicates of the specification *)
(* ===================================================================== *)

(** A listener passes the three gates of the binding evaluator: hostname
    intersection, namespace gate, kind gate. *)
Definition passesAllGates `{LabelSelectorLib} (v : routebinding.Validator)
    (gateway : Gateway) (route : RouteInfo) (listener : Listener) : Prop :=
  HostnamesIntersect (l_Hostname listener) (ri_Hostnames route) = true
  /\ IsNamespaceAllowed v (l_AllowedRoutes listener) (gw_Namespace gateway)
       (ri_Namespace route) = Ok true
  /\ IsRouteKindAllowed (l_AllowedRoutes listener) (l_Protocol listener)
       (ri_Kind route) = true.

(** The walk evaluates a listener and accepts it. *)
Definition acceptsListener `{LabelSelectorLib} (v : routebinding.Validator)
    (gatewayNamespace : string) (route : RouteInfo) (listener : Listener) : bool :=
  negb (skippedBySectionName route listener)
  && match listenerAcceptsRoute v listener gatewayNamespace route with
     | Ok reason => String.eqb reason RouteReasonAccepted
     | Err _ => false
     end.

(** The allowedRoutes policy with the given [from] and selector. *)
Definition allowedRoutesFrom `{LabelSelectorLib} (from : option string)
    (selector : option LabelSelector) (kinds : list RouteGroupKind)
    : option AllowedRoutes :=
  Some {| ar_Namespaces := Some {| rn_From := from; rn_Selector := selector |};
          ar_Kinds := kinds |}.

(** The weight [SelectHighestWeightIndex] reads off a reference. *)
Definition effectiveWeight {T} `{WeightedRef T} (ref : T) : Z :=
  match GetWeight ref with
  | Some w => w
  | None => DefaultBackendWeight
  end.

(** A grant's [from] entry names the source; a [to] entry names the target,
    the group ["core"] standing for the empty core group. *)
Definition fromEntryNames (grantFrom : ReferenceGrantFrom)
    (fromRef : referencegrant.Reference) : Prop :=
  rgf_Group grantFrom = referencegrant.Group fromRef
  /\ rgf_Kind grantFrom = referencegrant.Kind fromRef
  /\ rgf_Namespace grantFrom = referencegrant.Namespace fromRef.

Definition toEntryNames (grantTo : ReferenceGrantTo)
    (toRef : referencegrant.Reference) : Prop :=
  (if String.eqb (rgt_Group grantTo) "core" then "" else rgt_Group grantTo)
    = referencegrant.Group toRef
  /\ rgt_Kind grantTo = referencegrant.Kind toRef
  /\ (forall name, rgt_Name grantTo = Some name -> name = referencegrant.Name toRef).

(** The state of the loop of [SelectHighestWeightIndex] after the
    references [seen]: nothing selected and only zero weights so far, or
    the first reference of the highest non-zero weight selected. *)
Definition selectInvariant {T} `{WeightedRef T} (seen : list T)
    (selectedIdx highestWeight : Z) : Prop :=
  (selectedIdx = -1 /\ forall r, In r seen -> effectiveWeight r = 0)
  \/ exists (n : nat) (picked : T),
       selectedIdx = Z.of_nat n
       /\ seen !! n = Some picked
       /\ effectiveWeight picked = highestWeight
       /\ highestWeight <> 0
       /\ (forall (j : nat) r, seen !! j = Some r -> effectiveWeight r <> 0 ->
             effectiveWeight r <= highestWeight)
       /\ (forall (j : nat) r, (j < n)%nat -> seen !! j = Some r ->
             effectiveWeight r <> 0 -> effectiveWeight r < highestWeight).

(** The counter of [listenerName] holds the [int32] image of [count]. *)
Definition counts (result : gmap string Z) (listenerName : string) (count : nat) : Prop :=
  result !! listenerName = Some (wrap_int32 (Z.of_nat count)).

(** The [RouteInfo] both the Gateway reconciler and the syncer build for one
    parent reference of a route. *)
Definition routeInfoFor (routeKind : string) (route : Route) (ref : ParentReference)
    : RouteInfo :=
  {| ri_Name := r_Name route;
     ri_Namespace := r_Namespace route;
     ri_Hostnames := r_Hostnames route;
     ri_Kind := routeKind;
     ri_SectionName := pr_SectionName ref |}.

(** A (route, parent-ref) pair is attached to the listener [listenerName] of
    the Gateway: the parent-ref names the Gateway and resolves to its
    namespace, its BindingResult is accepted, and the matched listeners
    contain the listener. *)
Definition attachedTo `{LabelSelectorLib} (validator : routebinding.Validator)
    (gateway : Gateway) (routeKind listenerName : string) (route : Route)
    (ref : ParentReference) : bool :=
  refMatchesGateway ref gateway (r_Namespace route)
  && match ValidateBinding validator gateway (routeInfoFor routeKind route ref) with
     | Ok bindingResult =>
         Accepted bindingResult
         && bool_decide (listenerName ∈ MatchedListeners bindingResult)
     | Err _ => false
     end.

(** The number of attached (route, parent-ref) pairs among the routes of one
    kind: every position of a route's parent-ref list is one pair. *)
Definition attachedPairs `{LabelSelectorLib} (validator : routebinding.Validator)
    (gateway : Gateway) (routeKind listenerName : string) (routes : list Route) : nat :=
  list_sum
    (map (fun route =>
            List.length
              (List.filter (attachedTo validator gateway routeKind listenerName route)
                 (r_ParentRefs route)))
       routes).

(** A parent-ref of a route names the Gateway and resolves to its
    namespace: its name is the Gateway's name, and its namespace, which is
    the route's own namespace when the reference gives none, is the
    Gateway's namespace. *)
Definition namesGateway `{LabelSelectorLib} (gateway : Gateway) (route : Route)
    (ref : ParentReference) : Prop :=
  pr_Name ref = gw_Name gateway
  /\ match pr_Namespace ref with
     | Some namespace => namespace
     | None => r_Namespace route
     end = gw_Namespace gateway.

#[global] Instance namesGateway_dec `{LabelSelectorLib} (gateway : Gateway) (route : Route)
    (ref : ParentReference) : Decision (namesGateway gateway route ref).
Proof. unfold namesGateway. apply _. Defined.

(** The (route, parent-ref) pairs that the claim on the attached-routes
    count speaks of, for the listener [listenerName]: the parent-ref names
    the Gateway and resolves to its namespace, the BindingResult of the
    pair is accepted, and its matched listeners contain the listener. *)
Definition countedPair `{LabelSelectorLib} (validator : routebinding.Validator)
    (gateway : Gateway) (routeKind listenerName : string) (route : Route)
    (ref : ParentReference) : Prop :=
  namesGateway gateway route ref
  /\ exists bindingResult,
       ValidateBinding validator gateway (routeInfoFor routeKind route ref)
         = Ok bindingResult
       /\ Accepted bindingResult = true
       /\ listenerName ∈ MatchedListeners bindingResult.

#[global] Instance countedPair_dec `{LabelSelectorLib} (validator : routebinding.Validator)
    (gateway : Gateway) (routeKind listenerName : string) (route : Route)
    (ref : ParentReference) :
  Decision (countedPair validator gateway routeKind listenerName route ref).
Proof.
  unfold countedPair.
  destruct (ValidateBinding validator gateway (routeInfoFor routeKind route ref))
    as [bindingResult|err].
  - destruct (decide (namesGateway gateway route ref
                      /\ Accepted bindingResult = true
                      /\ listenerName ∈ MatchedListeners bindingResult)) as [Hyes|Hno].
    + left. destruct Hyes as (Hnames & Haccepted & Hin). eauto.
    + right. intros (Hnames & bindingResult' & [= <-] & Haccepted & Hin). tauto.
  - right. intros (_ & bindingResult & Habs & _). discriminate.
Defined.

(** The number of such pairs among the routes of one kind; every position
    of a route's parent-ref list is one pair. *)
Definition countedPairs `{LabelSelectorLib} (validator : routebinding.Validator)
    (gateway : Gateway) (routeKind listenerName : string) (routes : list Route) : nat :=
  list_sum
    (map (fun route =>
            List.length
              (List.filter
                 (fun ref =>
                    bool_decide
                      (countedPair validator gateway routeKind listenerName route ref))
                 (r_ParentRefs route)))
       routes).

(** The connection handle and the client handle are held together, as
    [Connect] and [Close] set them. *)
Definition handlesConsistent `{LabelSelectorLib} (s : PingoraRouteSyncer) : Prop :=
  s_grpcClient s <> None -> s_conn s <> None.

(** The caller is told the sync succeeded: no error and no requeue. *)
Definition reportedSuccess `{LabelSelectorLib} (out : SyncOutcome) : Prop :=
  syncErr out = None /\ RequeueAfter out = 0.

(** The pushes among the effects of a sync: the version sent and the
    transport's answer. *)
Definition pushes (effects : list Effect) : list (Z * result UpdateRoutesResponse) :=
  flat_map
    (fun effect =>
       match effect with
       | CallUpdateRoutes req reply => [(req_Version req, reply)]
       | _ => []
       end)
    effects.

(** The parent-ref [ref] of a route qualifies (its kind is Gateway or left
    out, its Gateway can be fetched and is of the configured class) and the
    binding evaluator returns [result] for it. *)
Definition parentBinding `{LabelSelectorLib} (s : PingoraRouteSyncer)
    (routeKind : string) (route : Route) (ref : ParentReference)
    (result : BindingResult) : Prop :=
  (pr_Kind ref = None \/ pr_Kind ref = Some kindGateway)
  /\ exists gateway,
       GetGateway (s_Client s) (default (r_Namespace route) (pr_Namespace ref))
         (pr_Name ref) = Ok gateway
       /\ gw_GatewayClassName gateway = s_GatewayClassName s
       /\ ValidateBinding (s_bindingValidator s) gateway
            (routeInfoFor routeKind route ref) = Ok result.

(** The route has a qualifying parent-ref with an accepted BindingResult. *)
Definition hasAcceptedParent `{LabelSelectorLib} (s : PingoraRouteSyncer)
    (routeKind : string) (route : Route) : Prop :=
  exists (refIdx : nat) ref result,
    r_ParentRefs route !! refIdx = Some ref
    /\ parentBinding s routeKind route ref result
    /\ Accepted result = true.

(** How often a route, by its key, appears in a list of routes. *)
Definition occurrences (route : Route) (routes : list Route) : nat :=
  List.length (List.filter (fun other => String.eqb (routeKey other) (routeKey route)) routes).

(** One pass of the loop body of [evalParentRefs]: the BindingResult the
    loop records for a parent-ref, if any. *)
Definition bindingOf `{LabelSelectorLib} (s : PingoraRouteSyncer)
    (routeKind : string) (route : Route) (ref : ParentReference) : option BindingResult :=
  let otherKind :=
    match pr_Kind ref with
    | Some k => negb (String.eqb k kindGateway)
    | None => false
    end in
  if otherKind then None
  else
    match GetGateway (s_Client s) (default (r_Namespace route) (pr_Namespace ref))
            (pr_Name ref) with
    | Err _ => None
    | Ok gateway =>
        if negb (String.eqb (gw_GatewayClassName gateway) (s_GatewayClassName s)) then None
        else
          match ValidateBinding (s_bindingValidator s) gateway
                  (routeInfoFor routeKind route ref) with
          | Err _ => None
          | Ok result => Some result
          end
    end.

(** What the snapshot of one route kind must satisfy, given the listed
    routes [items]: [relevant] are the routes pushed, [bindings] the
    per-route, per-parent results. *)
Definition snapshotOf `{LabelSelectorLib} (s : PingoraRouteSyncer) (routeKind : string)
    (items relevant : list Route) (bindings : gmap string routeBindingInfo) : Prop :=
  (forall route, In route items ->
     (occurrences route relevant = 1%nat <-> hasAcceptedParent s routeKind route)
     /\ (occurrences route relevant <= 1)%nat
     /\ (In route relevant <-> hasAcceptedParent s routeKind route))
  /\ (forall route, In route relevant ->
        In route items
        /\ exists info (refIdx : nat) ref result,
             bindings !! routeKey route = Some info
             /\ bindingResults info !! refIdx = Some result
             /\ r_ParentRefs route !! refIdx = Some ref
             /\ parentBinding s routeKind route ref result
             /\ Accepted result = true).

(* ===================================================================== *)
(** ** A small cluster to run the definitions on *)
(* ===================================================================== *)

Module Examples.

(** A label-selector library of requirements (key, operator, values) with
    the operators In and Exists; any other operator is refused. *)
Definition requirementOk (req : string * string * list string) : bool :=
  let '(_, op, _) := req in
  (String.eqb op "In" || String.eqb op "Exists")%bool.

Definition requirementHolds (labels : gmap string string)
    (req : string * string * list string) : bool :=
  let '(key, op, values) := req in
  match labels !! key with
  | None => false
  | Some val =>
      if String.eqb op "In" then existsb (String.eqb val) values else true
  end.

Definition lib : LabelSelectorLib :=
  {| LabelSelector := list (string * string * list string);
     Selector := list (string * string * list string);
     LabelSelectorAsSelector := fun sel =>
       if forallb requirementOk sel then Ok sel
       else Err (LibError "not a valid label selector operator");
     Matches := fun sel labels => forallb (requirementHolds labels) sel |}.

Definition prodSelector : @LabelSelector lib := [("env", "In", ["prod"; "staging"])].
Definition badSelector : @LabelSelector lib := [("invalid", "InvalidOperator", ["value"])].

Definition listener (name : string) (hostname : option string)
    (allowedRoutes : option (@AllowedRoutes lib)) : @Listener lib :=
  {| l_Name := name; l_Hostname := hostname; l_Port := 80;
     l_Protocol := HTTPProtocolType; l_AllowedRoutes := allowedRoutes |}.

Definition gateway (listeners : list (@Listener lib)) : @Gateway lib :=
  {| gw_Name := "gw"; gw_Namespace := "ns"; gw_GatewayClassName := "pingora";
     gw_Listeners := listeners |}.

(** Scenario S5 of the specification: listeners [http] and [https]. *)
Definition gwS5 : @Gateway lib :=
  gateway [ listener "http" (Some "*.a.com") None;
            listener "https" (Some "*.b.com") None ].

(** A Gateway whose second listener carries a selector that does not
    convert. *)
Definition gwBadSelector : @Gateway lib :=
  gateway [ listener "http" None None;
            listener "internal" None
              (@allowedRoutesFrom lib (Some NamespacesFromSelector) (Some badSelector) []) ].

Definition parentRef (sectionName : option string) : ParentReference :=
  {| pr_Kind := None; pr_Namespace := None; pr_Name := "gw";
     pr_SectionName := sectionName |}.

Definition backend (weight : option Z) : BackendRef :=
  {| br_Kind := None; br_Name := "svc"; br_Namespace := None; br_Port := 80;
     br_Weight := weight |}.

Definition route (name : string) (hostnames : list string)
    (parentRefs : list ParentReference) : Route :=
  {| r_Namespace := "ns"; r_Name := name; r_ParentRefs := parentRefs;
     r_Hostnames := hostnames;
     r_Rules := [ {| rr_BackendRefs := [backend None] |} ] |}.

Definition routeInfo (hostnames : list string) (sectionName : option string) : RouteInfo :=
  {| ri_Name := "r1"; ri_Namespace := "ns"; ri_Hostnames := hostnames;
     ri_Kind := KindHTTPRoute; ri_SectionName := sectionName |}.

Definition r1 : Route := route "r1" ["x.b.com"] [parentRef None; parentRef (Some "https")].
Definition r2 : Route := route "r2" ["other.com"] [parentRef None].
Definition g1 : Route := route "g1" ["y.a.com"] [parentRef None].

(** The cluster: one Gateway, two HTTPRoutes, one GRPCRoute, one labelled
    namespace, one grant in namespace [ns-b]. *)
Definition cluster (gw : @Gateway lib) : @Client lib :=
  {| GetNamespace := fun name =>
       if String.eqb name "prod-ns"
       then Ok {| ns_Name := "prod-ns"; ns_Labels := {[ "env" := "prod" ]} |}
       else Err (LibError "not found");
     GetGateway := fun namespace name =>
       if (String.eqb namespace "ns" && String.eqb name "gw")%bool then Ok gw
       else Err (LibError "not found");
     ListHTTPRoutes := Ok [r1; r2];
     ListGRPCRoutes := Ok [g1];
     ListReferenceGrants := fun namespace =>
       if String.eqb namespace "ns-b"
       then Ok [ {| rg_Namespace := "ns-b"; rg_Name := "allow-routes";
                    rg_From := [ {| rgf_Group := GroupName; rgf_Kind := "HTTPRoute";
                                    rgf_Namespace := "ns-a" |} ];
                    rg_To := [ {| rgt_Group := "core"; rgt_Kind := "Service";
                                  rgt_Name := Some "svc" |} ] |} ]
       else Ok [] |}.

Definition validator (gw : @Gateway lib) : @routebinding.Validator lib :=
  routebinding.NewValidator lib (cluster gw).

Definition fromRef : referencegrant.Reference :=
  {| referencegrant.Group := GroupName; referencegrant.Kind := "HTTPRoute";
     referencegrant.Namespace := "ns-a"; referencegrant.Name := "r1" |}.

Definition toRef : referencegrant.Reference :=
  {| referencegrant.Group := ""; referencegrant.Kind := "Service";
     referencegrant.Namespace := "ns-b"; referencegrant.Name := "svc" |}.

End Examples.

Module ExampleControllers.

(** Proxies: one that echoes the version, one that refuses the update, one
    that reports success with another applied version, and a transport
    that fails. *)
Definition reply (success : bool) (message : string) (appliedVersion : Z)
    : UpdateRoutesResponse :=
  {| resp_Success := success; resp_Error := message; resp_HttpRouteCount := 1;
     resp_GrpcRouteCount := 1; resp_AppliedVersion := appliedVersion |}.

Definition echoProxy : RoutingServiceClient :=
  {| UpdateRoutes := fun req => Ok (reply true "" (req_Version req)) |}.
Definition refusingProxy : RoutingServiceClient :=
  {| UpdateRoutes := fun req => Ok (reply false "invalid route table" 0) |}.
Definition staleProxy : RoutingServiceClient :=
  {| UpdateRoutes := fun req => Ok (reply true "" 0) |}.
Definition brokenTransport : RoutingServiceClient :=
  {| UpdateRoutes := fun req => Err (LibError "transport is closing") |}.

Definition resolver (proxy : RoutingServiceClient) : PingoraResolver :=
  {| ResolveFromGatewayClassName := fun _ =>
       Ok {| rc_Address := "pingora-proxy:50051"; rc_ConfigName := "pingora" |};
     CreateGRPCConnection := fun resolved => Ok {| cc_Target := rc_Address resolved |};
     CreateRoutingClient := fun _ => proxy |}.

Definition syncer (proxy : RoutingServiceClient) : @PingoraRouteSyncer Examples.lib :=
  NewPingoraRouteSyncer (Examples.cluster Examples.gwS5) "cluster.local" "pingora"
    (resolver proxy).

Definition gatewayReconciler : @PingoraGatewayReconciler Examples.lib :=
  {| gr_Client := Examples.cluster Examples.gwS5;
     gr_GatewayClassName := "pingora";
     gr_ControllerName := "pingora.k8s.lex.la/gateway-controller" |}.

End ExampleControllers.


Module MoreExamples.

(** The grant of [Examples.cluster] and an unrelated one. *)
Definition allowRoutes : ReferenceGrant :=
{| rg_Namespace := "ns-b"; rg_Name := "allow-routes";
   rg_From := [ {| rgf_Group := GroupName; rgf_Kind := "HTTPRoute";
                   rgf_Namespace := "ns-a" |} ];
   rg_To := [ {| rgt_Group := "core"; rgt_Kind := "Service";
                 rgt_Name := Some "svc" |} ] |}.

Definition unrelated : ReferenceGrant :=
{| rg_Namespace := "ns-b"; rg_Name := "unrelated"; rg_From := []; rg_To := [] |}.

(** A cluster whose namespace [ns-b] holds the given grants. *)
Definition grantCluster (grants : list ReferenceGrant) : @Client Examples.lib :=
{| GetNamespace := fun _ => Err (LibError "not found");
   GetGateway := fun _ _ => Err (LibError "not found");
   ListHTTPRoutes := Ok [];
   ListGRPCRoutes := Ok [];
   ListReferenceGrants := fun namespace =>
     if String.eqb namespace "ns-b" then Ok grants else Ok [] |}.

End MoreExamples.

(* ===================================================================== *)
(** ** Predicates of the route status *)
(* ===================================================================== *)

(** A parent reference as a parent status names it: with the namespace it
    resolves to written out. *)
Definition resolvedParentRef (routeNamespace : string) (ref : ParentReference)
    : ParentReference :=
  {| pr_Kind := pr_Kind ref;
     pr_Namespace := Some (default routeNamespace (pr_Namespace ref));
     pr_Name := pr_Name ref;
     pr_SectionName := pr_SectionName ref |}.

(** The parent reference is one the controller answers for: its kind is
    Gateway or left out, and its Gateway can be fetched and is of the
    class. *)
Definition parentQualifies `{LabelSelectorLib} (cli : Client)
    (gatewayClassName routeNamespace : string) (ref : ParentReference) : bool :=
  match pr_Kind ref with
  | Some k => String.eqb k kindGateway
  | None => true
  end
  && match GetGateway cli (default routeNamespace (pr_Namespace ref)) (pr_Name ref) with
     | Ok gateway => String.eqb (gw_GatewayClassName gateway) gatewayClassName
     | Err _ => false
     end.

(** The ResolvedRefs condition of every parent status. *)
Definition resolvedRefsCondition : Condition :=
  {| c_Type := RouteConditionResolvedRefs;
     c_Status := ConditionTrue;
     c_Reason := RouteReasonResolvedRefs;
     c_Message := resolvedRefsMessage |}.

(** The Accepted condition of a parent status, by the sync error and the
    binding result recorded for the parent reference. *)
Definition acceptedCondition (syncErr : option error) (binding : option BindingResult)
    : Condition :=
  match syncErr, binding with
  | Some err, _ =>
      {| c_Type := RouteConditionAccepted; c_Status := ConditionFalse;
         c_Reason := RouteReasonPending; c_Message := Error err |}
  | None, Some bindingResult =>
      if Accepted bindingResult then
        {| c_Type := RouteConditionAccepted; c_Status := ConditionTrue;
           c_Reason := RouteReasonAccepted; c_Message := pingoraRouteAcceptedMessage |}
      else
        {| c_Type := RouteConditionAccepted; c_Status := ConditionFalse;
           c_Reason := Reason bindingResult; c_Message := Message bindingResult |}
  | None, None =>
      {| c_Type := RouteConditionAccepted; c_Status := ConditionTrue;
         c_Reason := RouteReasonAccepted; c_Message := pingoraRouteAcceptedMessage |}
  end.

(** One pass of the loop body of [parentStatuses]: the parent status the
    loop appends for a parent reference, if any. *)
Definition parentStatusFor `{LabelSelectorLib} (r : PingoraRouteReconciler)
    (freshRoute : Route) (bindingInfo : routeBindingInfo) (syncErr : option error)
    (refIdx : nat) (ref : ParentReference) : option RouteParentStatus :=
  if parentQualifies (rt_Client r) (rt_GatewayClassName r) (r_Namespace freshRoute) ref
  then Some {| ps_ParentRef := resolvedParentRef (r_Namespace freshRoute) ref;
               ps_ControllerName := rt_ControllerName r;
               ps_Conditions :=
                 [ acceptedCondition syncErr (bindingResults bindingInfo !! refIdx);
                   resolvedRefsCondition ] |}
  else None.

(** The bindings the syncer records for a route. *)
Definition recordedBindings `{LabelSelectorLib} (s : PingoraRouteSyncer)
    (routeKind : string) (route : Route) : routeBindingInfo :=
  {| bindingResults := (evalParentRefs s routeKind route (r_ParentRefs route) 0 ∅ false).1 |}.

Module ReconcilerExamples.

(** A route with one parent reference to the whole Gateway and one to its
  listener [http]. *)
Definition twoParents : Route :=
Examples.route "r1" ["x.b.com"] [Examples.parentRef None; Examples.parentRef (Some "http")].

(** The routes of the cluster by key; every status update is accepted. *)
Definition routeClient : RouteClient :=
{| GetRoute := fun namespace name =>
     if (String.eqb namespace "ns" && String.eqb name "r1")%bool then Ok Examples.r1
     else if (String.eqb namespace "ns" && String.eqb name "r2")%bool then Ok Examples.r2
     else Err (LibError "not found");
   IsNotFound := fun err =>
     match err with
     | LibError msg => String.eqb msg "not found"
     | _ => false
     end;
   UpdateRouteStatus := fun _ _ => None |}.

Definition reconciler (gw : @Gateway Examples.lib) : @PingoraRouteReconciler Examples.lib :=
{| rt_Type := HTTPRouteType;
   rt_Client := Examples.cluster gw;
   rt_Routes := routeClient;
   rt_GatewayClassName := "pingora";
   rt_ControllerName := "pingora.k8s.lex.la/gateway-controller";
   rt_bindingValidator := Examples.validator gw |}.

Definition syncer (gw : @Gateway Examples.lib) : @PingoraRouteSyncer Examples.lib :=
NewPingoraRouteSyncer (Examples.cluster gw) "cluster.local" "pingora"
  (ExampleControllers.resolver ExampleControllers.echoProxy).

End ReconcilerExamples.

Module ConfigExamples.

Definition tlsSecret : Secret :=
{| sec_Name := "proxy-tls";
   sec_Namespace := "pingora-system";
   sec_Data := {[ "tls.crt" := [Byte.x01]; "tls.key" := [Byte.x02] ]} |}.

(** A PingoraConfig with TLS from a Secret whose reference leaves the
  namespace out, and one without TLS and connection settings. *)
Definition tlsConfig : PingoraConfig :=
{| pc_Name := "pingora-config";
   pc_Spec :=
     {| pcs_Address := "pingora-proxy:50051";
        pcs_TLS := Some {| tls_Enabled := true;
                           tls_SecretRef := Some {| sr_Name := "proxy-tls";
                                                    sr_Namespace := "" |};
                           tls_InsecureSkipVerify := false;
                           tls_ServerName := "pingora-proxy" |};
        pcs_Connection := None |} |}.

Definition plainConfig : PingoraConfig :=
{| pc_Name := "pingora-config";
   pc_Spec := {| pcs_Address := "pingora-proxy:50051"; pcs_TLS := None;
                 pcs_Connection := None |} |}.

Definition configClient (pingoraConfig : PingoraConfig) : ConfigClient :=
{| GetGatewayClass := fun name =>
     if String.eqb name "pingora"
     then Ok {| gc_Name := "pingora";
                gc_ParametersRef :=
                  Some {| pref_Group := config.PingoraParametersRefGroup;
                          pref_Kind := config.PingoraParametersRefKind;
                          pref_Name := "pingora-config" |} |}
     else Err (LibError "not found");
   GetPingoraConfig := fun name =>
     if String.eqb name "pingora-config" then Ok pingoraConfig
     else Err (LibError "not found");
   GetSecret := fun namespace name =>
     if (String.eqb namespace "pingora-system" && String.eqb name "proxy-tls")%bool
     then Ok tlsSecret
     else Err (LibError "not found") |}.

(** The resolver of a controller that runs in [pingora-system]. *)
Definition resolver (pingoraConfig : PingoraConfig) : config.PingoraResolver :=
config.NewPingoraResolver (configClient pingoraConfig) "pingora-system".

Definition mapper (pingoraConfig : PingoraConfig) : PingoraConfigMapper :=
{| m_Client := configClient pingoraConfig;
   m_GatewayClassName := "pingora";
   m_ConfigResolver := resolver pingoraConfig |}.

End ConfigExamples.

(* ===================================================================== *)
(** ** Predicates of the rule builder *)
(* ===================================================================== *)

(** The match has a path whose type or value is nil. *)
Definition hasNilPath (m : HTTPRouteMatch) : Prop :=
  exists path, hm_Path m = Some path /\ (hpm_Type path = None \/ hpm_Value path = None).

(** The reference is to a Service, by its kind or by default, and has no
    port. *)
Definition serviceWithoutPort (ref : HTTPBackendRef) : Prop :=
  (hbr_Kind ref = None \/ hbr_Kind ref = Some "Service") /\ hbr_Port ref = None.

(** The wire backend of a reference: that of [buildBackend] when the port
    is set, none otherwise. *)
Definition wireBackendOf (b : PingoraBuilder) (namespace : string) (ref : HTTPBackendRef)
    : option Backend :=
  match hbr_Port ref with
  | Some port => buildBackend b namespace (withPort ref port)
  | None => None
  end.

Module RuleExamples.

(** A duration parser that knows two spellings. *)
Definition durations : DurationLib :=
{| ParseDuration := fun s =>
     if String.eqb s "10s" then Ok 10000000000
     else if String.eqb s "500us" then Ok 500000
     else Err (LibError "time: invalid duration") |}.

Definition backendRef (kind : option string) (port : option Z) : HTTPBackendRef :=
{| hbr_Kind := kind; hbr_Name := "svc"; hbr_Namespace := None; hbr_Port := port;
   hbr_Weight := None |}.

Definition rule (request : string) : HTTPRouteRule :=
{| hrr_Matches := [];
   hrr_BackendRefs := [backendRef None (Some 80); backendRef (Some "Bucket") None];
   hrr_Timeouts := Some {| ht_Request := Some request; ht_BackendRequest := None |} |}.

(** A rule whose Service reference has no port. *)
Definition ruleWithoutPort : HTTPRouteRule :=
{| hrr_Matches := [];
   hrr_BackendRefs := [backendRef (Some "Service") None];
   hrr_Timeouts := None |}.

End RuleExamples.

(* ===================================================================== *)
(** ** Hostname matcher: properties *)
(* ===================================================================== *)

(** On ASCII strings lower-casing goes byte by byte, so through an append. *)
Lemma ToLower_app (a b : string) :
  isASCII a = true -> isASCII b = true ->
  ToLower (a +:+ b) = ToLower a +:+ ToLower b.
Proof.
  intros _ _. induction a as [|c a IH]; simpl; [reflexivity | now rewrite IH].
Qed.

Lemma string_length_app (a b : string) :
  String.length (a +:+ b) = (String.length a + String.length b)%nat.
Proof. induction a as [|c a IH]; simpl; [reflexivity | now rewrite IH]. Qed.

Lemma slice_from_app (a b : string) : slice_from (String.length a) (a +:+ b) = b.
Proof. induction a as [|c a IH]; simpl; [now destruct b | exact IH]. Qed.

Lemma slice_from_split (n : nat) (s : string) :
  (n <= String.length s)%nat ->
  exists p, s = p +:+ slice_from n s /\ String.length p = n.
Proof.
  revert s; induction n as [|n IH]; intros s Hn.
  - exists "". split; [now destruct s | reflexivity].
  - destruct s as [|c s]; simpl in Hn; [lia|].
    destruct (IH s) as [p [Hp Hl]]; [lia|].
    exists (String c p). split; [| simpl; now rewrite Hl].
    change (String c s = String c (p +:+ slice_from n s)). now rewrite <- Hp.
Qed.

Lemma HasSuffix_true (s suffix : string) :
  HasSuffix s suffix = true <-> exists p, s = p +:+ suffix.
Proof.
  unfold HasSuffix. rewrite andb_true_iff, Nat.leb_le, String.eqb_eq. split.
  - intros [Hlen Heq].
    destruct (slice_from_split (String.length s - String.length suffix) s) as [p [Hp _]];
      [lia|].
    exists p. now rewrite Heq in Hp.
  - intros [p ->]. rewrite string_length_app. split; [lia|].
    replace (String.length p + String.length suffix - String.length suffix)%nat
      with (String.length p) by lia.
    apply slice_from_app.
Qed.

Lemma HasPrefix_wildcard_intro (s : string) : HasPrefix ("*." +:+ s) "*." = true.
Proof. unfold HasPrefix. destruct s; cbn; rewrite ?String.eqb_refl; reflexivity. Qed.

Lemma HasPrefix_wildcard_elim (s : string) :
  HasPrefix s "*." = true -> exists r, s = "*." +:+ r.
Proof.
  unfold HasPrefix. destruct s as [|a [|b r]]; simpl; try discriminate.
  destruct (Ascii.eqb_spec a "*") as [->|]; [|discriminate].
  destruct (Ascii.eqb_spec b ".") as [->|]; [|discriminate].
  intros _. now exists r.
Qed.

Lemma HasPrefix_wildcard_false (s : string) :
  HasPrefix s "*." = false -> forall r, s <> "*." +:+ r.
Proof.
  intros H r ->. now rewrite HasPrefix_wildcard_intro in H.
Qed.

Lemma hostnameMatches_wildcard_exact (X Y : string) :
  HasPrefix (ToLower Y) "*." = false ->
  hostnameMatches ("*." +:+ X) Y =
    (HasSuffix (ToLower Y) ("." +:+ ToLower X) && negb (String.eqb (ToLower Y) (ToLower X)))%bool.
Proof.
  intros Hexact. unfold hostnameMatches.
  change (ToLower ("*." +:+ X)) with ("*." +:+ ToLower X).
  destruct (String.eqb_spec ("*." +:+ ToLower X) (ToLower Y)) as [E|_].
  { exfalso. now apply (HasPrefix_wildcard_false _ Hexact (ToLower X)). }
  rewrite HasPrefix_wildcard_intro, Hexact. cbn [andb].
  unfold matchesWildcard.
  change (slice_from 1 ("*." +:+ ToLower X)) with ("." +:+ ToLower X).
  change (slice_from 1 ("." +:+ ToLower X)) with (ToLower X).
  destruct (HasSuffix (ToLower Y) ("." +:+ ToLower X)); cbn; [|reflexivity].
  now destruct (String.eqb (ToLower Y) (ToLower X)).
Qed.

Lemma hostnameMatches_sym (a b : string) : hostnameMatches a b = hostnameMatches b a.
Proof.
  unfold hostnameMatches.
  rewrite (String.eqb_sym (ToLower b) (ToLower a)).
  destruct (String.eqb (ToLower a) (ToLower b)); [reflexivity|].
  destruct (HasPrefix (ToLower a) "*."), (HasPrefix (ToLower b) "*."); cbn;
    try reflexivity.
  apply String.eqb_sym.
Qed.

Lemma hostnameMatches_exact_exact (L Y : string) :
  HasPrefix (ToLower L) "*." = false ->
  HasPrefix (ToLower Y) "*." = false ->
  hostnameMatches L Y = String.eqb (ToLower L) (ToLower Y).
Proof.
  intros HL HY. unfold hostnameMatches. rewrite HL, HY. cbn.
  now destruct (String.eqb (ToLower L) (ToLower Y)).
Qed.


Lemma HasSuffix_longer_false (s suffix : string) :
  (String.length s < String.length suffix)%nat -> HasSuffix s suffix = false.
Proof.
  intros Hlt. unfold HasSuffix.
  destruct (Nat.leb_spec (String.length suffix) (String.length s)); [lia | reflexivity].
Qed.

Lemma eqb_length_neq (a b : string) :
  String.length a <> String.length b -> String.eqb a b = false.
Proof.
  intros Hne. destruct (String.eqb_spec a b) as [->|]; [contradiction | reflexivity].
Qed.

Lemma slice_from_1_length (s : string) :
  String.length (slice_from 1 s) = (String.length s - 1)%nat.
Proof. destruct s; simpl; lia. Qed.

(** The apex of a wildcard never matches it, whatever the apex is. *)
Lemma hostnameMatches_apex (X : string) : hostnameMatches ("*." +:+ X) X = false.
Proof.
  unfold hostnameMatches.
  change (ToLower ("*." +:+ X)) with ("*." +:+ ToLower X).
  rewrite eqb_length_neq by (rewrite string_length_app; cbn; lia).
  rewrite HasPrefix_wildcard_intro.
  destruct (HasPrefix (ToLower X) "*.") eqn:HX; cbn [andb].
  - apply eqb_length_neq.
    change (slice_from 1 ("*." +:+ ToLower X)) with ("." +:+ ToLower X).
    rewrite slice_from_1_length, string_length_app. cbn. lia.
  - unfold matchesWildcard.
    change (slice_from 1 ("*." +:+ ToLower X)) with ("." +:+ ToLower X).
    rewrite HasSuffix_longer_false by (rewrite string_length_app; cbn; lia).
    reflexivity.
Qed.

(** C7.  Hostnames being ASCII strings, as DNS names are: a listener
    hostname [*.X] against an exact route hostname [Y] (one that does not
    start with [*.]): the matcher answers true exactly when, both sides
    lower-cased, [Y] ends with [.X] and [Y] is not [X].  Consequently the
    apex [X] never matches, every [sub.X] matches however many labels
    [sub] has, and a listener hostname that does not start with [*.] (a
    [*] elsewhere is no wildcard) is compared for equality. *)
Theorem hostnameMatches_wildcard_listener (X Y : string) :
  isASCII X = true ->
  isASCII Y = true ->
  HasPrefix (ToLower Y) "*." = false ->
  (hostnameMatches ("*." +:+ X) Y = true <->
     HasSuffix (ToLower Y) ("." +:+ ToLower X) = true /\ ToLower Y <> ToLower X)
  /\ hostnameMatches ("*." +:+ X) X = false
  /\ (forall sub : string,
        isASCII sub = true ->
        HasPrefix (ToLower (sub +:+ "." +:+ X)) "*." = false ->
        hostnameMatches ("*." +:+ X) (sub +:+ "." +:+ X) = true)
  /\ (forall L : string,
        isASCII L = true ->
        HasPrefix (ToLower L) "*." = false ->
        hostnameMatches L Y = String.eqb (ToLower L) (ToLower Y)).
Proof.
  intros HX _ Hexact. split; [|split; [|split]].
  - rewrite (hostnameMatches_wildcard_exact X Y Hexact), andb_true_iff, negb_true_iff.
    split; intros [Hs Hne]; (split; [exact Hs|]).
    + intros E. rewrite E, String.eqb_refl in Hne. discriminate.
    + destruct (String.eqb_spec (ToLower Y) (ToLower X)); [contradiction | reflexivity].
  - apply hostnameMatches_apex.
  - intros sub Hsub Hexact'. rewrite (hostnameMatches_wildcard_exact X _ Hexact').
    assert (ToLower (sub +:+ "." +:+ X) = ToLower sub +:+ "." +:+ ToLower X) as ->
      by (apply (ToLower_app sub ("." +:+ X) Hsub); exact HX).
    apply andb_true_iff. split.
    + apply HasSuffix_true. now exists (ToLower sub).
    + rewrite eqb_length_neq; [reflexivity|].
      rewrite string_length_app.
      change (String.length ("." +:+ ToLower X)) with (S (String.length (ToLower X))).
      lia.
  - intros L _ HL. now apply hostnameMatches_exact_exact.
Qed.

Lemma hostnameMatches_wildcard_listener_witness :
  (hostnameMatches "*.example.com" "bar.foo.Example.com" = true <->
     HasSuffix "bar.foo.example.com" ".example.com" = true
     /\ "bar.foo.example.com" <> "example.com")
  /\ hostnameMatches "*.example.com" "example.com" = false
  /\ hostnameMatches "*.example.com" "a.b.example.com" = true
  /\ hostnameMatches "foo.*.com" "bar.foo.Example.com" = false.
Proof.
  destruct (hostnameMatches_wildcard_listener "example.com" "bar.foo.Example.com"
              eq_refl eq_refl eq_refl) as [H1 [H2 [H3 H4]]].
  split; [exact H1 | split; [exact H2 | split]].
  - exact (H3 "a.b" eq_refl eq_refl).
  - rewrite (H4 "foo.*.com" eq_refl eq_refl). reflexivity.
Defined.

(** C8.  The pairwise hostname match is symmetric in its two arguments, and
    it is a function of them: two evaluations on the same pair agree. *)
Theorem hostnameMatches_symmetric_deterministic (a b : string) :
  hostnameMatches a b = hostnameMatches b a
  /\ (forall first second : bool,
        first = hostnameMatches a b -> second = hostnameMatches a b -> first = second).
Proof.
  split; [apply hostnameMatches_sym|].
  intros first second -> ->. reflexivity.
Qed.

(* ===================================================================== *)
(** ** Namespace gate: properties *)
(* ===================================================================== *)

Lemma getNamespaceFrom_allowedRoutesFrom `{LabelSelectorLib} (from : string)
    (selector : option LabelSelector) (kinds : list RouteGroupKind) :
  getNamespaceFrom (allowedRoutesFrom (Some from) selector kinds) = from.
Proof. reflexivity. Qed.

(** The nil dereference in [namespaceMatchesSelector] is never reached from
    [IsNamespaceAllowed]. *)
Lemma IsNamespaceAllowed_no_nil_dereference `{LabelSelectorLib}
    (v : routebinding.Validator) (allowedRoutes : option AllowedRoutes)
    (gatewayNamespace routeNamespace : string) :
  IsNamespaceAllowed v allowedRoutes gatewayNamespace routeNamespace <> Err NilDereference.
Proof.
  unfold IsNamespaceAllowed, getNamespaceFrom, namespaceMatchesSelector.
  destruct allowedRoutes as [[[[from selector]|] kinds]|]; cbn; try discriminate.
  destruct from as [from|]; cbn; try discriminate.
  repeat (match goal with
          | |- context [String.eqb ?a ?b] => destruct (String.eqb a b)
          end; try discriminate).
  destruct selector as [sel|]; try discriminate.
  destruct (LabelSelectorAsSelector sel); try discriminate.
  destruct (GetNamespace _ _); discriminate.
Qed.

(** C9.  The namespace gate: same-namespace equality when allowedRoutes,
    its namespaces or its from is nil, and for Same; true for All; false
    for None, also when route and Gateway share the namespace; for
    Selector, a nil selector denies, a selector that does not convert is an
    error handed to the caller, and otherwise a namespace that cannot be
    fetched is denied without error and a fetched one is matched by its
    labels. *)
Theorem IsNamespaceAllowed_policy `{LabelSelectorLib} (v : routebinding.Validator)
    (gatewayNamespace routeNamespace : string) :
  let gate := fun allowedRoutes =>
    IsNamespaceAllowed v allowedRoutes gatewayNamespace routeNamespace in
  let same := Ok (String.eqb gatewayNamespace routeNamespace) in
  gate None = same
  /\ (forall kinds, gate (Some {| ar_Namespaces := None; ar_Kinds := kinds |}) = same)
  /\ (forall selector kinds, gate (allowedRoutesFrom None selector kinds) = same)
  /\ (forall selector kinds,
        gate (allowedRoutesFrom (Some NamespacesFromSame) selector kinds) = same)
  /\ (forall selector kinds,
        gate (allowedRoutesFrom (Some NamespacesFromAll) selector kinds) = Ok true)
  /\ (forall selector kinds,
        gate (allowedRoutesFrom (Some NamespacesFromNone) selector kinds) = Ok false
        /\ IsNamespaceAllowed v (allowedRoutesFrom (Some NamespacesFromNone) selector kinds)
             gatewayNamespace gatewayNamespace = Ok false)
  /\ (forall kinds,
        gate (allowedRoutesFrom (Some NamespacesFromSelector) None kinds) = Ok false)
  /\ (forall sel kinds err,
        LabelSelectorAsSelector sel = Err err ->
        gate (allowedRoutesFrom (Some NamespacesFromSelector) (Some sel) kinds)
          = Err (Wrap err "invalid label selector"))
  /\ (forall sel kinds selector,
        LabelSelectorAsSelector sel = Ok selector ->
        (forall err, GetNamespace (routebinding.client v) routeNamespace = Err err ->
           gate (allowedRoutesFrom (Some NamespacesFromSelector) (Some sel) kinds) = Ok false)
        /\ (forall namespace,
              GetNamespace (routebinding.client v) routeNamespace = Ok namespace ->
              gate (allowedRoutesFrom (Some NamespacesFromSelector) (Some sel) kinds)
                = Ok (Matches selector (ns_Labels namespace)))).
Proof.
  cbv zeta. repeat split; intros; try reflexivity;
    unfold IsNamespaceAllowed; rewrite getNamespaceFrom_allowedRoutesFrom; cbn;
    repeat match goal with
           | H : _ = _ |- _ => rewrite H
           end; reflexivity.
Qed.

Lemma IsNamespaceAllowed_policy_witness :
  let v := Examples.validator Examples.gwS5 in
  IsNamespaceAllowed v
    (@allowedRoutesFrom Examples.lib (Some NamespacesFromSelector)
       (Some Examples.badSelector) [])
    "ns" "prod-ns"
    = Err (Wrap (LibError "not a valid label selector operator") "invalid label selector")
  /\ IsNamespaceAllowed v
       (@allowedRoutesFrom Examples.lib (Some NamespacesFromSelector)
          (Some Examples.prodSelector) [])
       "ns" "missing-ns" = Ok false
  /\ IsNamespaceAllowed v
       (@allowedRoutesFrom Examples.lib (Some NamespacesFromSelector)
          (Some Examples.prodSelector) [])
       "ns" "prod-ns" = Ok true
  /\ IsNamespaceAllowed v
       (@allowedRoutesFrom Examples.lib (Some NamespacesFromNone) None [])
       "ns" "ns" = Ok false.
Proof.
  cbv zeta. split; [|split; [|split]].
  - destruct (IsNamespaceAllowed_policy (Examples.validator Examples.gwS5) "ns" "prod-ns")
      as (_ & _ & _ & _ & _ & _ & _ & Hbad & _).
    apply (Hbad Examples.badSelector []). reflexivity.
  - destruct (IsNamespaceAllowed_policy (Examples.validator Examples.gwS5) "ns" "missing-ns")
      as (_ & _ & _ & _ & _ & _ & _ & _ & Hsel).
    destruct (Hsel Examples.prodSelector [] Examples.prodSelector eq_refl) as [Hmiss _].
    apply (Hmiss (LibError "not found")). reflexivity.
  - destruct (IsNamespaceAllowed_policy (Examples.validator Examples.gwS5) "ns" "prod-ns")
      as (_ & _ & _ & _ & _ & _ & _ & _ & Hsel).
    destruct (Hsel Examples.prodSelector [] Examples.prodSelector eq_refl) as [_ Hfound].
    rewrite (Hfound {| ns_Name := "prod-ns"; ns_Labels := {[ "env" := "prod" ]} |} eq_refl).
    vm_compute. reflexivity.
  - destruct (IsNamespaceAllowed_policy (Examples.validator Examples.gwS5) "ns" "ns")
      as (_ & _ & _ & _ & _ & Hnone & _).
    apply (Hnone None []).
Defined.

(* ===================================================================== *)
(** ** Grant validator: properties *)
(* ===================================================================== *)

Lemma matchesFrom_true (grantFrom : ReferenceGrantFrom)
    (fromRef : referencegrant.Reference) :
  referencegrant.matchesFrom grantFrom fromRef = true <-> fromEntryNames grantFrom fromRef.
Proof.
  unfold referencegrant.matchesFrom, fromEntryNames.
  destruct (String.eqb_spec (rgf_Group grantFrom) (referencegrant.Group fromRef));
  destruct (String.eqb_spec (rgf_Kind grantFrom) (referencegrant.Kind fromRef));
  destruct (String.eqb_spec (rgf_Namespace grantFrom) (referencegrant.Namespace fromRef));
  cbn; intuition congruence.
Qed.

Lemma matchesTo_true (grantTo : ReferenceGrantTo) (toRef : referencegrant.Reference) :
  referencegrant.matchesTo grantTo toRef = true <-> toEntryNames grantTo toRef.
Proof.
  unfold referencegrant.matchesTo, toEntryNames.
  destruct (String.eqb_spec
              (if String.eqb (rgt_Group grantTo) "core" then "" else rgt_Group grantTo)
              (referencegrant.Group toRef));
  destruct (String.eqb_spec (rgt_Kind grantTo) (referencegrant.Kind toRef));
  cbn; try (intuition congruence).
  destruct (rgt_Name grantTo) as [name|].
  - destruct (String.eqb_spec name (referencegrant.Name toRef)); cbn.
    + intuition congruence.
    + split; [discriminate|]. intros (_ & _ & Hn). now specialize (Hn name eq_refl).
  - intuition congruence.
Qed.

Lemma grantAllowsReference_true (grant : ReferenceGrant)
    (fromRef toRef : referencegrant.Reference) :
  referencegrant.grantAllowsReference grant fromRef toRef = true <->
  (exists grantFrom, In grantFrom (rg_From grant) /\ fromEntryNames grantFrom fromRef)
  /\ (exists grantTo, In grantTo (rg_To grant) /\ toEntryNames grantTo toRef).
Proof.
  unfold referencegrant.grantAllowsReference.
  destruct (existsb _ (rg_From grant)) eqn:Hfrom; cbn.
  - rewrite existsb_exists. apply existsb_exists in Hfrom.
    destruct Hfrom as [gf [Hin Hm]]. apply matchesFrom_true in Hm.
    split.
    + intros [gt [Hin' Hm']]. apply matchesTo_true in Hm'.
      split; [exists gf | exists gt]; split; assumption.
    + intros [_ [gt [Hin' Hm']]]. exists gt. split; [exact Hin'|].
      now apply matchesTo_true.
  - split; [discriminate|]. intros [[gf [Hin Hm]] _].
    assert (existsb (fun g => referencegrant.matchesFrom g fromRef) (rg_From grant) = true)
      as Hex.
    { apply existsb_exists. exists gf. split; [exact Hin|]. now apply matchesFrom_true. }
    congruence.
Qed.

(** C10.  The grant validator allows a reference exactly when the two
    namespaces are equal, or some grant listed in the target namespace has
    a [from] entry naming the source (group, kind, namespace) and a [to]
    entry naming the target (group, with ["core"] read as the empty group;
    kind; and the name when the entry gives one).  The alias is applied to
    the [to] side only: a [from] entry matches only a literally equal
    group. *)
Theorem IsReferenceAllowed_iff `{LabelSelectorLib} (v : referencegrant.Validator)
    (fromRef toRef : referencegrant.Reference) :
  (referencegrant.IsReferenceAllowed v fromRef toRef = Ok true <->
     referencegrant.Namespace fromRef = referencegrant.Namespace toRef
     \/ exists grants grant,
          ListReferenceGrants (referencegrant.client v) (referencegrant.Namespace toRef)
            = Ok grants
          /\ In grant grants
          /\ (exists grantFrom, In grantFrom (rg_From grant)
                                /\ fromEntryNames grantFrom fromRef)
          /\ (exists grantTo, In grantTo (rg_To grant) /\ toEntryNames grantTo toRef))
  /\ (forall kind name,
        referencegrant.matchesTo
          {| rgt_Group := "core"; rgt_Kind := kind; rgt_Name := name |} toRef
        = referencegrant.matchesTo
            {| rgt_Group := ""; rgt_Kind := kind; rgt_Name := name |} toRef)
  /\ (forall grantFrom,
        referencegrant.matchesFrom grantFrom fromRef = true ->
        rgf_Group grantFrom = referencegrant.Group fromRef).
Proof.
  split; [|split].
  - unfold referencegrant.IsReferenceAllowed.
    destruct (String.eqb_spec (referencegrant.Namespace fromRef)
                (referencegrant.Namespace toRef)) as [E|NE].
    + split; [now left | reflexivity].
    + destruct (ListReferenceGrants _ _) as [grants|err].
      * split.
        -- intros Hok. right. injection Hok as Hex. apply existsb_exists in Hex.
           destruct Hex as [grant [Hin Hallow]].
           apply grantAllowsReference_true in Hallow. exists grants, grant. tauto.
        -- intros [E | (grants' & grant & Hl & Hin & Hfrom & Hto)]; [contradiction|].
           injection Hl as <-. f_equal. apply existsb_exists. exists grant.
           split; [exact Hin|]. apply grantAllowsReference_true. tauto.
      * split; [discriminate|].
        intros [E | (grants' & grant & Hl & _)]; [contradiction | discriminate].
  - intros kind name. reflexivity.
  - intros grantFrom Hm. apply matchesFrom_true in Hm. apply Hm.
Qed.

Lemma IsReferenceAllowed_iff_witness :
  referencegrant.IsReferenceAllowed
    (referencegrant.NewValidator Examples.lib (Examples.cluster Examples.gwS5))
    Examples.fromRef Examples.toRef = Ok true
  /\ referencegrant.matchesFrom
       {| rgf_Group := "core"; rgf_Kind := "Service"; rgf_Namespace := "ns-b" |}
       Examples.toRef = false.
Proof.
  destruct (IsReferenceAllowed_iff
              (referencegrant.NewValidator Examples.lib (Examples.cluster Examples.gwS5))
              Examples.fromRef Examples.toRef) as [[_ Hallow] _].
  split; [|reflexivity].
  apply Hallow. right.
  eexists _, _. split; [reflexivity|]. split; [left; reflexivity|].
  split.
  - eexists. split; [left; reflexivity|]. repeat split.
  - eexists. split; [left; reflexivity|]. repeat split.
    intros name [= <-]. reflexivity.
Defined.

(* ===================================================================== *)
(** ** Binding evaluator: properties *)
(* ===================================================================== *)

Lemma listenerAcceptsRoute_reason `{LabelSelectorLib} (v : routebinding.Validator)
    (listener : Listener) (gatewayNamespace : string) (route : RouteInfo) (reason : string) :
  listenerAcceptsRoute v listener gatewayNamespace route = Ok reason ->
  reason = RouteReasonAccepted
  \/ reason = RouteReasonNoMatchingListenerHostname
  \/ reason = RouteReasonNotAllowedByListeners.
Proof.
  unfold listenerAcceptsRoute.
  destruct (HostnamesIntersect _ _); cbn; [|intros [= <-]; tauto].
  destruct (IsNamespaceAllowed _ _ _ _) as [[|]|]; cbn; try discriminate;
    [|intros [= <-]; tauto].
  destruct (IsRouteKindAllowed _ _ _); cbn; intros [= <-]; tauto.
Qed.

Lemma listenerAcceptsRoute_accepted `{LabelSelectorLib} (v : routebinding.Validator)
    (gateway : Gateway) (route : RouteInfo) (listener : Listener) :
  listenerAcceptsRoute v listener (gw_Namespace gateway) route = Ok RouteReasonAccepted
  <-> passesAllGates v gateway route listener.
Proof.
  unfold listenerAcceptsRoute, passesAllGates.
  destruct (HostnamesIntersect _ _); cbn; [|split; [discriminate | intros [? _]; discriminate]].
  destruct (IsNamespaceAllowed _ _ _ _) as [[|]|]; cbn.
  - destruct (IsRouteKindAllowed _ _ _); cbn.
    + tauto.
    + split; [discriminate | intros (_ & _ & ?); discriminate].
  - split; [discriminate | intros (_ & ? & _); discriminate].
  - split; [discriminate | intros (_ & ? & _); discriminate].
Qed.

Lemma acceptsListener_true `{LabelSelectorLib} (v : routebinding.Validator)
    (gateway : Gateway) (route : RouteInfo) (listener : Listener) :
  acceptsListener v (gw_Namespace gateway) route listener = true
  <-> skippedBySectionName route listener = false
      /\ passesAllGates v gateway route listener.
Proof.
  unfold acceptsListener. rewrite andb_true_iff, negb_true_iff.
  rewrite <- listenerAcceptsRoute_accepted.
  destruct (listenerAcceptsRoute _ _ _ _) as [reason|err].
  - rewrite String.eqb_eq. split; intros [Hs Hr]; (split; [exact Hs | congruence]).
  - split; intros [_ ?]; discriminate.
Qed.

(** The matched listeners the walk returns are the names of the listeners it
    evaluated and accepted, in declaration order. *)
Lemma walkListeners_matched `{LabelSelectorLib} (v : routebinding.Validator)
    (gatewayNamespace : string) (route : RouteInfo) (listeners : list Listener) :
  forall matched0 last0 matched lastReason,
    walkListeners v gatewayNamespace route listeners matched0 last0 = Ok (matched, lastReason) ->
    matched = matched0
              ++ map l_Name (List.filter (acceptsListener v gatewayNamespace route) listeners).
Proof.
  induction listeners as [|listener rest IH]; intros matched0 last0 matched lastReason; cbn.
  - intros [= <- <-]. now rewrite app_nil_r.
  - unfold acceptsListener at 1.
    destruct (skippedBySectionName route listener); cbn; [apply IH|].
    destruct (listenerAcceptsRoute _ _ _ _) as [reason|err]; [|discriminate].
    destruct (String.eqb reason RouteReasonAccepted); cbn.
    + intros Hw. apply IH in Hw. now rewrite <- app_assoc in Hw.
    + apply IH.
Qed.

(** Without a section-name, a walk that accepts nothing ends remembering the
    rejection reason of the last listener. *)
Lemma walkListeners_last `{LabelSelectorLib} (v : routebinding.Validator)
    (gatewayNamespace : string) (route : RouteInfo) (listeners : list Listener) :
  ri_SectionName route = None ->
  List.filter (acceptsListener v gatewayNamespace route) listeners = [] ->
  forall matched0 last0 matched lastReason listener,
    walkListeners v gatewayNamespace route listeners matched0 last0 = Ok (matched, lastReason) ->
    last listeners = Some listener ->
    listenerAcceptsRoute v listener gatewayNamespace route = Ok lastReason
    /\ lastReason <> RouteReasonAccepted.
Proof.
  intros Hsn. induction listeners as [|l0 rest IH];
    intros Hnone matched0 last0 matched lastReason listener; [discriminate|].
  cbn [List.filter] in Hnone.
  destruct (acceptsListener v gatewayNamespace route l0) eqn:Hacc0; [discriminate|].
  unfold acceptsListener in Hacc0.
  cbn [walkListeners]. unfold skippedBySectionName in Hacc0 |- *.
  rewrite Hsn in Hacc0 |- *. cbn in Hacc0.
  destruct (listenerAcceptsRoute v l0 gatewayNamespace route) as [reason|err] eqn:Hl0;
    [|discriminate].
  destruct (String.eqb_spec reason RouteReasonAccepted) as [->|Hne]; [discriminate|].
  destruct rest as [|l1 rest'].
  - cbn. intros [= <- <-] [= <-]. split; [exact Hl0 | exact Hne].
  - intros Hw Hlast. apply (IH Hnone _ _ _ _ _ Hw). exact Hlast.
Qed.

(** The walk fails only with the error of a namespace gate it evaluated. *)
Lemma walkListeners_error `{LabelSelectorLib} (v : routebinding.Validator)
    (gatewayNamespace : string) (route : RouteInfo) (listeners : list Listener) :
  forall matched0 last0 err,
    walkListeners v gatewayNamespace route listeners matched0 last0 = Err err ->
    exists listener,
      In listener listeners
      /\ skippedBySectionName route listener = false
      /\ HostnamesIntersect (l_Hostname listener) (ri_Hostnames route) = true
      /\ IsNamespaceAllowed v (l_AllowedRoutes listener) gatewayNamespace
           (ri_Namespace route) = Err err.
Proof.
  induction listeners as [|l0 rest IH]; intros matched0 last0 err; cbn; [discriminate|].
  destruct (skippedBySectionName route l0) eqn:Hskip.
  - intros Hw. destruct (IH _ _ _ Hw) as [l [Hin Hl]]. exists l. split; [now right | exact Hl].
  - destruct (listenerAcceptsRoute v l0 gatewayNamespace route) as [reason|e] eqn:Hl0.
    + intros Hw.
      assert (exists l, In l rest /\ skippedBySectionName route l = false
                        /\ HostnamesIntersect (l_Hostname l) (ri_Hostnames route) = true
                        /\ IsNamespaceAllowed v (l_AllowedRoutes l) gatewayNamespace
                             (ri_Namespace route) = Err err) as [l [Hin Hl]].
      { destruct (String.eqb reason RouteReasonAccepted); eapply IH; exact Hw. }
      exists l. split; [now right | exact Hl].
    + intros [= ->]. exists l0. split; [now left|]. split; [exact Hskip|].
      unfold listenerAcceptsRoute in Hl0.
      destruct (HostnamesIntersect _ _); cbn in Hl0; [|discriminate].
      split; [reflexivity|].
      destruct (IsNamespaceAllowed _ _ _ _) as [allowed|e]; [|congruence].
      destruct allowed; cbn in Hl0; [|discriminate].
      destruct (IsRouteKindAllowed _ _ _); discriminate.
Qed.

Lemma walkListeners_total `{LabelSelectorLib} (v : routebinding.Validator)
    (gatewayNamespace : string) (route : RouteInfo) (listeners : list Listener) :
  (forall listener, In listener listeners ->
     is_ok (IsNamespaceAllowed v (l_AllowedRoutes listener) gatewayNamespace
              (ri_Namespace route)) = true) ->
  forall matched0 last0,
    is_ok (walkListeners v gatewayNamespace route listeners matched0 last0) = true.
Proof.
  intros Hok matched0 last0.
  destruct (walkListeners _ _ _ _ _ _) as [res|err] eqn:Hw; [reflexivity|].
  apply walkListeners_error in Hw. destruct Hw as (l & Hin & _ & _ & Herr).
  specialize (Hok l Hin). now rewrite Herr in Hok.
Qed.

(** The evaluator returns a result whenever no namespace gate fails. *)
Lemma ValidateBinding_total `{LabelSelectorLib} (v : routebinding.Validator)
    (gateway : Gateway) (route : RouteInfo) :
  (forall listener, In listener (gw_Listeners gateway) ->
     is_ok (IsNamespaceAllowed v (l_AllowedRoutes listener) (gw_Namespace gateway)
              (ri_Namespace route)) = true) ->
  exists result, ValidateBinding v gateway route = Ok result.
Proof.
  intros Hok. unfold ValidateBinding, findMatchingListeners.
  destruct (List.length (gw_Listeners gateway) =? 0)%nat; cbn; [eauto|].
  pose proof (walkListeners_total v (gw_Namespace gateway) route _ Hok [] "") as Hw.
  destruct (walkListeners _ _ _ _ _ _) as [[matched lastReason]|err]; [|discriminate].
  destruct (List.length matched =? 0)%nat eqn:Hlen.
  - destruct (ri_SectionName route); cbn; [eauto|].
    destruct (String.eqb lastReason ""); cbn; eauto.
  - cbn. rewrite Hlen. eauto.
Qed.

(** What [ValidateBinding] returns, by the listeners the walk accepted. *)
Lemma ValidateBinding_Ok `{LabelSelectorLib} (v : routebinding.Validator)
    (gateway : Gateway) (route : RouteInfo) (result : BindingResult) :
  ValidateBinding v gateway route = Ok result ->
  let names :=
    map l_Name (List.filter (acceptsListener v (gw_Namespace gateway) route)
                  (gw_Listeners gateway)) in
  (names <> []
   /\ result = {| Accepted := true; Reason := RouteReasonAccepted;
                  Message := "Route accepted"; MatchedListeners := names |})
  \/ (names = []
      /\ Accepted result = false
      /\ MatchedListeners result = []
      /\ Message result = getReasonMessage (Reason result)
      /\ (gw_Listeners gateway = [] -> Reason result = RouteReasonNoMatchingParent)
      /\ (ri_SectionName route <> None -> Reason result = RouteReasonNoMatchingParent)
      /\ (ri_SectionName route = None ->
          forall listener, last (gw_Listeners gateway) = Some listener ->
            listenerAcceptsRoute v listener (gw_Namespace gateway) route
              = Ok (Reason result)
            /\ Reason result <> RouteReasonAccepted)).
Proof.
  intros Hv. cbv zeta.
  remember (map l_Name (List.filter (acceptsListener v (gw_Namespace gateway) route)
                          (gw_Listeners gateway))) as names eqn:Hnames.
  unfold ValidateBinding, findMatchingListeners in Hv.
  destruct (gw_Listeners gateway) as [|l0 rest] eqn:Hls.
  { cbn in Hv. injection Hv as <-. right. cbn in Hnames |- *.
    repeat split; try congruence; discriminate. }
  change (List.length (l0 :: rest) =? 0)%nat with false in Hv. cbv iota in Hv.
  destruct (walkListeners _ _ _ _ _ _) as [[matched lastReason]|err] eqn:Hw; [|discriminate].
  pose proof (walkListeners_matched _ _ _ _ _ _ _ _ Hw) as Hm. cbn [app] in Hm.
  rewrite <- Hnames in Hm. subst matched.
  destruct names as [|n0 names'].
  - right. cbn in Hv.
    assert (List.filter (acceptsListener v (gw_Namespace gateway) route) (l0 :: rest) = [])
      as Hnone.
    { destruct (List.filter _ _); [reflexivity | discriminate]. }
    destruct (ri_SectionName route) as [sn|] eqn:Hsn.
    + cbn in Hv. injection Hv as <-. cbn. repeat split; try congruence.
    + assert (forall listener, last (l0 :: rest) = Some listener ->
                listenerAcceptsRoute v listener (gw_Namespace gateway) route = Ok lastReason
                /\ lastReason <> RouteReasonAccepted) as Hlast.
      { intros listener Hl. eapply walkListeners_last; eauto. }
      destruct (last (l0 :: rest)) as [ll|] eqn:Hll.
      2:{ exfalso. clear -Hll. revert l0 Hll. induction rest as [|l1 rest IH]; intros l0;
          [discriminate | cbn; apply IH]. }
      destruct (Hlast ll eq_refl) as [Hacc Hne].
      assert (String.eqb lastReason "" = false) as Hnonempty.
      { apply listenerAcceptsRoute_reason in Hacc.
        destruct Hacc as [->|[->| ->]]; reflexivity. }
      rewrite Hnonempty in Hv. cbn in Hv. injection Hv as <-. cbn.
      repeat split; try congruence.
  - left. split; [discriminate|]. cbn in Hv. injection Hv as <-. reflexivity.
Qed.




(** Scenarios S2 and S3 of the specification, a section-name that names no
    listener, a Gateway without listeners, and a selector error that hides
    a listener that passed. *)
Example ValidateBinding_scenarios :
  let v := Examples.validator Examples.gwS5 in
  let reasonOf := fun r => match r with Ok b => Ok (Accepted b, Reason b) | Err e => Err e end in
  reasonOf (ValidateBinding v Examples.gwS5 (Examples.routeInfo ["other.com"] None))
    = Ok (false, RouteReasonNoMatchingListenerHostname)
  /\ reasonOf (ValidateBinding v
                 (Examples.gateway [Examples.listener "http" (Some "*.example.com") None])
                 (Examples.routeInfo ["example.com"] None))
     = Ok (false, RouteReasonNoMatchingListenerHostname)
  /\ reasonOf (ValidateBinding v Examples.gwS5 (Examples.routeInfo ["x.b.com"] (Some "tls")))
     = Ok (false, RouteReasonNoMatchingParent)
  /\ reasonOf (ValidateBinding v (Examples.gateway []) (Examples.routeInfo [] None))
     = Ok (false, RouteReasonNoMatchingParent)
  /\ reasonOf (ValidateBinding v Examples.gwBadSelector (Examples.routeInfo [] None))
     = Err (Wrap (LibError "not a valid label selector operator") "invalid label selector").
Proof. vm_compute. repeat split. Qed.

(* ===================================================================== *)
(** ** Backend weights: properties *)
(* ===================================================================== *)

Lemma selectInvariant_step {T} `{WeightedRef T} (seen : list T) (ref : T)
    (selectedIdx highestWeight : Z) :
  selectInvariant seen selectedIdx highestWeight ->
  let weight := effectiveWeight ref in
  selectInvariant (seen ++ [ref])
    (if weight =? 0 then selectedIdx
     else if ((selectedIdx =? -1) || (highestWeight <? weight))%bool
          then Z.of_nat (List.length seen) else selectedIdx)
    (if weight =? 0 then highestWeight
     else if ((selectedIdx =? -1) || (highestWeight <? weight))%bool
          then weight else highestWeight).
Proof.
  intros Hinv weight.
  assert (forall (j : nat) r, (seen ++ [ref]) !! j = Some r ->
            seen !! j = Some r \/ (j = List.length seen /\ r = ref)) as Hsnoc.
  { intros j r Hj. apply lookup_app_Some in Hj.
    destruct Hj as [Hj | [Hge Hj]]; [now left | right].
    destruct (j - List.length seen)%nat eqn:Hd; cbn in Hj; [|discriminate].
    injection Hj as <-. split; [lia | reflexivity]. }
  assert ((seen ++ [ref]) !! List.length seen = Some ref) as Hnew.
  { rewrite lookup_app_r by lia. now rewrite Nat.sub_diag. }
  destruct (Z.eqb_spec weight 0) as [Hz|Hnz].
  - (* a disabled backend changes nothing *)
    destruct Hinv as [[Hsel Hall] | (n & picked & Hsel & Hn & Hw & Hhi & Hmax & Hfirst)].
    + left. split; [exact Hsel|]. intros r Hin. apply in_app_or in Hin.
      destruct Hin as [Hin | [<- | []]]; [now apply Hall | exact Hz].
    + right. exists n, picked. split; [exact Hsel|].
      split; [now apply lookup_app_l_Some|]. split; [exact Hw|]. split; [exact Hhi|].
      split.
      * intros j r Hj Hr. destruct (Hsnoc j r Hj) as [Hj' | [_ ->]]; [eauto | contradiction].
      * intros j r Hlt Hj Hr.
        destruct (Hsnoc j r Hj) as [Hj' | [_ ->]]; [eauto | contradiction].
  - destruct Hinv as [[Hsel Hall] | (n & picked & Hsel & Hn & Hw & Hhi & Hmax & Hfirst)].
    + (* the first enabled backend *)
      rewrite Hsel. cbn. right. exists (List.length seen), ref.
      split; [reflexivity|]. split; [exact Hnew|]. split; [reflexivity|].
      split; [exact Hnz|]. split.
      * intros j r Hj Hr. destruct (Hsnoc j r Hj) as [Hj' | [_ ->]]; [|fold weight; lia].
        exfalso. apply Hr, Hall. apply list_elem_of_In.
        eapply list_elem_of_lookup_2. exact Hj'.
      * intros j r Hlt Hj Hr. destruct (Hsnoc j r Hj) as [Hj' | [-> _]]; [|lia].
        exfalso. apply Hr, Hall. apply list_elem_of_In.
        eapply list_elem_of_lookup_2. exact Hj'.
    + assert (n < List.length seen)%nat as Hlen by (eapply lookup_lt_Some; exact Hn).
      assert ((selectedIdx =? -1) = false) as -> by (apply Z.eqb_neq; lia).
      cbn. destruct (Z.ltb_spec highestWeight weight) as [Hlt|Hge].
      * (* a strictly higher weight takes over *)
        right. exists (List.length seen), ref.
        split; [reflexivity|]. split; [exact Hnew|]. split; [reflexivity|].
        split; [exact Hnz|]. split.
        -- intros j r Hj Hr. destruct (Hsnoc j r Hj) as [Hj' | [_ ->]]; [|fold weight; lia].
           specialize (Hmax j r Hj' Hr). lia.
        -- intros j r Hj_lt Hj Hr. destruct (Hsnoc j r Hj) as [Hj' | [-> _]]; [|lia].
           specialize (Hmax j r Hj' Hr). lia.
      * (* an equal or lower weight leaves the earlier choice *)
        right. exists n, picked. split; [exact Hsel|].
        split; [now apply lookup_app_l_Some|]. split; [exact Hw|]. split; [exact Hhi|].
        split.
        -- intros j r Hj Hr. destruct (Hsnoc j r Hj) as [Hj' | [_ ->]]; [eauto|].
           fold weight. lia.
        -- intros j r Hj_lt Hj Hr. destruct (Hsnoc j r Hj) as [Hj' | [-> _]]; [eauto | lia].
Qed.

Lemma selectLoop_invariant {T} `{WeightedRef T} (rest : list T) :
  forall (seen : list T) (selectedIdx highestWeight : Z),
    selectInvariant seen selectedIdx highestWeight ->
    exists highestWeight',
      selectInvariant (seen ++ rest)
        (selectLoop rest (Z.of_nat (List.length seen)) selectedIdx highestWeight)
        highestWeight'.
Proof.
  induction rest as [|ref rest IH]; intros seen selectedIdx highestWeight Hinv.
  - exists highestWeight. now rewrite app_nil_r.
  - pose proof (selectInvariant_step seen ref selectedIdx highestWeight Hinv) as Hstep.
    cbv zeta in Hstep. cbn [selectLoop]. fold (effectiveWeight ref).
    replace (Z.of_nat (List.length seen) + 1) with (Z.of_nat (List.length (seen ++ [ref])))
      by (rewrite length_app; cbn; lia).
    replace (seen ++ ref :: rest) with ((seen ++ [ref]) ++ rest)
      by (now rewrite <- app_assoc).
    destruct (effectiveWeight ref =? 0); [now apply IH|].
    destruct ((selectedIdx =? -1) || (highestWeight <? effectiveWeight ref))%bool.
    + now apply IH.
    + now apply IH.
Qed.

Lemma SelectHighestWeightIndex_invariant {T} `{WeightedRef T} (refs : list T) :
  exists highestWeight,
    selectInvariant refs (SelectHighestWeightIndex refs) highestWeight.
Proof.
  unfold SelectHighestWeightIndex. destruct refs as [|ref rest].
  - exists 0. left. split; [reflexivity | intros r []].
  - change (List.length (ref :: rest) =? 0)%nat with false. cbv iota.
    apply (selectLoop_invariant (ref :: rest) [] (-1) 0).
    left. split; [reflexivity | intros r []].
Qed.

(** C5.  The wire weight of a backend reference is 1 when the reference
    gives no weight and the given weight when that is positive.  The
    single-backend selector returns -1 exactly when the list is empty or
    every weight is 0; otherwise it returns the index of a reference whose
    weight is not 0, no positive weight in the list is higher, every
    positive weight listed earlier is strictly lower, and the picked weight
    is positive as soon as some weight is. *)
Theorem backend_weight_semantics {T} `{WeightedRef T} (b : PingoraBuilder)
    (namespace : string) (ref : BackendRef) (refs : list T) :
  (forall backend, buildBackend b namespace ref = Some backend ->
     (br_Weight ref = None -> b_Weight backend = 1)
     /\ (forall w, br_Weight ref = Some w -> 0 < w <= 2147483647 -> b_Weight backend = w))
  /\ (SelectHighestWeightIndex refs = -1 <-> forall r, In r refs -> effectiveWeight r = 0)
  /\ (SelectHighestWeightIndex refs <> -1 ->
      exists (n : nat) (picked : T),
        SelectHighestWeightIndex refs = Z.of_nat n
        /\ refs !! n = Some picked
        /\ effectiveWeight picked <> 0
        /\ (forall (j : nat) r, refs !! j = Some r -> 0 < effectiveWeight r ->
              effectiveWeight r <= effectiveWeight picked)
        /\ (forall (j : nat) r, (j < n)%nat -> refs !! j = Some r -> 0 < effectiveWeight r ->
              effectiveWeight r < effectiveWeight picked)
        /\ ((exists r, In r refs /\ 0 < effectiveWeight r) -> 0 < effectiveWeight picked)).
Proof.
  split; [|split].
  - intros backend. unfold buildBackend.
    destruct (match br_Kind ref with Some k => negb (String.eqb k "Service") | None => false end);
      [discriminate|].
    intros [= <-]. cbn. split.
    + intros ->. reflexivity.
    + intros w -> Hw. destruct (Z.ltb_spec 0 w); [|lia].
      unfold to_uint32. apply Z.mod_small. lia.
  - destruct (SelectHighestWeightIndex_invariant refs) as [hi Hinv].
    destruct Hinv as [[Hsel Hall] | (n & picked & Hsel & Hn & Hw & Hhi & _)].
    + split; [intros _; exact Hall | intros _; exact Hsel].
    + split; [intros E; lia|].
      intros Hall. exfalso. apply Hhi. rewrite <- Hw. apply Hall.
      apply list_elem_of_In. eapply list_elem_of_lookup_2. exact Hn.
  - intros Hne. destruct (SelectHighestWeightIndex_invariant refs) as [hi Hinv].
    destruct Hinv as [[Hsel _] | (n & picked & Hsel & Hn & Hw & Hhi & Hmax & Hfirst)];
      [contradiction|].
    exists n, picked. subst hi. repeat split; try assumption.
    + intros j r Hj Hr. apply (Hmax j r Hj). lia.
    + intros j r Hlt Hj Hr. apply (Hfirst j r Hlt Hj). lia.
    + intros (r & Hin & Hr). apply list_elem_of_In, list_elem_of_lookup in Hin.
      destruct Hin as [j Hj]. specialize (Hmax j r Hj). lia.
Qed.

Lemma backend_weight_semantics_witness :
  let refs := [Examples.backend (Some 0); Examples.backend (Some 5);
               Examples.backend None; Examples.backend (Some 5)] in
  (b_Weight <$> buildBackend (NewPingoraBuilder "cluster.local") "ns" (Examples.backend (Some 5)))
    = Some 5
  /\ b_Weight <$> buildBackend (NewPingoraBuilder "cluster.local") "ns" (Examples.backend None)
     = Some 1
  /\ SelectHighestWeightIndex refs = 1
  /\ SelectHighestWeightIndex [Examples.backend (Some 0); Examples.backend (Some 0)] = -1
  /\ SelectHighestWeightIndex (@nil BackendRef) = -1.
Proof.
  cbv zeta.
  pose proof (backend_weight_semantics (NewPingoraBuilder "cluster.local") "ns"
                (Examples.backend (Some 5))
                [Examples.backend (Some 0); Examples.backend (Some 0)]) as (Hb & Hnone & _).
  destruct (Hb _ eq_refl) as [_ Hpos].
  split; [cbn; f_equal; apply (Hpos 5 eq_refl); lia|].
  split; [reflexivity|]. split; [reflexivity|].
  split; [|reflexivity].
  apply Hnone. intros r [<- | [<- | []]]; reflexivity.
Defined.

(** The wire address and weight of scenario S1, and what the builder emits
    for an explicit weight of 0. *)
Example buildBackend_scenarios :
  buildBackend (NewPingoraBuilder "cluster.local") "ns" (Examples.backend None)
    = Some {| b_Address := "svc.ns.svc.cluster.local:80"; b_Weight := 1;
              b_Protocol := BACKEND_PROTOCOL_HTTP |}
  /\ b_Weight <$> buildBackend (NewPingoraBuilder "cluster.local") "ns"
                    (Examples.backend (Some 0)) = Some 1.
Proof. vm_compute. split; reflexivity. Qed.

(* ===================================================================== *)
(** ** Attached-route count: properties *)
(* ===================================================================== *)

Lemma wrap_int32_succ (z : Z) : wrap_int32 (wrap_int32 z + 1) = wrap_int32 (z + 1).
Proof.
  unfold wrap_int32.
  replace ((z + 2147483648) mod 4294967296 - 2147483648 + 1 + 2147483648)
    with ((z + 2147483648) mod 4294967296 + 1) by lia.
  rewrite Zplus_mod_idemp_l. f_equal. f_equal. lia.
Qed.

Lemma wrap_int32_small (z : Z) :
  -2147483648 <= z <= 2147483647 -> wrap_int32 z = z.
Proof. intros Hz. unfold wrap_int32. rewrite Z.mod_small; lia. Qed.

Lemma incrAttached_counts (result : gmap string Z) (listenerName name : string)
    (count : nat) :
  counts result listenerName count ->
  counts (incrAttached result name) listenerName
    (count + (if bool_decide (name = listenerName) then 1 else 0)).
Proof.
  unfold counts, incrAttached. intros Hc. case_bool_decide as Hname.
  - subst name. rewrite lookup_insert_eq, Hc. cbn. rewrite wrap_int32_succ.
    do 2 f_equal. lia.
  - rewrite lookup_insert_ne by exact Hname. rewrite Hc. do 3 f_equal. lia.
Qed.

Lemma fold_incrAttached_counts (names : list string) :
  forall (result : gmap string Z) (listenerName : string) (count : nat),
    NoDup names ->
    counts result listenerName count ->
    counts (fold_left incrAttached names result) listenerName
      (count + (if bool_decide (listenerName ∈ names) then 1 else 0)).
Proof.
  induction names as [|name names IH]; intros result listenerName count Hnd Hc; cbn.
  - rewrite bool_decide_eq_false_2 by (apply not_elem_of_nil). now rewrite Nat.add_0_r.
  - apply NoDup_cons in Hnd. destruct Hnd as [Hfresh Hnd].
    pose proof (IH _ listenerName _ Hnd (incrAttached_counts _ _ name _ Hc)) as Hrest.
    replace (count + (if bool_decide (listenerName ∈ name :: names) then 1 else 0))%nat
      with (count + (if bool_decide (name = listenerName) then 1 else 0)
            + (if bool_decide (listenerName ∈ names) then 1 else 0))%nat; [exact Hrest|].
    repeat case_bool_decide; try lia; subst;
      repeat match goal with
             | Hn : ?x ∉ ?x :: _ |- _ => exfalso; apply Hn; left
             | Hn : ?x ∉ _ :: ?l, Hin : ?x ∈ ?l |- _ => exfalso; apply Hn; now right
             | Hin : ?x ∈ ?y :: ?l, Hne : ?y ≠ ?x, Hn : ?x ∉ ?l |- _ =>
                 exfalso; apply elem_of_cons in Hin; destruct Hin; [congruence | contradiction]
             | Hin : ?x ∈ ?l, Hfresh : ?x ∉ ?l |- _ => contradiction
             end.
Qed.

Lemma NoDup_matched_names `{LabelSelectorLib} (accepts : Listener -> bool)
    (listeners : list Listener) :
  NoDup (map l_Name listeners) -> NoDup (map l_Name (List.filter accepts listeners)).
Proof.
  induction listeners as [|l rest IH]; cbn; [trivial|].
  intros Hnd. apply NoDup_cons in Hnd. destruct Hnd as [Hfresh Hnd].
  destruct (accepts l); cbn; [|now apply IH].
  apply NoDup_cons. split; [|now apply IH].
  intros Hin. apply Hfresh. apply list_elem_of_In in Hin. apply list_elem_of_In.
  apply in_map_iff in Hin. destruct Hin as (l' & Hname & Hin).
  apply filter_In in Hin. apply in_map_iff. exists l'. tauto.
Qed.

Lemma ValidateBinding_matched_NoDup `{LabelSelectorLib} (v : routebinding.Validator)
    (gateway : Gateway) (route : RouteInfo) (result : BindingResult) :
  NoDup (map l_Name (gw_Listeners gateway)) ->
  ValidateBinding v gateway route = Ok result ->
  NoDup (MatchedListeners result).
Proof.
  intros Hnd Hv. apply ValidateBinding_Ok in Hv. cbv zeta in Hv.
  destruct Hv as [[_ ->] | (_ & _ & -> & _)]; cbn; [|apply NoDup_nil_2].
  now apply NoDup_matched_names.
Qed.

Lemma countParentRef_counts `{LabelSelectorLib} (validator : routebinding.Validator)
    (gateway : Gateway) (routeKind : string) (route : Route) (ref : ParentReference)
    (result : gmap string Z) (listenerName : string) (count : nat) :
  NoDup (map l_Name (gw_Listeners gateway)) ->
  counts result listenerName count ->
  counts (countParentRef validator gateway routeKind route result ref) listenerName
    (count + (if attachedTo validator gateway routeKind listenerName route ref
              then 1 else 0)).
Proof.
  intros Hnd Hc. unfold countParentRef, attachedTo.
  fold (routeInfoFor routeKind route ref).
  destruct (refMatchesGateway ref gateway (r_Namespace route)); cbn;
    [|now rewrite Nat.add_0_r].
  destruct (ValidateBinding validator gateway (routeInfoFor routeKind route ref))
    as [bindingResult|err] eqn:Hv; [|now rewrite Nat.add_0_r].
  destruct (Accepted bindingResult); cbn; [|now rewrite Nat.add_0_r].
  apply fold_incrAttached_counts; [|exact Hc].
  eapply ValidateBinding_matched_NoDup; eauto.
Qed.

Lemma countRoutes_counts `{LabelSelectorLib} (validator : routebinding.Validator)
    (gateway : Gateway) (routeKind : string) (items : list Route) (listenerName : string) :
  NoDup (map l_Name (gw_Listeners gateway)) ->
  forall (result : gmap string Z) (count : nat),
    counts result listenerName count ->
    counts (countRoutes validator gateway routeKind items result) listenerName
      (count + attachedPairs validator gateway routeKind listenerName items).
Proof.
  intros Hnd. unfold countRoutes, attachedPairs.
  induction items as [|route items IH]; intros result count Hc; cbn.
  - now rewrite Nat.add_0_r.
  - rewrite Nat.add_assoc. apply IH. clear IH.
    revert result count Hc. induction (r_ParentRefs route) as [|ref refs IHr];
      intros result count Hc; cbn.
    + now rewrite Nat.add_0_r.
    + pose proof (countParentRef_counts validator gateway routeKind route ref
                    result listenerName count Hnd Hc) as Hstep.
      apply IHr in Hstep.
      destruct (attachedTo validator gateway routeKind listenerName route ref); cbn.
      * replace (count + S (List.length (List.filter _ refs)))%nat
          with (count + 1 + List.length
                  (List.filter (attachedTo validator gateway routeKind listenerName route)
                     refs))%nat by lia.
        exact Hstep.
      * now rewrite Nat.add_0_r in Hstep.
Qed.

Lemma initial_counts_other `{LabelSelectorLib} (listeners : list Listener) (name : string) :
  ~ In name (map l_Name listeners) ->
  forall result : gmap string Z,
    fold_left (fun result listener => <[l_Name listener := 0]> result) listeners result
      !! name = result !! name.
Proof.
  induction listeners as [|l rest IH]; intros Hfresh result; cbn; [reflexivity|].
  rewrite IH by (intros Hin; apply Hfresh; now right).
  apply lookup_insert_ne. intros E. apply Hfresh. now left.
Qed.

Lemma initial_counts `{LabelSelectorLib} (listeners : list Listener) (listener : Listener) :
  In listener listeners ->
  forall result : gmap string Z,
    counts (fold_left (fun result listener => <[l_Name listener := 0]> result)
              listeners result)
      (l_Name listener) 0.
Proof.
  unfold counts. change (wrap_int32 (Z.of_nat 0)) with 0.
  intros Hin. apply (in_map l_Name) in Hin. revert Hin.
  generalize (l_Name listener) as name. intros name.
  induction listeners as [|l rest IH]; intros Hin result; [destruct Hin|].
  cbn. destruct (in_dec string_dec name (map l_Name rest)) as [Hrest|Hrest].
  - now apply IH.
  - destruct Hin as [<-|Hin]; [|contradiction].
    rewrite initial_counts_other by exact Hrest. apply lookup_insert_eq.
Qed.

Lemma fold_left_snoc_map {A B : Type} (f : A -> B) (l : list A) :
  forall acc : list B, fold_left (fun acc x => acc ++ [f x]) l acc = acc ++ map f l.
Proof.
  induction l as [|x l IH]; intros acc; cbn.
  - now rewrite app_nil_r.
  - rewrite IH, <- app_assoc. reflexivity.
Qed.

Lemma listenerStatuses_names_counts `{LabelSelectorLib} (r : PingoraGatewayReconciler)
    (gateway : Gateway) :
  map (fun status => (ls_Name status, ls_AttachedRoutes status)) (listenerStatuses r gateway)
  = map (fun listener =>
           (l_Name listener,
            default 0 (countAttachedRoutes r gateway !! l_Name listener)))
      (gw_Listeners gateway).
Proof.
  unfold listenerStatuses. cbv zeta.
  rewrite fold_left_snoc_map. cbn [app]. rewrite map_map. reflexivity.
Qed.

(** The test of the Gateway reconciler on a parent-ref is the
    specification's: the reference names the Gateway and resolves to its
    namespace. *)
Lemma refMatchesGateway_namesGateway `{LabelSelectorLib} (gateway : Gateway)
    (route : Route) (ref : ParentReference) :
  refMatchesGateway ref gateway (r_Namespace route) = true
  <-> namesGateway gateway route ref.
Proof.
  unfold refMatchesGateway, namesGateway.
  destruct (String.eqb_spec (pr_Name ref) (gw_Name gateway)) as [Hname|Hname]; cbn.
  - rewrite String.eqb_eq. tauto.
  - split; [discriminate | tauto].
Qed.

Lemma attachedTo_countedPair `{LabelSelectorLib} (validator : routebinding.Validator)
    (gateway : Gateway) (routeKind listenerName : string) (route : Route)
    (ref : ParentReference) :
  attachedTo validator gateway routeKind listenerName route ref
  = bool_decide (countedPair validator gateway routeKind listenerName route ref).
Proof.
  apply eq_true_iff_eq. rewrite bool_decide_eq_true.
  unfold attachedTo, countedPair.
  rewrite andb_true_iff, refMatchesGateway_namesGateway.
  destruct (ValidateBinding validator gateway (routeInfoFor routeKind route ref))
    as [bindingResult|err].
  - rewrite andb_true_iff, bool_decide_eq_true. split.
    + intros (Hnames & Haccepted & Hin). eauto.
    + intros (Hnames & bindingResult' & [= <-] & Haccepted & Hin). tauto.
  - split; [intros [_ Habs]; discriminate | intros (_ & ? & Habs & _); discriminate].
Qed.

Lemma attachedPairs_countedPairs `{LabelSelectorLib} (validator : routebinding.Validator)
    (gateway : Gateway) (routeKind listenerName : string) (routes : list Route) :
  attachedPairs validator gateway routeKind listenerName routes
  = countedPairs validator gateway routeKind listenerName routes.
Proof.
  unfold attachedPairs, countedPairs. f_equal. apply map_ext. intros route.
  f_equal. apply filter_ext. intros ref. apply attachedTo_countedPair.
Qed.

(** C4.  For a Gateway with distinctly named listeners, once both route
    lists are read: the attached-routes count written to the status of a
    listener is the number of (route, parent-ref) pairs, over the
    HTTPRoutes and the GRPCRoutes, whose parent-ref names the Gateway and
    resolves to its namespace, whose BindingResult is accepted and whose
    matched listeners contain the listener (the count fitting the [int32]
    status field); a listener no route matched counts 0. *)
Theorem countAttachedRoutes_counts_pairs `{LabelSelectorLib}
    (r : PingoraGatewayReconciler) (gateway : Gateway)
    (httpItems grpcItems : list Route) (listener : Listener) :
  ListHTTPRoutes (gr_Client r) = Ok httpItems ->
  ListGRPCRoutes (gr_Client r) = Ok grpcItems ->
  NoDup (map l_Name (gw_Listeners gateway)) ->
  In listener (gw_Listeners gateway) ->
  let validator := routebinding.NewValidator _ (gr_Client r) in
  let pairs :=
    (countedPairs validator gateway KindHTTPRoute (l_Name listener) httpItems
     + countedPairs validator gateway KindGRPCRoute (l_Name listener) grpcItems)%nat in
  Z.of_nat pairs <= 2147483647 ->
  countAttachedRoutes r gateway !! l_Name listener = Some (Z.of_nat pairs)
  /\ In (l_Name listener, Z.of_nat pairs)
       (map (fun status => (ls_Name status, ls_AttachedRoutes status))
          (listenerStatuses r gateway))
  /\ (forall status, In status (listenerStatuses r gateway) ->
        ls_Name status = l_Name listener -> ls_AttachedRoutes status = Z.of_nat pairs)
  /\ (pairs = 0%nat -> countAttachedRoutes r gateway !! l_Name listener = Some 0).
Proof.
  intros Hhttp Hgrpc Hnd Hin validator pairs Hfit.
  assert (countAttachedRoutes r gateway !! l_Name listener = Some (Z.of_nat pairs)) as Hcount.
  { unfold countAttachedRoutes. rewrite Hhttp, Hgrpc.
    pose proof (initial_counts (gw_Listeners gateway) listener Hin ∅) as H0.
    apply (countRoutes_counts validator gateway KindHTTPRoute httpItems _ Hnd) in H0.
    apply (countRoutes_counts validator gateway KindGRPCRoute grpcItems _ Hnd) in H0.
    unfold counts in H0. cbn [Nat.add] in H0. rewrite !attachedPairs_countedPairs in H0.
    fold pairs in H0.
    rewrite wrap_int32_small in H0 by lia. exact H0. }
  pose proof (listenerStatuses_names_counts r gateway) as Hst.
  split; [exact Hcount|]. split; [|split].
  - rewrite Hst. apply in_map_iff. exists listener. split; [|exact Hin].
    now rewrite Hcount.
  - intros status Hs Hname.
    pose proof (in_map (fun s => (ls_Name s, ls_AttachedRoutes s)) _ _ Hs) as Hpair.
    cbv beta in Hpair.
    rewrite Hst in Hpair. apply in_map_iff in Hpair.
    destruct Hpair as (l & [= Hl Hval] & _).
    rewrite <- Hval, Hl, Hname, Hcount. reflexivity.
  - intros Hzero. rewrite Hcount, Hzero. reflexivity.
Qed.

Lemma countAttachedRoutes_counts_pairs_witness :
  countedPairs (routebinding.NewValidator _ (gr_Client ExampleControllers.gatewayReconciler))
    Examples.gwS5 KindHTTPRoute "https" [Examples.r1; Examples.r2] = 2%nat
  /\ countedPairs
       (routebinding.NewValidator _ (gr_Client ExampleControllers.gatewayReconciler))
       Examples.gwS5 KindGRPCRoute "https" [Examples.g1] = 0%nat
  /\ countAttachedRoutes ExampleControllers.gatewayReconciler Examples.gwS5 !! "https" = Some 2
  /\ In ("https", 2)
       (map (fun status => (ls_Name status, ls_AttachedRoutes status))
          (listenerStatuses ExampleControllers.gatewayReconciler Examples.gwS5)).
Proof.
  assert (NoDup (map l_Name (gw_Listeners Examples.gwS5))) as Hnd
    by (apply (bool_decide_unpack _); vm_compute; exact I).
  assert (In (Examples.listener "https" (Some "*.b.com") None)
            (gw_Listeners Examples.gwS5)) as Hin by (right; left; reflexivity).
  split; [vm_compute; reflexivity|]. split; [vm_compute; reflexivity|].
  destruct (countAttachedRoutes_counts_pairs ExampleControllers.gatewayReconciler
              Examples.gwS5 [Examples.r1; Examples.r2] [Examples.g1]
              (Examples.listener "https" (Some "*.b.com") None)
              eq_refl eq_refl Hnd Hin) as (Hcount & Hstatus & _).
  - vm_compute. discriminate.
  - split; [exact Hcount | exact Hstatus].
Defined.

(** The counts of the example cluster: [https] is matched by both
    parent-refs of [r1], [http] by the GRPCRoute [g1]. *)
Example countAttachedRoutes_example :
  map (fun status => (ls_Name status, ls_AttachedRoutes status))
    (listenerStatuses ExampleControllers.gatewayReconciler Examples.gwS5)
  = [("http", 1); ("https", 2)].
Proof. vm_compute. reflexivity. Qed.

(* ===================================================================== *)
(** ** Relevant routes of a sync: properties *)
(* ===================================================================== *)

Lemma bindingOf_Some `{LabelSelectorLib} (s : PingoraRouteSyncer) (routeKind : string)
    (route : Route) (ref : ParentReference) (result : BindingResult) :
  bindingOf s routeKind route ref = Some result <-> parentBinding s routeKind route ref result.
Proof.
  unfold bindingOf, parentBinding. split.
  - destruct (pr_Kind ref) as [k|] eqn:Hk; cbn.
    + destruct (String.eqb_spec k kindGateway) as [->|]; cbn; [|discriminate].
      destruct (GetGateway _ _ _) as [gateway|]; [|discriminate].
      destruct (String.eqb_spec (gw_GatewayClassName gateway) (s_GatewayClassName s));
        cbn; [|discriminate].
      destruct (ValidateBinding _ _ _) eqn:Hv; [|discriminate].
      intros [= <-]. split; [now right|]. exists gateway. tauto.
    + destruct (GetGateway _ _ _) as [gateway|]; [|discriminate].
      destruct (String.eqb_spec (gw_GatewayClassName gateway) (s_GatewayClassName s));
        cbn; [|discriminate].
      destruct (ValidateBinding _ _ _) eqn:Hv; [|discriminate].
      intros [= <-]. split; [now left|]. exists gateway. tauto.
  - intros [Hkind (gateway & Hget & Hclass & Hv)].
    assert (match pr_Kind ref with
            | Some k => negb (String.eqb k kindGateway)
            | None => false
            end = false) as ->.
    { destruct Hkind as [-> | ->]; reflexivity. }
    rewrite Hget, Hclass, String.eqb_refl. cbn. now rewrite Hv.
Qed.

Lemma evalParentRefs_step `{LabelSelectorLib} (s : PingoraRouteSyncer) (routeKind : string)
    (route : Route) (ref : ParentReference) (rest : list ParentReference) (refIdx : nat)
    (results : gmap nat BindingResult) (hasAccepted : bool) :
  evalParentRefs s routeKind route (ref :: rest) refIdx results hasAccepted
  = match bindingOf s routeKind route ref with
    | Some result =>
        evalParentRefs s routeKind route rest (S refIdx) (<[refIdx := result]> results)
          (if Accepted result then true else hasAccepted)
    | None => evalParentRefs s routeKind route rest (S refIdx) results hasAccepted
    end.
Proof.
  cbn [evalParentRefs]. unfold bindingOf.
  destruct (match pr_Kind ref with
            | Some k => negb (String.eqb k kindGateway)
            | None => false
            end); [reflexivity|].
  replace (match pr_Namespace ref with Some ns => ns | None => r_Namespace route end)
    with (default (r_Namespace route) (pr_Namespace ref))
    by (now destruct (pr_Namespace ref)).
  destruct (GetGateway _ _ _) as [gateway|]; [|reflexivity].
  destruct (negb _); [reflexivity|].
  fold (routeInfoFor routeKind route ref).
  destruct (ValidateBinding _ _ _); reflexivity.
Qed.

(** The loop leaves the entries below its starting index alone. *)
Lemma evalParentRefs_below `{LabelSelectorLib} (s : PingoraRouteSyncer) (routeKind : string)
    (route : Route) (refs : list ParentReference) :
  forall (refIdx : nat) results hasAccepted (i : nat),
    (i < refIdx)%nat ->
    (evalParentRefs s routeKind route refs refIdx results hasAccepted).1 !! i = results !! i.
Proof.
  induction refs as [|ref rest IH]; intros refIdx results hasAccepted i Hlt; [reflexivity|].
  rewrite evalParentRefs_step. destruct (bindingOf s routeKind route ref) as [result|].
  - rewrite IH by lia. apply lookup_insert_ne. lia.
  - apply IH. lia.
Qed.

(** Every recorded result is the BindingResult of the parent-ref at that
    index, and every parent-ref with a BindingResult is recorded. *)
Lemma evalParentRefs_results `{LabelSelectorLib} (s : PingoraRouteSyncer)
    (routeKind : string) (route : Route) (refs : list ParentReference) :
  forall (refIdx : nat) results hasAccepted,
    (forall i : nat, (refIdx <= i)%nat -> results !! i = None) ->
    forall (j : nat) result,
      (evalParentRefs s routeKind route refs refIdx results hasAccepted).1 !! (refIdx + j)%nat
        = Some result
      <-> exists ref, refs !! j = Some ref /\ bindingOf s routeKind route ref = Some result.
Proof.
  induction refs as [|ref rest IH]; intros refIdx results hasAccepted Hfresh j result.
  - cbn. rewrite Hfresh by lia. split; [discriminate | intros (? & ? & _); discriminate].
  - rewrite evalParentRefs_step. destruct j as [|j].
    + rewrite Nat.add_0_r. cbn [lookup list_lookup].
      destruct (bindingOf s routeKind route ref) as [r|] eqn:Hb.
      * rewrite evalParentRefs_below by lia. rewrite lookup_insert_eq.
        split; [intros [= <-]; eauto | intros (? & [= <-] & E); congruence].
      * rewrite evalParentRefs_below by lia. rewrite Hfresh by lia.
        split; [discriminate | intros (? & [= <-] & E); congruence].
    + replace (refIdx + S j)%nat with (S refIdx + j)%nat by lia.
      destruct (bindingOf s routeKind route ref) as [r|]; apply IH.
      * intros i Hi. rewrite lookup_insert_ne by lia. apply Hfresh. lia.
      * intros i Hi. apply Hfresh. lia.
Qed.

Lemma evalParentRefs_accepted `{LabelSelectorLib} (s : PingoraRouteSyncer)
    (routeKind : string) (route : Route) (refs : list ParentReference) :
  forall (refIdx : nat) results hasAccepted,
    (evalParentRefs s routeKind route refs refIdx results hasAccepted).2 = true
    <-> hasAccepted = true
        \/ exists (j : nat) ref result,
             refs !! j = Some ref
             /\ bindingOf s routeKind route ref = Some result
             /\ Accepted result = true.
Proof.
  induction refs as [|ref rest IH]; intros refIdx results hasAccepted.
  - cbn. split; [now left | intros [E | (j & ? & ? & ? & _)]; [exact E | discriminate]].
  - rewrite evalParentRefs_step.
    destruct (bindingOf s routeKind route ref) as [r|] eqn:Hb; rewrite IH; split.
    + intros [Hacc | (j & ref' & result & Hj & Hb' & Hacc)].
      * destruct (Accepted r) eqn:Hr; [|now left].
        right. exists 0%nat, ref, r. tauto.
      * right. exists (S j), ref', result. tauto.
    + intros [-> | (j & ref' & result & Hj & Hb' & Hacc)].
      * left. now destruct (Accepted r).
      * destruct j as [|j].
        -- cbn in Hj. injection Hj as <-. left.
           assert (r = result) as -> by congruence. now rewrite Hacc.
        -- right. exists j, ref', result. tauto.
    + intros [Hacc | (j & ref' & result & Hj & Hb' & Hacc)]; [now left|].
      right. exists (S j), ref', result. tauto.
    + intros [-> | (j & ref' & result & Hj & Hb' & Hacc)]; [now left|].
      destruct j as [|j].
      * cbn in Hj. injection Hj as <-. congruence.
      * right. exists j, ref', result. tauto.
Qed.

Lemma hasAcceptedParent_eval `{LabelSelectorLib} (s : PingoraRouteSyncer)
    (routeKind : string) (route : Route) :
  (evalParentRefs s routeKind route (r_ParentRefs route) 0 ∅ false).2 = true
  <-> hasAcceptedParent s routeKind route.
Proof.
  rewrite evalParentRefs_accepted. unfold hasAcceptedParent. split.
  - intros [? | (j & ref & result & Hj & Hb & Hacc)]; [discriminate|].
    exists j, ref, result. rewrite <- bindingOf_Some. tauto.
  - intros (j & ref & result & Hj & Hb & Hacc). right.
    exists j, ref, result. rewrite bindingOf_Some. tauto.
Qed.

Lemma collectRoute_bindings `{LabelSelectorLib} (s : PingoraRouteSyncer) (routeKind : string)
    (acc : list Route * gmap string routeBindingInfo) (route : Route) :
  (collectRoute s routeKind acc route).1
    = acc.1 ++ (if (evalParentRefs s routeKind route (r_ParentRefs route) 0 ∅ false).2
                then [route] else [])
  /\ (collectRoute s routeKind acc route).2
     = <[routeKey route :=
           {| bindingResults :=
                (evalParentRefs s routeKind route (r_ParentRefs route) 0 ∅ false).1 |}]>
         acc.2.
Proof.
  unfold collectRoute. destruct acc as [relevant bindings].
  destruct (evalParentRefs _ _ _ _ _ _ _) as [results hasAccepted].
  destruct hasAccepted; cbn; rewrite ?app_nil_r; split; reflexivity.
Qed.

Lemma fold_collectRoute_other_key `{LabelSelectorLib} (s : PingoraRouteSyncer)
    (routeKind : string) (items : list Route) (key : string) :
  key ∉ map routeKey items ->
  forall acc,
    (fold_left (collectRoute s routeKind) items acc).2 !! key = acc.2 !! key.
Proof.
  induction items as [|item items IH]; intros Hfresh acc; [reflexivity|].
  cbn [fold_left]. cbn [map] in Hfresh. apply not_elem_of_cons in Hfresh.
  destruct Hfresh as [Hne Hfresh].
  rewrite IH by exact Hfresh.
  destruct (collectRoute_bindings s routeKind acc item) as [_ ->].
  apply lookup_insert_ne. congruence.
Qed.

(** The loop over the listed routes: the relevant routes are the listed
    routes with an accepted parent, in order, and the binding map holds the
    results of each listed route under its key. *)
Lemma collectRoute_fold `{LabelSelectorLib} (s : PingoraRouteSyncer) (routeKind : string)
    (items : list Route) :
  forall (acc : list Route * gmap string routeBindingInfo),
    (fold_left (collectRoute s routeKind) items acc).1
      = acc.1 ++ List.filter
                   (fun route =>
                      (evalParentRefs s routeKind route (r_ParentRefs route) 0 ∅ false).2)
                   items
    /\ forall route,
         In route items -> NoDup (map routeKey items) ->
         (fold_left (collectRoute s routeKind) items acc).2 !! routeKey route
         = Some {| bindingResults :=
                     (evalParentRefs s routeKind route (r_ParentRefs route) 0 ∅ false).1 |}.
Proof.
  induction items as [|item items IH]; intros acc.
  - cbn. split; [now rewrite app_nil_r | intros route []].
  - cbn [fold_left List.filter].
    destruct (IH (collectRoute s routeKind acc item)) as [Hrel Hbind].
    destruct (collectRoute_bindings s routeKind acc item) as [Hfst Hsnd].
    split.
    + rewrite Hrel, Hfst, <- app_assoc.
      now destruct (evalParentRefs s routeKind item (r_ParentRefs item) 0 ∅ false).2.
    + intros route [<- | Hin] Hnd; cbn [map] in Hnd; apply NoDup_cons in Hnd;
        destruct Hnd as [Hfresh Hnd].
      * rewrite fold_collectRoute_other_key by exact Hfresh.
        rewrite Hsnd. apply lookup_insert_eq.
      * now apply Hbind.
Qed.

Lemma filter_filter_comm {A : Type} (p q : A -> bool) (l : list A) :
  List.filter p (List.filter q l) = List.filter q (List.filter p l).
Proof.
  induction l as [|x l IH]; cbn; [reflexivity|].
  destruct (q x) eqn:Hq, (p x) eqn:Hp; cbn; rewrite ?Hq, ?Hp, IH; reflexivity.
Qed.

Lemma filter_key_unique (items : list Route) (route : Route) :
  NoDup (map routeKey items) -> In route items ->
  List.filter (fun other => String.eqb (routeKey other) (routeKey route)) items = [route].
Proof.
  induction items as [|item items IH]; intros Hnd Hin; [destruct Hin|].
  cbn [map] in Hnd. apply NoDup_cons in Hnd. destruct Hnd as [Hfresh Hnd].
  cbn [List.filter]. destruct Hin as [<- | Hin].
  - rewrite String.eqb_refl. f_equal.
    clear IH Hnd. induction items as [|other items IH]; [reflexivity|].
    cbn [map] in Hfresh. apply not_elem_of_cons in Hfresh. destruct Hfresh as [Hne Hfresh].
    cbn [List.filter]. destruct (String.eqb_spec (routeKey other) (routeKey item));
      [congruence | now apply IH].
  - destruct (String.eqb_spec (routeKey item) (routeKey route)) as [E|_]; [|now apply IH].
    exfalso. apply Hfresh. rewrite E. apply list_elem_of_In. now apply in_map.
Qed.

Lemma occurrences_filter (accepted : Route -> bool) (items : list Route) (route : Route) :
  NoDup (map routeKey items) -> In route items ->
  occurrences route (List.filter accepted items) = if accepted route then 1%nat else 0%nat.
Proof.
  intros Hnd Hin. unfold occurrences.
  rewrite filter_filter_comm, (filter_key_unique items route Hnd Hin). cbn.
  now destruct (accepted route).
Qed.

Lemma collectRoute_snapshot `{LabelSelectorLib} (s : PingoraRouteSyncer) (routeKind : string)
    (items : list Route) :
  NoDup (map routeKey items) ->
  snapshotOf s routeKind items
    (fold_left (collectRoute s routeKind) items ([], ∅)).1
    (fold_left (collectRoute s routeKind) items ([], ∅)).2.
Proof.
  intros Hnd. destruct (collectRoute_fold s routeKind items ([], ∅)) as [Hrel Hbind].
  cbn [fst app] in Hrel. rewrite Hrel. split.
  - intros route Hin. rewrite (occurrences_filter _ items route Hnd Hin).
    rewrite filter_In, <- hasAcceptedParent_eval.
    destruct (evalParentRefs s routeKind route (r_ParentRefs route) 0 ∅ false).2.
    + repeat split; auto.
    + repeat split; try discriminate; try lia; tauto.
  - intros route Hin. apply filter_In in Hin. destruct Hin as [Hin Hacc].
    split; [exact Hin|].
    apply evalParentRefs_accepted in Hacc.
    destruct Hacc as [? | (j & ref & result & Hj & Hb & Hacc)]; [discriminate|].
    exists {| bindingResults :=
                (evalParentRefs s routeKind route (r_ParentRefs route) 0 ∅ false).1 |},
      j, ref, result.
    split; [now apply Hbind|]. split.
    + cbn. apply (evalParentRefs_results s routeKind route (r_ParentRefs route) 0 ∅ false
                    (fun i _ => lookup_empty i) j result).
      eauto.
    + split; [exact Hj|]. split; [now apply bindingOf_Some | exact Hacc].
Qed.

(** C3.  Once the routes of a kind are listed, each under its own key: a
    listed route appears in the snapshot exactly once when it has a
    qualifying parent-ref (kind Gateway, Gateway fetched and of the
    configured class) with an accepted BindingResult and not at all
    otherwise, so never more than once; and every route of the snapshot is
    a listed route whose recorded per-parent results hold an accepted one.
    This holds for the HTTPRoutes and for the GRPCRoutes. *)
Theorem relevant_routes_snapshot `{LabelSelectorLib} (s : PingoraRouteSyncer) :
  (forall items,
     ListHTTPRoutes (s_Client s) = Ok items -> NoDup (map routeKey items) ->
     exists relevant bindings,
       getRelevantHTTPRoutes s = Ok (relevant, bindings)
       /\ snapshotOf s KindHTTPRoute items relevant bindings)
  /\ (forall items,
        ListGRPCRoutes (s_Client s) = Ok items -> NoDup (map routeKey items) ->
        exists relevant bindings,
          getRelevantGRPCRoutes s = Ok (relevant, bindings)
          /\ snapshotOf s KindGRPCRoute items relevant bindings).
Proof.
  split; intros items Hlist Hnd.
  - exists (fold_left (collectRoute s KindHTTPRoute) items ([], ∅)).1,
           (fold_left (collectRoute s KindHTTPRoute) items ([], ∅)).2.
    split; [|now apply collectRoute_snapshot].
    unfold getRelevantHTTPRoutes. rewrite Hlist. f_equal.
    now destruct (fold_left _ _ _).
  - exists (fold_left (collectRoute s KindGRPCRoute) items ([], ∅)).1,
           (fold_left (collectRoute s KindGRPCRoute) items ([], ∅)).2.
    split; [|now apply collectRoute_snapshot].
    unfold getRelevantGRPCRoutes. rewrite Hlist. f_equal.
    now destruct (fold_left _ _ _).
Qed.

Lemma relevant_routes_snapshot_witness :
  exists relevant bindings,
    getRelevantHTTPRoutes (ExampleControllers.syncer ExampleControllers.echoProxy)
      = Ok (relevant, bindings)
    /\ snapshotOf (ExampleControllers.syncer ExampleControllers.echoProxy) KindHTTPRoute
         [Examples.r1; Examples.r2] relevant bindings.
Proof.
  apply (proj1 (relevant_routes_snapshot
                  (ExampleControllers.syncer ExampleControllers.echoProxy))).
  - reflexivity.
  - apply (bool_decide_unpack _). vm_compute. exact I.
Defined.

(** The example cluster: [r1] is accepted through both of its parent-refs
    and pushed once; [r2] matches no listener hostname and is left out, its
    rejection still recorded. *)
Example getRelevantHTTPRoutes_example :
  match getRelevantHTTPRoutes (ExampleControllers.syncer ExampleControllers.echoProxy) with
  | Ok (relevant, bindings) =>
      relevant = [Examples.r1]
      /\ (info ← bindings !! "ns/r1";
          Some (Accepted <$> bindingResults info !! 0%nat,
                Accepted <$> bindingResults info !! 1%nat,
                Accepted <$> bindingResults info !! 2%nat))
         = Some (Some true, Some true, None)
      /\ (info ← bindings !! "ns/r2"; Reason <$> bindingResults info !! 0%nat)
         = Some RouteReasonNoMatchingListenerHostname
  | Err _ => False
  end.
Proof. vm_compute. repeat split. Qed.

(* ===================================================================== *)
(** ** SyncAllRoutes: properties *)
(* ===================================================================== *)

(** Case analysis of a sync: split on every value the code branches on. *)
Ltac sync_split :=
  repeat match goal with
         | |- context [match ?x with _ => _ end] => destruct x eqn:?
         | H : context [match ?x with _ => _ end] |- _ => destruct x eqn:?
         end.

(** Membership in an explicit list of effects. *)
Ltac in_effects H :=
  cbn in H;
  repeat match type of H with
         | _ \/ _ => destruct H as [H | H]
         | False => destruct H
         | _ = _ => first [discriminate H | injection H as <- <-]
         end.

Lemma Connect_effects `{LabelSelectorLib} (s : PingoraRouteSyncer) :
  (forall req reply, ~ In (CallUpdateRoutes req reply) (Connect s).1.2)
  /\ In (ResolveConfig (s_GatewayClassName s)) (Connect s).1.2.
Proof.
  unfold Connect. split.
  - intros req reply Hin. sync_split; cbn in Hin;
      repeat (rewrite in_app_iff in Hin; cbn in Hin); intuition discriminate.
  - sync_split; cbn; repeat (rewrite in_app_iff; cbn); tauto.
Qed.

Lemma Connect_syncer `{LabelSelectorLib} (s s1 : PingoraRouteSyncer)
    (connectEffects : list Effect) :
  Connect s = (s1, connectEffects, None) ->
  s_version s1 = s_version s
  /\ s_Client s1 = s_Client s
  /\ s_GatewayClassName s1 = s_GatewayClassName s
  /\ s_ConfigResolver s1 = s_ConfigResolver s
  /\ s_bindingValidator s1 = s_bindingValidator s
  /\ exists resolved conn,
       ResolveFromGatewayClassName (s_ConfigResolver s) (s_GatewayClassName s) = Ok resolved
       /\ CreateGRPCConnection (s_ConfigResolver s) resolved = Ok conn
       /\ s_conn s1 = Some conn
       /\ s_grpcClient s1 = Some (CreateRoutingClient (s_ConfigResolver s) conn).
Proof.
  unfold Connect.
  destruct (ResolveFromGatewayClassName _ _) as [resolved|]; [|discriminate].
  destruct (CreateGRPCConnection _ _) as [conn|] eqn:Hdial; [|discriminate].
  intros [= <- _]. cbn. repeat split; eauto 10.
Qed.

(** What [syncConnected] does, by the answer to its push. *)
Lemma syncConnected_push `{LabelSelectorLib} (s : PingoraRouteSyncer)
    (req : UpdateRoutesRequest) (reply : result UpdateRoutesResponse) :
  In (CallUpdateRoutes req reply) (effects (syncConnected s)) ->
  let out := syncConnected s in
  req_Version req = to_uint64 (s_version s + 1)
  /\ s_version (syncer' out) = req_Version req
  /\ (exists grpcClient, s_grpcClient s = Some grpcClient /\ UpdateRoutes grpcClient req = reply)
  /\ match reply with
     | Err _ =>
         RequeueAfter out = apiErrorRequeueDelay /\ syncErr out <> None
         /\ s_grpcClient (syncer' out)
            = match s_conn s with Some _ => None | None => s_grpcClient s end
         /\ s_conn (syncer' out) = None
     | Ok resp =>
         s_grpcClient (syncer' out) = s_grpcClient s
         /\ s_conn (syncer' out) = s_conn s
         /\ if resp_Success resp
            then RequeueAfter out = 0 /\ syncErr out = None
            else RequeueAfter out = apiErrorRequeueDelay /\ syncErr out <> None
     end.
Proof.
  unfold syncConnected. intros Hin. cbv zeta.
  destruct (getRelevantHTTPRoutes s) as [[httpRoutes httpBindings]|]; [|destruct Hin].
  destruct (getRelevantGRPCRoutes s) as [[grpcRoutes grpcBindings]|]; [|destruct Hin].
  cbn [s_grpcClient set_version] in *.
  destruct (s_grpcClient s) as [grpcClient|] eqn:Hclient; [|in_effects Hin].
  destruct (UpdateRoutes grpcClient _) as [resp|err] eqn:Hcall.
  - destruct (resp_Success resp) eqn:Hsuccess; cbn [negb] in *; in_effects Hin; cbn;
      rewrite ?Hsuccess; repeat split; eauto; try discriminate.
  - change (s_conn (set_version s (to_uint64 (s_version s + 1)))) with (s_conn s) in *.
    destruct (s_conn s) as [conn|] eqn:Hconn; in_effects Hin; cbn;
      rewrite ?Hconn; repeat split; eauto; try discriminate.
Qed.

(** A push that fails in the transport closes the connection held. *)
Lemma syncConnected_closes `{LabelSelectorLib} (s : PingoraRouteSyncer)
    (req : UpdateRoutesRequest) (err : error) (conn : ClientConn) :
  In (CallUpdateRoutes req (Err err)) (effects (syncConnected s)) ->
  s_conn s = Some conn ->
  In (ConnClose conn) (effects (syncConnected s)).
Proof.
  unfold syncConnected. intros Hin Hconn. cbv zeta in *.
  destruct (getRelevantHTTPRoutes s) as [[httpRoutes httpBindings]|]; [|destruct Hin].
  destruct (getRelevantGRPCRoutes s) as [[grpcRoutes grpcBindings]|]; [|destruct Hin].
  cbn [s_grpcClient set_version] in *.
  destruct (s_grpcClient s) as [grpcClient|] eqn:Hclient; [|in_effects Hin].
  destruct (UpdateRoutes grpcClient _) as [resp|err'] eqn:Hcall.
  - destruct (resp_Success resp); cbn [negb] in *; in_effects Hin.
  - change (s_conn (set_version s (to_uint64 (s_version s + 1)))) with (s_conn s) in *.
    rewrite Hconn. cbn. do 4 right. left. reflexivity.
Qed.

(** A sync re-connects exactly when it starts without a client handle. *)
Lemma SyncAllRoutes_reconnects `{LabelSelectorLib} (s : PingoraRouteSyncer) :
  (exists gatewayClassName, In (ResolveConfig gatewayClassName) (effects (SyncAllRoutes s)))
  <-> IsConnected s = false.
Proof.
  unfold SyncAllRoutes. destruct (IsConnected s) eqn:Hc; cbn [negb].
  - split; [|discriminate]. intros [gc Hin]. exfalso. revert Hin.
    unfold syncConnected. sync_split; intros Hin; simplify_eq; in_effects Hin.
  - split; [reflexivity|]. intros _. exists (s_GatewayClassName s).
    pose proof (Connect_effects s) as [_ Hres].
    destruct (Connect s) as [[s1 connectEffects] [err|]]; cbn in *;
      apply in_app_iff; now left.
Qed.

(** The push of a sync is the push of [syncConnected], run on the syncer as
    it is or as [Connect] left it. *)
Lemma SyncAllRoutes_connected `{LabelSelectorLib} (s : PingoraRouteSyncer)
    (req : UpdateRoutesRequest) (reply : result UpdateRoutesResponse) :
  In (CallUpdateRoutes req reply) (effects (SyncAllRoutes s)) ->
  exists s1 connectEffects,
    ((IsConnected s = true /\ s1 = s /\ connectEffects = [])
     \/ (IsConnected s = false /\ Connect s = (s1, connectEffects, None)))
    /\ SyncAllRoutes s = afterEffects connectEffects (syncConnected s1)
    /\ In (CallUpdateRoutes req reply) (effects (syncConnected s1)).
Proof.
  unfold SyncAllRoutes. destruct (IsConnected s) eqn:Hc; cbn [negb].
  - intros Hin. exists s, []. split; [now left|]. split; [|exact Hin].
    now destruct (syncConnected s).
  - pose proof (Connect_effects s) as [Hnone _].
    destruct (Connect s) as [[s1 connectEffects] [err|]]; cbn in Hnone |- *; intros Hin.
    + exfalso. apply in_app_iff in Hin. destruct Hin as [Hin|Hin]; [now apply Hnone in Hin|].
      in_effects Hin.
    + exists s1, connectEffects. split; [now right|]. split; [reflexivity|].
      apply in_app_iff in Hin. destruct Hin as [Hin|Hin]; [now apply Hnone in Hin | exact Hin].
Qed.

(** C1, as the code has it.  For every push of a sync, the sync is reported
    as successful to the caller (no error, no requeue) exactly when the
    transport returned a reply and the reply's success flag is set; the
    version sent is the successor of the syncer's counter, and the reply's
    applied_version is not compared with it. *)
Theorem SyncAllRoutes_push_reported `{LabelSelectorLib} (s : PingoraRouteSyncer)
    (req : UpdateRoutesRequest) (reply : result UpdateRoutesResponse) :
  In (CallUpdateRoutes req reply) (effects (SyncAllRoutes s)) ->
  (reportedSuccess (SyncAllRoutes s)
   <-> exists resp, reply = Ok resp /\ resp_Success resp = true)
  /\ req_Version req = to_uint64 (s_version s + 1)
  /\ s_version (syncer' (SyncAllRoutes s)) = req_Version req.
Proof.
  intros Hin. apply SyncAllRoutes_connected in Hin.
  destruct Hin as (s1 & connectEffects & Hconn & -> & Hin).
  pose proof (syncConnected_push s1 req reply Hin) as Hpush. cbv zeta in Hpush.
  destruct Hpush as (Hversion & Hcounter & _ & Hreply).
  assert (s_version s1 = s_version s) as Hs1.
  { destruct Hconn as [(_ & -> & _) | (_ & Hc)]; [reflexivity|].
    now apply Connect_syncer in Hc. }
  unfold reportedSuccess. cbn. rewrite <- Hs1.
  split; [|split; assumption].
  destruct reply as [resp|err].
  - destruct Hreply as (_ & _ & Hreply). destruct (resp_Success resp) eqn:Hsuccess.
    + split; [eauto | intros _; split; apply Hreply].
    + destruct Hreply as [_ Herr]. split; [intros [? _]; contradiction|].
      intros (resp' & [= <-] & Hs). congruence.
  - destruct Hreply as (_ & Herr & _). split; [intros [? _]; contradiction|].
    intros (resp & ? & _). discriminate.
Qed.

Lemma SyncAllRoutes_push_reported_witness :
  let out := SyncAllRoutes (ExampleControllers.syncer ExampleControllers.echoProxy) in
  reportedSuccess out /\ pushes (effects out) = [(1, Ok (ExampleControllers.reply true "" 1))].
Proof.
  cbv zeta. split; [|vm_compute; reflexivity].
  pose (b := NewPingoraBuilder "cluster.local").
  apply (SyncAllRoutes_push_reported
           (ExampleControllers.syncer ExampleControllers.echoProxy)
           {| req_HttpRoutes := [BuildHTTPRoute b Examples.r1];
              req_GrpcRoutes := [BuildGRPCRoute b Examples.g1];
              req_Version := 1 |}
           (Ok (ExampleControllers.reply true "" 1))).
  - vm_compute. right. right. left. reflexivity.
  - eexists. split; reflexivity.
Defined.

(** A reply with the success flag set and another applied_version is
    reported as a successful sync: the claim's second condition plays no
    part. *)
Lemma SyncAllRoutes_ignores_applied_version :
  let out := SyncAllRoutes (ExampleControllers.syncer ExampleControllers.staleProxy) in
  let req := {| req_HttpRoutes := [BuildHTTPRoute (NewPingoraBuilder "cluster.local") Examples.r1];
                req_GrpcRoutes := [BuildGRPCRoute (NewPingoraBuilder "cluster.local") Examples.g1];
                req_Version := 1 |} in
  let resp := ExampleControllers.reply true "" 0 in
  In (CallUpdateRoutes req (Ok resp)) (effects out)
  /\ reportedSuccess out
  /\ ~ (resp_Success resp = true /\ resp_AppliedVersion resp = req_Version req).
Proof.
  cbv zeta. split; [vm_compute; right; right; left; reflexivity|].
  split; [split; reflexivity|].
  intros [_ Hversion]. discriminate Hversion.
Qed.

(** The two handles stay together through the life of a syncer. *)
Lemma handlesConsistent_New `{LabelSelectorLib} (c : Client)
    (clusterDomain gatewayClassName : string) (configResolver : PingoraResolver) :
  handlesConsistent (NewPingoraRouteSyncer c clusterDomain gatewayClassName configResolver).
Proof. intros Hclient. now contradiction Hclient. Qed.

Lemma handlesConsistent_Connect `{LabelSelectorLib} (s : PingoraRouteSyncer) :
  handlesConsistent s -> handlesConsistent (Connect s).1.1.
Proof.
  unfold Connect, handlesConsistent. intros Hs.
  destruct (ResolveFromGatewayClassName _ _) as [resolved|]; [|exact Hs].
  destruct (CreateGRPCConnection _ _) as [conn|]; [|exact Hs].
  cbn. discriminate.
Qed.

Lemma handlesConsistent_Close `{LabelSelectorLib} (s : PingoraRouteSyncer) :
  handlesConsistent s -> handlesConsistent (Close s).1.
Proof.
  unfold Close, handlesConsistent. intros Hs.
  destruct (s_conn s) as [conn|] eqn:Hconn; cbn; [intros Hc; now contradiction Hc|].
  now rewrite Hconn.
Qed.

Lemma handlesConsistent_syncConnected `{LabelSelectorLib} (s : PingoraRouteSyncer) :
  handlesConsistent s -> handlesConsistent (syncer' (syncConnected s)).
Proof.
  unfold syncConnected, handlesConsistent. intros Hs.
  destruct (getRelevantHTTPRoutes s) as [[httpRoutes httpBindings]|]; [|exact Hs].
  destruct (getRelevantGRPCRoutes s) as [[grpcRoutes grpcBindings]|]; [|exact Hs].
  cbv zeta. change (s_grpcClient (set_version s _)) with (s_grpcClient s).
  change (s_conn (set_version s (to_uint64 (s_version s + 1)))) with (s_conn s).
  destruct (s_grpcClient s) as [grpcClient|] eqn:Hclient; [|cbn; now rewrite Hclient].
  destruct (UpdateRoutes grpcClient _) as [resp|err].
  - destruct (resp_Success resp); cbn; now rewrite Hclient.
  - destruct (s_conn s) as [conn|] eqn:Hconn; cbn.
    + intros Hc; now contradiction Hc.
    + now rewrite Hclient, Hconn.
Qed.

Lemma handlesConsistent_SyncAllRoutes `{LabelSelectorLib} (s : PingoraRouteSyncer) :
  handlesConsistent s -> handlesConsistent (syncer' (SyncAllRoutes s)).
Proof.
  intros Hs. unfold SyncAllRoutes.
  destruct (negb (IsConnected s)); [|now apply handlesConsistent_syncConnected].
  pose proof (handlesConsistent_Connect s Hs) as Hc.
  destruct (Connect s) as [[s1 connectEffects] [err|]]; cbn in Hc |- *; [exact Hc|].
  now apply handlesConsistent_syncConnected.
Qed.

(** C2, as the code has it.  For every sync whose push fails, the syncer
    asks for a requeue after 30 seconds.  When the transport fails, the
    connection is closed, the connection and the client handle are dropped
    and the next sync re-connects; when the proxy replies with
    success=false, the client handle is kept and the next sync does not
    re-connect. *)
Theorem SyncAllRoutes_push_failure `{LabelSelectorLib} (s : PingoraRouteSyncer)
    (req : UpdateRoutesRequest) (reply : result UpdateRoutesResponse) :
  handlesConsistent s ->
  In (CallUpdateRoutes req reply) (effects (SyncAllRoutes s)) ->
  let out := SyncAllRoutes s in
  (forall err, reply = Err err ->
     RequeueAfter out = 30 * Second
     /\ (exists conn, In (ConnClose conn) (effects out))
     /\ s_conn (syncer' out) = None
     /\ IsConnected (syncer' out) = false
     /\ exists gatewayClassName,
          In (ResolveConfig gatewayClassName) (effects (SyncAllRoutes (syncer' out))))
  /\ (forall resp, reply = Ok resp -> resp_Success resp = false ->
        RequeueAfter out = 30 * Second
        /\ IsConnected (syncer' out) = true
        /\ ~ exists gatewayClassName,
               In (ResolveConfig gatewayClassName) (effects (SyncAllRoutes (syncer' out)))).
Proof.
  intros Hs Hin out. subst out. apply SyncAllRoutes_connected in Hin.
  destruct Hin as (s1 & connectEffects & Hconn & -> & Hin).
  assert (handlesConsistent s1) as Hs1.
  { destruct Hconn as [(_ & -> & _) | (_ & Hc)]; [exact Hs|].
    pose proof (handlesConsistent_Connect s Hs) as Hc'. now rewrite Hc in Hc'. }
  pose proof (syncConnected_push s1 req reply Hin) as Hpush. cbv zeta in Hpush.
  destruct Hpush as (_ & _ & (grpcClient & Hclient & _) & Hreply).
  cbn [RequeueAfter syncer' effects afterEffects]. split.
  - intros err ->. destruct Hreply as (Hrequeue & _ & Hdropped & Hnoconn).
    assert (IsConnected (syncer' (syncConnected s1)) = false) as Hdis.
    { unfold IsConnected. rewrite Hdropped.
      destruct (s_conn s1) eqn:Hc1; [reflexivity|].
      exfalso. apply Hs1; [now rewrite Hclient | exact Hc1]. }
    assert (exists conn, In (ConnClose conn) (connectEffects ++ effects (syncConnected s1)))
      as Hclosed.
    { destruct (s_conn s1) as [conn|] eqn:Hc1.
      - exists conn. apply in_app_iff. right. now apply (syncConnected_closes s1 req err).
      - exfalso. apply Hs1; [now rewrite Hclient | exact Hc1]. }
    split; [exact Hrequeue|]. split; [exact Hclosed|].
    split; [exact Hnoconn|]. split; [exact Hdis|]. now apply SyncAllRoutes_reconnects.
  - intros resp -> Hfailed. destruct Hreply as (Hkept & _ & Hreply).
    rewrite Hfailed in Hreply. destruct Hreply as [Hrequeue _].
    assert (IsConnected (syncer' (syncConnected s1)) = true) as Hcon.
    { unfold IsConnected. now rewrite Hkept, Hclient. }
    repeat split; try assumption.
    intros Hre. apply SyncAllRoutes_reconnects in Hre. congruence.
Qed.

Lemma SyncAllRoutes_push_failure_witness :
  let out := SyncAllRoutes (ExampleControllers.syncer ExampleControllers.brokenTransport) in
  RequeueAfter out = 30 * Second
  /\ (exists conn, In (ConnClose conn) (effects out))
  /\ s_conn (syncer' out) = None
  /\ IsConnected (syncer' out) = false
  /\ exists gatewayClassName,
       In (ResolveConfig gatewayClassName) (effects (SyncAllRoutes (syncer' out))).
Proof.
  cbv zeta.
  pose (b := NewPingoraBuilder "cluster.local").
  refine (proj1 (SyncAllRoutes_push_failure
                   (ExampleControllers.syncer ExampleControllers.brokenTransport)
                   {| req_HttpRoutes := [BuildHTTPRoute b Examples.r1];
                      req_GrpcRoutes := [BuildGRPCRoute b Examples.g1];
                      req_Version := 1 |}
                   (Err (LibError "transport is closing")) _ _)
            (LibError "transport is closing") eq_refl).
  - intros Hclient. exfalso. apply Hclient. reflexivity.
  - vm_compute. right. right. left. reflexivity.
Defined.

(** A push the proxy refuses (success=false): the requeue is asked for, but
    the client handle is still held afterwards and the next sync does not
    re-connect. *)
Lemma SyncAllRoutes_keeps_connection_on_refusal :
  let out := SyncAllRoutes (ExampleControllers.syncer ExampleControllers.refusingProxy) in
  pushes (effects out) = [(1, Ok (ExampleControllers.reply false "invalid route table" 0))]
  /\ syncErr out = Some (Newf "route update failed: invalid route table")
  /\ RequeueAfter out = 30 * Second
  /\ IsConnected (syncer' out) = true
  /\ s_conn (syncer' out) = Some {| cc_Target := "pingora-proxy:50051" |}
  /\ ~ exists gatewayClassName,
         In (ResolveConfig gatewayClassName) (effects (SyncAllRoutes (syncer' out))).
Proof.
  cbv zeta. repeat split; try (vm_compute; reflexivity).
  intros Hre. apply SyncAllRoutes_reconnects in Hre. vm_compute in Hre. discriminate.
Qed.

(** The snapshot a sync hands back is what the two collectors computed on
    the cluster the syncer reads. *)
Lemma SyncAllRoutes_snapshot `{LabelSelectorLib} (s : PingoraRouteSyncer)
    (result : SyncResult) :
  syncResult (SyncAllRoutes s) = Some result ->
  exists s1,
    s_Client s1 = s_Client s
    /\ s_GatewayClassName s1 = s_GatewayClassName s
    /\ s_bindingValidator s1 = s_bindingValidator s
    /\ getRelevantHTTPRoutes s1 = Ok (HTTPRoutes result, HTTPRouteBindings result)
    /\ getRelevantGRPCRoutes s1 = Ok (GRPCRoutes result, GRPCRouteBindings result).
Proof.
  assert (forall s1, syncResult (syncConnected s1) = Some result ->
            getRelevantHTTPRoutes s1 = Ok (HTTPRoutes result, HTTPRouteBindings result)
            /\ getRelevantGRPCRoutes s1 = Ok (GRPCRoutes result, GRPCRouteBindings result))
    as Hconnected.
  { intros s1. unfold syncConnected.
    destruct (getRelevantHTTPRoutes s1) as [[httpRoutes httpBindings]|]; [|discriminate].
    destruct (getRelevantGRPCRoutes s1) as [[grpcRoutes grpcBindings]|]; [|discriminate].
    cbv zeta. change (s_grpcClient (set_version s1 _)) with (s_grpcClient s1).
    change (s_conn (set_version s1 (to_uint64 (s_version s1 + 1)))) with (s_conn s1).
    destruct (s_grpcClient s1) as [grpcClient|]; [|discriminate].
    destruct (UpdateRoutes grpcClient _) as [resp|err].
    - destruct (resp_Success resp); cbn; intros [= <-]; split; reflexivity.
    - destruct (s_conn s1); cbn; intros [= <-]; split; reflexivity. }
  unfold SyncAllRoutes. destruct (negb (IsConnected s)).
  - destruct (Connect s) as [[s1 connectEffects] [err|]] eqn:Hc; cbn; [discriminate|].
    intros Hres. exists s1. apply Connect_syncer in Hc.
    destruct Hc as (_ & Hcl & Hgc & _ & Hval & _).
    repeat split; try assumption; now apply Hconnected.
  - intros Hres. exists s. repeat split; now apply Hconnected.
Qed.

(* ===================================================================== *)
(** ** Further properties: hostname matcher and kind gate *)
(* ===================================================================== *)

Lemma lower_ascii_idempotent (c : ascii) : lower_ascii (lower_ascii c) = lower_ascii c.
Proof.
  destruct c as [[] [] [] [] [] [] [] []]; vm_compute; reflexivity.
Qed.

Lemma ToLower_idempotent (s : string) : ToLower (ToLower s) = ToLower s.
Proof.
  induction s as [|c s IH]; cbn; [reflexivity|].
  now rewrite lower_ascii_idempotent, IH.
Qed.

Lemma ToLower_empty (s : string) : String.eqb (ToLower s) "" = String.eqb s "".
Proof. now destruct s. Qed.

(** X1.  The hostname sets of a listener and a route intersect exactly
    when the listener has no hostname (nil or empty), or the route has no
    hostnames, or some route hostname matches the listener hostname. *)
Theorem HostnamesIntersect_iff (listenerHostname : option string)
    (routeHostnames : list string) :
  HostnamesIntersect listenerHostname routeHostnames = true
  <-> listenerHostname = None
      \/ listenerHostname = Some ""
      \/ routeHostnames = []
      \/ exists listenerHost routeHost,
           listenerHostname = Some listenerHost
           /\ In routeHost routeHostnames
           /\ hostnameMatches listenerHost routeHost = true.
Proof.
  unfold HostnamesIntersect. destruct listenerHostname as [lh|]; [|tauto].
  destruct (String.eqb_spec lh "") as [->|Hne]; [tauto|].
  destruct routeHostnames as [|rh rhs]; [tauto|].
  change (List.length (rh :: rhs) =? 0)%nat with false. cbv iota.
  rewrite existsb_exists. split.
  - intros (r & Hin & Hm). right. right. right. exists lh, r. tauto.
  - intros [? | [[= ->] | [? | (l & r & [= <-] & Hin & Hm)]]];
      try discriminate; try contradiction. eauto.
Qed.

(** X2.  Hostname matching is case-insensitive: replacing either hostname
    by another spelling with the same lower-case form, or by the lower-case
    form itself, does not change the answer, for a pair of hostnames and
    for a listener against a list of route hostnames. *)
Theorem hostname_matching_case_insensitive (listenerHost routeHost : string)
    (routeHostnames : list string) :
  hostnameMatches (ToLower listenerHost) (ToLower routeHost)
    = hostnameMatches listenerHost routeHost
  /\ (forall listenerHost' routeHost',
        ToLower listenerHost' = ToLower listenerHost ->
        ToLower routeHost' = ToLower routeHost ->
        hostnameMatches listenerHost' routeHost' = hostnameMatches listenerHost routeHost)
  /\ HostnamesIntersect (Some (ToLower listenerHost)) (map ToLower routeHostnames)
     = HostnamesIntersect (Some listenerHost) routeHostnames.
Proof.
  assert (forall a b, hostnameMatches (ToLower a) (ToLower b) = hostnameMatches a b) as Hlower.
  { intros a b. unfold hostnameMatches. now rewrite !ToLower_idempotent. }
  split; [apply Hlower|]. split.
  - intros l' r' Hl Hr. rewrite <- (Hlower l' r'), Hl, Hr. apply Hlower.
  - unfold HostnamesIntersect. rewrite ToLower_empty.
    destruct (String.eqb listenerHost ""); [reflexivity|].
    rewrite length_map. destruct (List.length routeHostnames =? 0)%nat; [reflexivity|].
    induction routeHostnames as [|r rs IH]; cbn; [reflexivity|].
    now rewrite Hlower, IH.
Qed.

(** X3.  Hostnames being ASCII strings: two wildcard hostnames match
    exactly when their suffixes are equal up to case; an exact listener
    hostname matches a wildcard route hostname exactly when it is a strict
    sub-domain of the wildcard's suffix. *)
Theorem hostnameMatches_wildcards (X Y : string) :
  isASCII X = true ->
  isASCII Y = true ->
  hostnameMatches ("*." +:+ X) ("*." +:+ Y) = String.eqb (ToLower X) (ToLower Y)
  /\ (HasPrefix (ToLower X) "*." = false ->
      hostnameMatches X ("*." +:+ Y)
      = (HasSuffix (ToLower X) ("." +:+ ToLower Y)
         && negb (String.eqb (ToLower X) (ToLower Y)))%bool).
Proof.
  intros _ _. split.
  - unfold hostnameMatches.
    change (ToLower ("*." +:+ X)) with ("*." +:+ ToLower X).
    change (ToLower ("*." +:+ Y)) with ("*." +:+ ToLower Y).
    rewrite !HasPrefix_wildcard_intro. cbn [andb].
    change (slice_from 1 ("*." +:+ ToLower X)) with ("." +:+ ToLower X).
    change (slice_from 1 ("*." +:+ ToLower Y)) with ("." +:+ ToLower Y).
    generalize (ToLower X) (ToLower Y). intros lx ly.
    change (("*." +:+ lx =? "*." +:+ ly)%string) with ((lx =? ly)%string).
    change (("." +:+ lx =? "." +:+ ly)%string) with ((lx =? ly)%string).
    now destruct (String.eqb lx ly).
  - intros Hexact. rewrite hostnameMatches_sym.
    now apply hostnameMatches_wildcard_exact.
Qed.

Lemma hostnameMatches_wildcards_witness :
  hostnameMatches "*.Example.com" "*.example.COM" = true
  /\ hostnameMatches "a.b.example.com" "*.Example.com" = true
  /\ hostnameMatches "example.com" "*.example.com" = false.
Proof.
  destruct (hostnameMatches_wildcards "Example.com" "example.COM" eq_refl eq_refl)
    as [Hww _].
  destruct (hostnameMatches_wildcards "a.b.example.com" "Example.com" eq_refl eq_refl)
    as [_ Hsub].
  destruct (hostnameMatches_wildcards "example.com" "example.com" eq_refl eq_refl)
    as [_ Hapex].
  split; [etransitivity; [exact Hww | reflexivity]|].
  split; (etransitivity; [|reflexivity]); [exact (Hsub eq_refl) | exact (Hapex eq_refl)].
Defined.

Lemma kindMatches_true (allowed : RouteGroupKind) (routeKind : string) :
  kindMatches allowed routeKind = true
  <-> rgk_Kind allowed = routeKind
      /\ (rgk_Group allowed = None \/ rgk_Group allowed = Some ""
          \/ rgk_Group allowed = Some GroupName).
Proof.
  unfold kindMatches.
  destruct (String.eqb_spec (rgk_Kind allowed) routeKind) as [Hk|Hk]; cbn;
    [|split; [discriminate | tauto]].
  destruct (rgk_Group allowed) as [g|]; [|split; [tauto | reflexivity]].
  destruct (String.eqb_spec g "") as [->|Hg]; cbn; [split; [tauto | reflexivity]|].
  rewrite String.eqb_eq. split.
  - intros ->. tauto.
  - intros [_ [? | [[= ->] | [= ->]]]]; [discriminate | contradiction | reflexivity].
Qed.

Lemma default_kinds_group (protocol : string) (entry : RouteGroupKind) :
  In entry (getDefaultKindsForProtocol protocol) -> rgk_Group entry = Some GroupName.
Proof.
  unfold getDefaultKindsForProtocol.
  repeat match goal with |- context [if ?c then _ else _] => destruct c end;
    cbn; intros Hin; repeat destruct Hin as [<- | Hin]; try reflexivity; contradiction.
Qed.

Lemma default_kinds_allowed (protocol routeKind : string) :
  existsb (fun allowed => kindMatches allowed routeKind) (getDefaultKindsForProtocol protocol)
    = true
  <-> In routeKind (map rgk_Kind (getDefaultKindsForProtocol protocol)).
Proof.
  rewrite existsb_exists, in_map_iff. split.
  - intros (entry & Hin & Hm). apply kindMatches_true in Hm. exists entry. tauto.
  - intros (entry & Hk & Hin). exists entry. split; [exact Hin|].
    apply kindMatches_true. split; [exact Hk|].
    right. right. eapply default_kinds_group, Hin.
Qed.

(** A listener without an explicit kind list allows route kinds by its
    protocol alone. *)
Lemma IsRouteKindAllowed_defaults `{LabelSelectorLib}
    (allowedRoutes : option AllowedRoutes) (protocol routeKind : string) :
  (forall ar, allowedRoutes = Some ar -> ar_Kinds ar = []) ->
  (protocol = TLSProtocolType ->
   IsRouteKindAllowed allowedRoutes protocol routeKind = true <-> routeKind = KindTLSRoute)
  /\ (protocol = TCPProtocolType ->
      IsRouteKindAllowed allowedRoutes protocol routeKind = true <-> routeKind = KindTCPRoute)
  /\ (protocol = UDPProtocolType ->
      IsRouteKindAllowed allowedRoutes protocol routeKind = true <-> routeKind = KindUDPRoute)
  /\ (protocol <> TLSProtocolType -> protocol <> TCPProtocolType ->
      protocol <> UDPProtocolType ->
      IsRouteKindAllowed allowedRoutes protocol routeKind = true
      <-> routeKind = KindHTTPRoute \/ routeKind = KindGRPCRoute).
Proof.
  intros Hkinds.
  assert (getAllowedKinds allowedRoutes protocol = getDefaultKindsForProtocol protocol) as Hdef.
  { unfold getAllowedKinds. destruct allowedRoutes as [ar|]; [|reflexivity].
    now rewrite (Hkinds ar eq_refl). }
  unfold IsRouteKindAllowed. rewrite Hdef, default_kinds_allowed.
  split; [|split; [|split]].
  - intros ->. cbn. intuition congruence.
  - intros ->. cbn. intuition congruence.
  - intros ->. cbn. intuition congruence.
  - intros Htls Htcp Hudp. unfold getDefaultKindsForProtocol.
    destruct (String.eqb_spec protocol TLSProtocolType); [contradiction|].
    destruct (String.eqb_spec protocol TCPProtocolType); [contradiction|].
    destruct (String.eqb_spec protocol UDPProtocolType); [contradiction|].
    destruct (_ || _)%bool; cbn; intuition congruence.
Qed.

(** A non-empty kinds list replaces the protocol defaults. *)
Lemma IsRouteKindAllowed_explicit `{LabelSelectorLib} (ar : AllowedRoutes)
    (protocol routeKind : string) :
  ar_Kinds ar <> [] ->
  IsRouteKindAllowed (Some ar) protocol routeKind = true
  <-> exists entry,
        In entry (ar_Kinds ar)
        /\ rgk_Kind entry = routeKind
        /\ (rgk_Group entry = None \/ rgk_Group entry = Some ""
            \/ rgk_Group entry = Some GroupName).
Proof.
  intros Hne. unfold IsRouteKindAllowed, getAllowedKinds.
  destruct (ar_Kinds ar) as [|e es] eqn:Hk; [contradiction|].
  change (0 <? List.length (e :: es))%nat with true. cbv iota.
  rewrite existsb_exists. split.
  - intros (entry & Hin & Hm). apply kindMatches_true in Hm. eauto.
  - intros (entry & Hin & Hm). exists entry. split; [exact Hin|].
    now apply kindMatches_true.
Qed.

(** X4.  The kinds a listener allows.  Without an explicit kind list (no
    allowedRoutes, or an empty kinds list) the protocol decides alone: a
    TLS, TCP or UDP listener allows exactly TLSRoute, TCPRoute or UDPRoute,
    and every other protocol, known or not, allows exactly HTTPRoute and
    GRPCRoute.  A non-empty kinds list replaces these defaults: whatever
    the protocol, a route kind is allowed exactly when some entry has that
    kind and a group that is nil, empty or the Gateway API group, so an
    entry of another group allows nothing. *)
Theorem IsRouteKindAllowed_kinds `{LabelSelectorLib}
    (allowedRoutes : option AllowedRoutes) (protocol routeKind : string) :
  ((forall ar, allowedRoutes = Some ar -> ar_Kinds ar = []) ->
   (protocol = TLSProtocolType ->
    IsRouteKindAllowed allowedRoutes protocol routeKind = true <-> routeKind = KindTLSRoute)
   /\ (protocol = TCPProtocolType ->
       IsRouteKindAllowed allowedRoutes protocol routeKind = true
       <-> routeKind = KindTCPRoute)
   /\ (protocol = UDPProtocolType ->
       IsRouteKindAllowed allowedRoutes protocol routeKind = true
       <-> routeKind = KindUDPRoute)
   /\ (protocol <> TLSProtocolType -> protocol <> TCPProtocolType ->
       protocol <> UDPProtocolType ->
       IsRouteKindAllowed allowedRoutes protocol routeKind = true
       <-> routeKind = KindHTTPRoute \/ routeKind = KindGRPCRoute))
  /\ (forall ar,
        allowedRoutes = Some ar -> ar_Kinds ar <> [] ->
        IsRouteKindAllowed allowedRoutes protocol routeKind = true
        <-> exists entry,
              In entry (ar_Kinds ar)
              /\ rgk_Kind entry = routeKind
              /\ (rgk_Group entry = None \/ rgk_Group entry = Some ""
                  \/ rgk_Group entry = Some GroupName)).
Proof.
  split.
  - apply IsRouteKindAllowed_defaults.
  - intros ar -> Hne. now apply IsRouteKindAllowed_explicit.
Qed.

(* ===================================================================== *)
(** ** Further properties: binding evaluator *)
(* ===================================================================== *)

Lemma filter_sublist_names `{LabelSelectorLib} (keep : Listener -> bool)
    (listeners : list Listener) :
  sublist (map l_Name (List.filter keep listeners)) (map l_Name listeners).
Proof.
  induction listeners as [|l ls IH]; cbn; [constructor|].
  destruct (keep l); cbn; [now apply sublist_skip | now apply sublist_cons].
Qed.

(** X5.  The matched listeners of a binding result are exactly the names of
    the listeners that the walk evaluates and that pass all three gates,
    in declaration order; the result is Accepted exactly when this list is
    not empty; and with a section-name set every matched listener has that
    name. *)
Theorem ValidateBinding_matched_listeners `{LabelSelectorLib}
    (v : routebinding.Validator) (gateway : Gateway) (route : RouteInfo)
    (result : BindingResult) :
  ValidateBinding v gateway route = Ok result ->
  (forall name,
     In name (MatchedListeners result)
     <-> exists listener,
           In listener (gw_Listeners gateway)
           /\ l_Name listener = name
           /\ skippedBySectionName route listener = false
           /\ passesAllGates v gateway route listener)
  /\ sublist (MatchedListeners result) (map l_Name (gw_Listeners gateway))
  /\ (Accepted result = true <-> MatchedListeners result <> [])
  /\ (forall sectionName name,
        ri_SectionName route = Some sectionName ->
        In name (MatchedListeners result) -> name = sectionName).
Proof.
  intros Hv. apply ValidateBinding_Ok in Hv. cbv zeta in Hv.
  assert (MatchedListeners result
          = map l_Name (List.filter (acceptsListener v (gw_Namespace gateway) route)
                          (gw_Listeners gateway))
          /\ (Accepted result = true <-> MatchedListeners result <> [])) as [Hm Hacc].
  { destruct Hv as [[Hne ->] | (Hnil & Hacc & Hm & _)]; cbn.
    - split; [reflexivity|]. split; [intros _; exact Hne | reflexivity].
    - rewrite Hnil, Hm, Hacc. split; [reflexivity|]. split; [discriminate | congruence]. }
  assert (forall name,
            In name (MatchedListeners result)
            <-> exists listener,
                  In listener (gw_Listeners gateway)
                  /\ l_Name listener = name
                  /\ skippedBySectionName route listener = false
                  /\ passesAllGates v gateway route listener) as Hin.
  { intros name. rewrite Hm, in_map_iff. split.
    - intros (l & Hname & Hl). apply filter_In in Hl. destruct Hl as [Hl Ha].
      apply acceptsListener_true in Ha. exists l. tauto.
    - intros (l & Hl & Hname & Hs & Hp). exists l. split; [exact Hname|].
      apply filter_In. split; [exact Hl|]. apply acceptsListener_true. tauto. }
  split; [exact Hin|]. split; [rewrite Hm; apply filter_sublist_names|].
  split; [exact Hacc|].
  intros sectionName name Hsn Hname. apply Hin in Hname.
  destruct Hname as (l & _ & <- & Hskip & _).
  unfold skippedBySectionName in Hskip. rewrite Hsn in Hskip.
  apply negb_false_iff, String.eqb_eq in Hskip. congruence.
Qed.

Lemma ValidateBinding_matched_listeners_witness :
  let v := Examples.validator Examples.gwS5 in
  let route := Examples.routeInfo ["x.b.com"] (Some "https") in
  In "https" (MatchedListeners
                {| Accepted := true; Reason := RouteReasonAccepted;
                   Message := "Route accepted"; MatchedListeners := ["https"] |})
  <-> exists listener,
        In listener (gw_Listeners Examples.gwS5)
        /\ l_Name listener = "https"
        /\ skippedBySectionName route listener = false
        /\ passesAllGates v Examples.gwS5 route listener.
Proof.
  cbv zeta.
  apply (ValidateBinding_matched_listeners (Examples.validator Examples.gwS5) Examples.gwS5
           (Examples.routeInfo ["x.b.com"] (Some "https"))).
  vm_compute. reflexivity.
Defined.

(** X6.  A rejected binding result always carries one of the three
    rejection reasons with the message that belongs to it, never an empty
    reason, the Accepted reason or the fallback message, and it lists no
    matched listener. *)
Theorem ValidateBinding_rejection `{LabelSelectorLib}
    (v : routebinding.Validator) (gateway : Gateway) (route : RouteInfo)
    (result : BindingResult) :
  ValidateBinding v gateway route = Ok result ->
  Accepted result = false ->
  MatchedListeners result = []
  /\ ((Reason result = RouteReasonNoMatchingParent
       /\ Message result = "No matching listener found")
      \/ (Reason result = RouteReasonNoMatchingListenerHostname
          /\ Message result = "No listener hostname matches route hostnames")
      \/ (Reason result = RouteReasonNotAllowedByListeners
          /\ Message result = "Route not allowed by listener allowedRoutes policy")).
Proof.
  intros Hv Hrej. apply ValidateBinding_Ok in Hv. cbv zeta in Hv.
  destruct Hv as [[_ ->] | (_ & _ & Hm & Hmsg & Hzero & Hsn & Hlast)]; [discriminate|].
  split; [exact Hm|]. rewrite Hmsg.
  assert (Reason result = RouteReasonNoMatchingParent
          \/ Reason result = RouteReasonNoMatchingListenerHostname
          \/ Reason result = RouteReasonNotAllowedByListeners) as Hreason.
  { destruct (gw_Listeners gateway) as [|l0 rest] eqn:Hls; [left; now apply Hzero|].
    destruct (ri_SectionName route) as [sn|] eqn:Hsection; [left; now apply Hsn|].
    destruct (last (l0 :: rest)) as [ll|] eqn:Hll.
    - destruct (Hlast eq_refl ll eq_refl) as [Hacc Hne].
      apply listenerAcceptsRoute_reason in Hacc. tauto.
    - exfalso. clear -Hll. revert l0 Hll.
      induction rest as [|l1 rest IH]; intros l0; [discriminate | cbn; apply IH]. }
  destruct Hreason as [-> | [-> | ->]]; [left | right; left | right; right];
    split; reflexivity.
Qed.

Lemma ValidateBinding_rejection_witness :
  let v := Examples.validator Examples.gwS5 in
  let route := Examples.routeInfo ["x.b.com"] (Some "missing") in
  exists result,
    ValidateBinding v Examples.gwS5 route = Ok result
    /\ MatchedListeners result = []
    /\ Reason result = RouteReasonNoMatchingParent.
Proof.
  cbv zeta.
  destruct (ValidateBinding (Examples.validator Examples.gwS5) Examples.gwS5
              (Examples.routeInfo ["x.b.com"] (Some "missing"))) as [result|err] eqn:Hv;
    [|vm_compute in Hv; discriminate].
  exists result. split; [reflexivity|].
  assert (Accepted result = false) as Hrej by (vm_compute in Hv; now injection Hv as <-).
  destruct (ValidateBinding_rejection _ _ _ _ Hv Hrej) as [Hm _].
  split; [exact Hm|]. vm_compute in Hv. now injection Hv as <-.
Defined.

Lemma IsNamespaceAllowed_error `{LabelSelectorLib} (v : routebinding.Validator)
    (allowedRoutes : option AllowedRoutes) (gatewayNamespace routeNamespace : string)
    (err : error) :
  IsNamespaceAllowed v allowedRoutes gatewayNamespace routeNamespace = Err err
  <-> exists ar namespaces selector libErr,
        allowedRoutes = Some ar
        /\ ar_Namespaces ar = Some namespaces
        /\ rn_From namespaces = Some NamespacesFromSelector
        /\ rn_Selector namespaces = Some selector
        /\ LabelSelectorAsSelector selector = Err libErr
        /\ err = Wrap libErr "invalid label selector".
Proof.
  split.
  - unfold IsNamespaceAllowed, getNamespaceFrom, namespaceMatchesSelector.
    destruct allowedRoutes as [[[[from selector]|] kinds]|]; cbn; try discriminate.
    destruct from as [from|]; cbn; try discriminate.
    destruct (String.eqb from NamespacesFromSame); [discriminate|].
    destruct (String.eqb from NamespacesFromAll); [discriminate|].
    destruct (String.eqb_spec from NamespacesFromSelector) as [->|_].
    + destruct selector as [sel|]; [|discriminate].
      destruct (LabelSelectorAsSelector sel) as [s|libErr] eqn:Hsel.
      * destruct (GetNamespace _ _); discriminate.
      * intros [= <-]. do 4 eexists. repeat split; eauto.
    + destruct (String.eqb from NamespacesFromNone); discriminate.
  - intros (ar & nss & sel & libErr & -> & Hns & Hfrom & Hsel & Hlib & ->).
    destruct ar as [namespaces kinds]. cbn in Hns. subst namespaces.
    destruct nss as [from selector]. cbn in Hfrom, Hsel. subst from selector.
    unfold IsNamespaceAllowed, getNamespaceFrom, namespaceMatchesSelector. cbn.
    now rewrite Hlib.
Qed.

Lemma listenerAcceptsRoute_error `{LabelSelectorLib} (v : routebinding.Validator)
    (listener : Listener) (gatewayNamespace : string) (route : RouteInfo) (err : error) :
  listenerAcceptsRoute v listener gatewayNamespace route = Err err
  <-> HostnamesIntersect (l_Hostname listener) (ri_Hostnames route) = true
      /\ IsNamespaceAllowed v (l_AllowedRoutes listener) gatewayNamespace
           (ri_Namespace route) = Err err.
Proof.
  unfold listenerAcceptsRoute.
  destruct (HostnamesIntersect _ _); cbn; [|split; [discriminate | intros [? _]; discriminate]].
  destruct (IsNamespaceAllowed _ _ _ _) as [[|]|e]; cbn.
  - destruct (IsRouteKindAllowed _ _ _); cbn;
      (split; [discriminate | intros [_ ?]; discriminate]).
  - split; [discriminate | intros [_ ?]; discriminate].
  - split; [intros [= ->]; tauto | intros [_ [= ->]]; reflexivity].
Qed.

Lemma walkListeners_fails `{LabelSelectorLib} (v : routebinding.Validator)
    (gatewayNamespace : string) (route : RouteInfo) (listeners : list Listener)
    (listener : Listener) :
  In listener listeners ->
  skippedBySectionName route listener = false ->
  is_ok (listenerAcceptsRoute v listener gatewayNamespace route) = false ->
  forall matched0 last0,
    is_ok (walkListeners v gatewayNamespace route listeners matched0 last0) = false.
Proof.
  intros Hin Hskip Herr. induction listeners as [|l0 rest IH]; [contradiction|].
  intros matched0 last0. cbn [walkListeners].
  destruct Hin as [-> | Hin].
  - rewrite Hskip. destruct (listenerAcceptsRoute _ _ _ _); [discriminate | reflexivity].
  - destruct (skippedBySectionName route l0); [now apply IH|].
    destruct (listenerAcceptsRoute v l0 gatewayNamespace route) as [reason|e];
      [|reflexivity].
    destruct (String.eqb reason RouteReasonAccepted); now apply IH.
Qed.

(** X7.  The binding evaluator fails exactly when some listener that the
    walk evaluates, and whose hostname intersects the route's, has the
    Selector policy with a label selector that does not convert; the error
    is the conversion error wrapped with "invalid label selector".  A
    listener the section-name skips or whose hostname does not intersect
    never makes the evaluation fail, and neither does a namespace that
    cannot be fetched. *)
Theorem ValidateBinding_error `{LabelSelectorLib}
    (v : routebinding.Validator) (gateway : Gateway) (route : RouteInfo) :
  let failing := fun (listener : Listener) (err : error) =>
    In listener (gw_Listeners gateway)
    /\ skippedBySectionName route listener = false
    /\ HostnamesIntersect (l_Hostname listener) (ri_Hostnames route) = true
    /\ exists ar namespaces selector libErr,
         l_AllowedRoutes listener = Some ar
         /\ ar_Namespaces ar = Some namespaces
         /\ rn_From namespaces = Some NamespacesFromSelector
         /\ rn_Selector namespaces = Some selector
         /\ LabelSelectorAsSelector selector = Err libErr
         /\ err = Wrap libErr "invalid label selector" in
  (forall err, ValidateBinding v gateway route = Err err ->
     exists listener, failing listener err)
  /\ (forall listener err, failing listener err ->
        is_ok (ValidateBinding v gateway route) = false).
Proof.
  cbv zeta. split.
  - intros err Hv. unfold ValidateBinding, findMatchingListeners in Hv.
    destruct (List.length (gw_Listeners gateway) =? 0)%nat; [discriminate|].
    destruct (walkListeners _ _ _ _ _ _) as [[matched lastReason]|e] eqn:Hw.
    + destruct (List.length matched =? 0)%nat eqn:Hlen.
      * destruct (ri_SectionName route); cbn in Hv; [discriminate|].
        destruct (String.eqb lastReason ""); discriminate.
      * cbn in Hv. rewrite Hlen in Hv. discriminate.
    + injection Hv as ->. apply walkListeners_error in Hw.
      destruct Hw as (l & Hin & Hskip & Hhost & Hns). exists l.
      apply IsNamespaceAllowed_error in Hns. tauto.
  - intros listener err (Hin & Hskip & Hhost & Hsel).
    apply (IsNamespaceAllowed_error v _ (gw_Namespace gateway) (ri_Namespace route)) in Hsel.
    assert (is_ok (listenerAcceptsRoute v listener (gw_Namespace gateway) route) = false)
      as Herr.
    { assert (listenerAcceptsRoute v listener (gw_Namespace gateway) route = Err err) as ->
        by (apply listenerAcceptsRoute_error; tauto).
      reflexivity. }
    pose proof (walkListeners_fails v (gw_Namespace gateway) route _ _ Hin Hskip Herr [] "")
      as Hw.
    unfold ValidateBinding, findMatchingListeners.
    destruct (gw_Listeners gateway) as [|l0 rest]; [contradiction|].
    change (List.length (l0 :: rest) =? 0)%nat with false. cbv iota.
    destruct (walkListeners _ _ _ _ _ _); [discriminate | reflexivity].
Qed.

(* ===================================================================== *)
(** ** Further properties: grant validator, weights and wire backends *)
(* ===================================================================== *)

(** X8.  The grant validator fails exactly when the two namespaces differ
    and the grants of the target namespace cannot be listed, with the list
    error wrapped with "failed to list ReferenceGrants"; it denies exactly
    when the namespaces differ, the list succeeds and no listed grant allows
    the reference.  A reference within one namespace never reads the
    grants. *)
Theorem IsReferenceAllowed_outcomes `{LabelSelectorLib} (v : referencegrant.Validator)
    (fromRef toRef : referencegrant.Reference) :
  let listed := ListReferenceGrants (referencegrant.client v)
                  (referencegrant.Namespace toRef) in
  (forall err,
     referencegrant.IsReferenceAllowed v fromRef toRef = Err err
     <-> referencegrant.Namespace fromRef <> referencegrant.Namespace toRef
         /\ exists listErr,
              listed = Err listErr /\ err = Wrap listErr "failed to list ReferenceGrants")
  /\ (referencegrant.IsReferenceAllowed v fromRef toRef = Ok false
      <-> referencegrant.Namespace fromRef <> referencegrant.Namespace toRef
          /\ exists grants,
               listed = Ok grants
               /\ forall grant, In grant grants ->
                    referencegrant.grantAllowsReference grant fromRef toRef = false)
  /\ (forall v' : referencegrant.Validator,
        referencegrant.Namespace fromRef = referencegrant.Namespace toRef ->
        referencegrant.IsReferenceAllowed v' fromRef toRef = Ok true).
Proof.
  cbv zeta. unfold referencegrant.IsReferenceAllowed.
  split; [|split].
  - intros err.
    destruct (String.eqb_spec (referencegrant.Namespace fromRef)
                (referencegrant.Namespace toRef)) as [E|NE].
    + split; [discriminate | intros [? _]; contradiction].
    + destruct (ListReferenceGrants _ _) as [grants|listErr].
      * split; [discriminate | intros [_ (e & ? & _)]; discriminate].
      * split.
        -- intros [= <-]. split; [exact NE | eauto].
        -- intros [_ (e & [= <-] & ->)]. reflexivity.
  - destruct (String.eqb_spec (referencegrant.Namespace fromRef)
                (referencegrant.Namespace toRef)) as [E|NE].
    + split; [discriminate | intros [? _]; contradiction].
    + destruct (ListReferenceGrants _ _) as [grants|listErr].
      * split.
        -- intros [= Hex]. split; [exact NE|]. exists grants. split; [reflexivity|].
           intros grant Hin.
           destruct (referencegrant.grantAllowsReference grant fromRef toRef) eqn:Hg;
             [|reflexivity].
           assert (existsb (fun grant => referencegrant.grantAllowsReference grant fromRef toRef)
                     grants = true) as Habs by (apply existsb_exists; eauto).
           congruence.
        -- intros [_ (grants' & [= <-] & Hnone)]. f_equal.
           destruct (existsb _ grants) eqn:Hex; [|reflexivity].
           apply existsb_exists in Hex. destruct Hex as (grant & Hin & Hg).
           rewrite (Hnone grant Hin) in Hg. discriminate.
      * split; [discriminate | intros [_ (grants & ? & _)]; discriminate].
  - intros v' ->. now rewrite String.eqb_refl.
Qed.

(** X9.  Grants only ever add permissions: a reference allowed under the
    grants listed in the target namespace stays allowed when that list is
    reordered, duplicated or extended by further grants. *)
Theorem IsReferenceAllowed_monotone `{LabelSelectorLib}
    (v v' : referencegrant.Validator) (fromRef toRef : referencegrant.Reference)
    (grants grants' : list ReferenceGrant) :
  ListReferenceGrants (referencegrant.client v) (referencegrant.Namespace toRef)
    = Ok grants ->
  ListReferenceGrants (referencegrant.client v') (referencegrant.Namespace toRef)
    = Ok grants' ->
  (forall grant, In grant grants -> In grant grants') ->
  referencegrant.IsReferenceAllowed v fromRef toRef = Ok true ->
  referencegrant.IsReferenceAllowed v' fromRef toRef = Ok true.
Proof.
  intros Hl Hl' Hsub. unfold referencegrant.IsReferenceAllowed.
  destruct (String.eqb _ _); [reflexivity|]. rewrite Hl, Hl'.
  intros [= Hex]. f_equal. apply existsb_exists in Hex.
  destruct Hex as (grant & Hin & Hg). apply existsb_exists. eauto.
Qed.

Lemma IsReferenceAllowed_monotone_witness :
  referencegrant.IsReferenceAllowed
    (referencegrant.NewValidator Examples.lib
       (MoreExamples.grantCluster [MoreExamples.unrelated; MoreExamples.allowRoutes]))
    Examples.fromRef Examples.toRef = Ok true.
Proof.
  apply (IsReferenceAllowed_monotone
           (referencegrant.NewValidator Examples.lib
              (MoreExamples.grantCluster [MoreExamples.allowRoutes]))
           _ _ _ [MoreExamples.allowRoutes]
           [MoreExamples.unrelated; MoreExamples.allowRoutes]).
  - reflexivity.
  - reflexivity.
  - intros grant [<- | []]. right. now left.
  - vm_compute. reflexivity.
Defined.

Lemma selectInvariant_unique {T} `{WeightedRef T} (seen : list T)
    (selectedIdx highestWeight selectedIdx' highestWeight' : Z) :
  selectInvariant seen selectedIdx highestWeight ->
  selectInvariant seen selectedIdx' highestWeight' ->
  selectedIdx = selectedIdx'.
Proof.
  intros [[-> Hzero] | (n & picked & -> & Hn & Hw & Hne & Hmax & Hfirst)]
         [[-> Hzero'] | (n' & picked' & -> & Hn' & Hw' & Hne' & Hmax' & Hfirst')].
  - reflexivity.
  - exfalso. apply Hne'. rewrite <- Hw'. apply Hzero.
    apply list_elem_of_In. eapply list_elem_of_lookup_2. exact Hn'.
  - exfalso. apply Hne. rewrite <- Hw. apply Hzero'.
    apply list_elem_of_In. eapply list_elem_of_lookup_2. exact Hn.
  - assert (effectiveWeight picked <> 0) as Hp by congruence.
    assert (effectiveWeight picked' <> 0) as Hp' by congruence.
    pose proof (Hmax n' picked' Hn' Hp') as H1.
    pose proof (Hmax' n picked Hn Hp) as H2.
    destruct (Nat.lt_trichotomy n n') as [Hlt | [-> | Hgt]]; [|reflexivity|].
    + pose proof (Hfirst' n picked Hlt Hn Hp). lia.
    + pose proof (Hfirst n' picked' Hgt Hn' Hp'). lia.
Qed.

Lemma selectInvariant_bounds {T} `{WeightedRef T} (seen : list T)
    (selectedIdx highestWeight : Z) :
  selectInvariant seen selectedIdx highestWeight ->
  -1 <= selectedIdx < Z.of_nat (List.length seen).
Proof.
  intros [[-> _] | (n & picked & -> & Hn & _)]; [lia|].
  apply lookup_lt_Some in Hn. lia.
Qed.

(** X10.  The single-backend selector returns -1 or a valid index of the
    list, and it is stable under growth of the list at its end: appending
    a disabled reference (weight 0), or one whose weight does not exceed
    the picked weight, leaves the selection unchanged, and appending an
    enabled reference after none or after a strictly lighter pick selects
    the new last index. *)
Theorem SelectHighestWeightIndex_append {T} `{WeightedRef T} (refs : list T) (ref : T) :
  -1 <= SelectHighestWeightIndex refs < Z.of_nat (List.length refs)
  /\ (effectiveWeight ref = 0 ->
      SelectHighestWeightIndex (refs ++ [ref]) = SelectHighestWeightIndex refs)
  /\ (forall (n : nat) picked,
        SelectHighestWeightIndex refs = Z.of_nat n -> refs !! n = Some picked ->
        (effectiveWeight ref <= effectiveWeight picked ->
         SelectHighestWeightIndex (refs ++ [ref]) = Z.of_nat n)
        /\ (effectiveWeight ref <> 0 -> effectiveWeight picked < effectiveWeight ref ->
            SelectHighestWeightIndex (refs ++ [ref]) = Z.of_nat (List.length refs)))
  /\ (effectiveWeight ref <> 0 -> SelectHighestWeightIndex refs = -1 ->
      SelectHighestWeightIndex (refs ++ [ref]) = Z.of_nat (List.length refs)).
Proof.
  destruct (SelectHighestWeightIndex_invariant refs) as [hi Hinv].
  destruct (SelectHighestWeightIndex_invariant (refs ++ [ref])) as [hi' Hinv'].
  pose proof (selectInvariant_step refs ref _ _ Hinv) as Hstep. cbv zeta in Hstep.
  pose proof (selectInvariant_unique _ _ _ _ _ Hinv' Hstep) as Hsel.
  split; [eapply selectInvariant_bounds; exact Hinv|].
  split; [|split].
  - intros Hz. rewrite Hsel, Hz. reflexivity.
  - intros n picked Hn Hpicked.
    assert (hi = effectiveWeight picked) as ->.
    { destruct Hinv as [[Hm _] | (n' & picked' & Hn' & Hp' & Hw & _)]; [lia|].
      assert (n' = n) as -> by lia. congruence. }
    rewrite Hsel, Hn. split.
    + intros Hle. destruct (effectiveWeight ref =? 0); [reflexivity|].
      replace (Z.of_nat n =? -1) with false by (symmetry; apply Z.eqb_neq; lia).
      destruct (Z.ltb_spec (effectiveWeight picked) (effectiveWeight ref)); [lia|].
      reflexivity.
    + intros Hne Hlt. destruct (Z.eqb_spec (effectiveWeight ref) 0); [contradiction|].
      destruct (Z.ltb_spec (effectiveWeight picked) (effectiveWeight ref)); [|lia].
      now rewrite orb_true_r.
  - intros Hne Hm. rewrite Hsel, Hm.
    destruct (Z.eqb_spec (effectiveWeight ref) 0); [contradiction|]. reflexivity.
Qed.

Lemma buildBackend_None (b : PingoraBuilder) (namespace : string) (ref : BackendRef) :
  buildBackend b namespace ref = None
  <-> exists kind, br_Kind ref = Some kind /\ kind <> "Service".
Proof.
  unfold buildBackend. destruct (br_Kind ref) as [k|]; cbn.
  - destruct (String.eqb_spec k "Service") as [->|Hne]; cbn.
    + split; [discriminate | intros (k & [= <-] & Hne); contradiction].
    + split; [eauto | reflexivity].
  - split; [discriminate | intros (k & ? & _); discriminate].
Qed.

(** X11.  A backend reference yields no wire backend exactly when its kind
    is given and is not Service.  A wire backend that is built always has
    protocol HTTP and, for an int32 weight, a weight between 1 and
    2147483647: the weight is never 0, a reference with weight 0 or a
    negative weight being emitted with weight 1 like one with no weight. *)
Theorem buildBackend_wire_weight (b : PingoraBuilder) (namespace : string)
    (ref : BackendRef) :
  (forall w, br_Weight ref = Some w -> -2147483648 <= w <= 2147483647) ->
  (buildBackend b namespace ref = None
   <-> exists kind, br_Kind ref = Some kind /\ kind <> "Service")
  /\ (forall backend, buildBackend b namespace ref = Some backend ->
        b_Protocol backend = BACKEND_PROTOCOL_HTTP
        /\ 1 <= b_Weight backend <= 2147483647
        /\ (forall w, br_Weight ref = Some w -> w <= 0 -> b_Weight backend = 1)).
Proof.
  intros Hrange. split; [apply buildBackend_None|].
  intros backend. unfold buildBackend.
  destruct (match br_Kind ref with Some k => negb (String.eqb k "Service") | None => false end);
    [discriminate|].
  intros [= <-]. cbn. split; [reflexivity|].
  destruct (br_Weight ref) as [w|]; [|split; [lia | discriminate]].
  specialize (Hrange w eq_refl).
  destruct (Z.ltb_spec 0 w).
  - unfold to_uint32. rewrite Z.mod_small by lia. split; [lia|]. intros w' [= <-]. lia.
  - split; [lia | reflexivity].
Qed.

Lemma buildBackend_wire_weight_witness :
  exists backend,
    buildBackend (NewPingoraBuilder "cluster.local") "ns" (Examples.backend (Some 0))
      = Some backend
    /\ b_Protocol backend = BACKEND_PROTOCOL_HTTP
    /\ b_Weight backend = 1.
Proof.
  destruct (buildBackend (NewPingoraBuilder "cluster.local") "ns" (Examples.backend (Some 0)))
    as [backend|] eqn:Hb; [|vm_compute in Hb; discriminate].
  exists backend. split; [reflexivity|].
  assert (forall w, br_Weight (Examples.backend (Some 0)) = Some w ->
                    -2147483648 <= w <= 2147483647) as Hrange
    by (intros w [= <-]; lia).
  destruct (buildBackend_wire_weight (NewPingoraBuilder "cluster.local") "ns" _ Hrange)
    as [_ Hbuilt].
  destruct (Hbuilt backend Hb) as (Hproto & _ & Hzero).
  split; [exact Hproto|]. apply (Hzero 0); [reflexivity | lia].
Defined.

Lemma fold_left_build_omap (b : PingoraBuilder) (namespace : string)
    (refs : list BackendRef) :
  forall backends,
    fold_left
      (fun backends backendRef =>
         match buildBackend b namespace backendRef with
         | Some backend => backends ++ [backend]
         | None => backends
         end) refs backends
    = backends ++ omap (buildBackend b namespace) refs.
Proof.
  induction refs as [|ref refs IH]; intros backends; cbn.
  - now rewrite app_nil_r.
  - rewrite IH. destruct (buildBackend b namespace ref); [|reflexivity].
    now rewrite <- app_assoc.
Qed.

(** X12.  A wire route keeps the route's identity, hostnames and rules one
    for one, and the backends of each wire rule are the wire backends of
    the rule's Service references in their order: a reference of another
    kind is dropped without a trace, so a rule whose references are all of
    other kinds is still emitted, with no backend. *)
Theorem BuildHTTPRoute_structure (b : PingoraBuilder) (route : Route) :
  let wire := BuildHTTPRoute b route in
  w_Id wire = r_Namespace route +:+ "/" +:+ r_Name route
  /\ w_Hostnames wire = r_Hostnames route
  /\ List.length (w_Rules wire) = List.length (r_Rules route)
  /\ (forall (i : nat) rule,
        r_Rules route !! i = Some rule ->
        exists wireRule,
          w_Rules wire !! i = Some wireRule
          /\ wr_Backends wireRule
             = omap (buildBackend b (r_Namespace route)) (rr_BackendRefs rule)
          /\ (List.length (wr_Backends wireRule) <= List.length (rr_BackendRefs rule))%nat
          /\ ((forall ref, In ref (rr_BackendRefs rule) ->
                 exists kind, br_Kind ref = Some kind /\ kind <> "Service") ->
              wr_Backends wireRule = [])).
Proof.
  cbv zeta. unfold BuildHTTPRoute. cbn.
  split; [reflexivity|]. split; [apply map_id|]. split; [apply length_map|].
  intros i rule Hi. exists (buildRouteRuleBackends b (r_Namespace route) rule).
  split; [now rewrite list_lookup_fmap, Hi|].
  assert (wr_Backends (buildRouteRuleBackends b (r_Namespace route) rule)
          = omap (buildBackend b (r_Namespace route)) (rr_BackendRefs rule)) as Hb.
  { unfold buildRouteRuleBackends. cbn. now rewrite fold_left_build_omap. }
  split; [exact Hb|]. rewrite Hb. split.
  - clear. induction (rr_BackendRefs rule) as [|ref refs IH]; cbn; [lia|].
    destruct (buildBackend b (r_Namespace route) ref); cbn; lia.
  - generalize (rr_BackendRefs rule). intros refs Hall.
    induction refs as [|ref refs IH]; [reflexivity|].
    cbn. destruct (buildBackend b (r_Namespace route) ref) eqn:Href.
    + exfalso. assert (buildBackend b (r_Namespace route) ref = None) as Hn
        by (apply buildBackend_None, Hall; now left).
      congruence.
    + apply IH. intros r Hr. apply Hall. now right.
Qed.

(* ===================================================================== *)
(** ** Rules with matches and timeouts: properties *)
(* ===================================================================== *)

Lemma Milliseconds_pos (d : Z) : 0 < Milliseconds d <-> 1000000 <= d.
Proof.
  unfold Milliseconds. split.
  - intros Hpos. destruct (Z.le_gt_cases 1000000 d) as [|Hlt]; [assumption|]. exfalso.
    destruct (Z.le_gt_cases 0 d) as [Hnn | Hneg].
    + rewrite Z.quot_small in Hpos by lia. lia.
    + replace d with (- (- d)) in Hpos by lia.
      rewrite Z.quot_opp_l in Hpos by lia.
      pose proof (Z.quot_pos (- d) 1000000). lia.
  - intros Hle. apply Z.quot_str_pos. lia.
Qed.

Lemma buildHTTPRouteMatches_length (b : PingoraBuilder) (matches : list HTTPRouteMatch) :
  forall built wire,
    buildHTTPRouteMatches b matches built = Ok wire ->
    List.length wire = (List.length built + List.length matches)%nat.
Proof.
  induction matches as [|m rest IH]; intros built wire; cbn.
  - intros [= <-]. lia.
  - destruct (buildHTTPRouteMatch b m) as [wireMatch|]; [|discriminate].
    intros Hrest. apply IH in Hrest. rewrite length_app in Hrest. cbn in Hrest. lia.
Qed.

Lemma buildHTTPRouteMatch_fails (b : PingoraBuilder) (m : HTTPRouteMatch) :
  is_ok (buildHTTPRouteMatch b m) = false <-> hasNilPath m.
Proof.
  unfold buildHTTPRouteMatch, hasNilPath. destruct (hm_Path m) as [[type value]|]; cbn.
  - destruct value as [value|], type as [type|]; cbn.
    + split; [discriminate | intros (p & [= <-] & [Hn | Hn]); discriminate].
    + split; [|reflexivity]. intros _. eexists. split; [reflexivity|]. now left.
    + split; [|reflexivity]. intros _. eexists. split; [reflexivity|]. now right.
    + split; [|reflexivity]. intros _. eexists. split; [reflexivity|]. now left.
  - split; [discriminate | intros (p & ? & _); discriminate].
Qed.

Lemma buildHTTPRouteMatches_fails (b : PingoraBuilder) (matches : list HTTPRouteMatch) :
  forall built,
    is_ok (buildHTTPRouteMatches b matches built) = false
    <-> exists m, In m matches /\ is_ok (buildHTTPRouteMatch b m) = false.
Proof.
  induction matches as [|m rest IH]; intros built; cbn.
  - split; [discriminate | intros (m & [] & _)].
  - destruct (buildHTTPRouteMatch b m) as [wireMatch|] eqn:Hm.
    + rewrite IH. split.
      * intros (m' & Hin & Hf). eauto.
      * intros (m' & [<- | Hin] & Hf); [rewrite Hm in Hf; discriminate | eauto].
    + split; [|reflexivity]. intros _. exists m. split; [now left|]. now rewrite Hm.
Qed.

Lemma buildHTTPRouteMatches_Forall2 (b : PingoraBuilder) (matches : list HTTPRouteMatch) :
  forall built wire,
    buildHTTPRouteMatches b matches built = Ok wire ->
    exists added,
      wire = built ++ added
      /\ Forall2 (fun m wireMatch => buildHTTPRouteMatch b m = Ok wireMatch) matches added.
Proof.
  induction matches as [|m rest IH]; intros built wire; cbn.
  - intros [= <-]. exists []. split; [now rewrite app_nil_r | constructor].
  - destruct (buildHTTPRouteMatch b m) as [wireMatch|] eqn:Hm; [|discriminate].
    intros Hrest. apply IH in Hrest. destruct Hrest as (added & -> & Hall).
    exists (wireMatch :: added). split; [now rewrite <- app_assoc|].
    now constructor.
Qed.

Lemma buildBackendRef_fails (b : PingoraBuilder) (namespace : string)
    (ref : HTTPBackendRef) :
  is_ok (buildBackendRef b namespace ref) = false <-> serviceWithoutPort ref.
Proof.
  unfold buildBackendRef, serviceWithoutPort.
  destruct (hbr_Kind ref) as [k|]; [destruct (String.eqb_spec k "Service") as [->|Hk]|];
    cbn [negb]; destruct (hbr_Port ref) as [port|]; cbn;
    (split; [try discriminate; intros _; tauto |]);
    try reflexivity; try (intros [_ Habs]; discriminate);
    try (intros [[Habs | [= Habs]] _]; [discriminate | contradiction]).
Qed.

Lemma buildBackendRef_Ok (b : PingoraBuilder) (namespace : string)
    (ref : HTTPBackendRef) (backend : option Backend) :
  buildBackendRef b namespace ref = Ok backend -> backend = wireBackendOf b namespace ref.
Proof.
  unfold buildBackendRef, wireBackendOf, buildBackend.
  destruct (hbr_Port ref) as [port|]; cbn [withPort br_Kind].
  - destruct (match hbr_Kind ref with
              | Some k => negb (String.eqb k "Service")
              | None => false
              end); now intros [= <-].
  - destruct (match hbr_Kind ref with
              | Some k => negb (String.eqb k "Service")
              | None => false
              end); [now intros [= <-] | discriminate].
Qed.

Lemma buildBackends_fails (b : PingoraBuilder) (namespace : string)
    (backendRefs : list HTTPBackendRef) :
  forall backends,
    is_ok (buildBackends b namespace backendRefs backends) = false
    <-> exists ref, In ref backendRefs /\ serviceWithoutPort ref.
Proof.
  induction backendRefs as [|ref rest IH]; intros backends; cbn.
  - split; [discriminate | intros (ref & [] & _)].
  - pose proof (buildBackendRef_fails b namespace ref) as Hfails.
    destruct (buildBackendRef b namespace ref) as [[backend|]|err]; cbn in Hfails.
    + rewrite IH. split.
      * intros (ref' & Hin & Hnil). eauto.
      * intros (ref' & [<- | Hin] & Hnil); [apply Hfails in Hnil; discriminate | eauto].
    + rewrite IH. split.
      * intros (ref' & Hin & Hnil). eauto.
      * intros (ref' & [<- | Hin] & Hnil); [apply Hfails in Hnil; discriminate | eauto].
    + split; [|reflexivity]. intros _. exists ref. split; [now left | now apply Hfails].
Qed.

Lemma buildBackends_Ok (b : PingoraBuilder) (namespace : string)
    (backendRefs : list HTTPBackendRef) :
  forall backends built,
    buildBackends b namespace backendRefs backends = Ok built ->
    built = backends ++ omap (wireBackendOf b namespace) backendRefs.
Proof.
  induction backendRefs as [|ref rest IH]; intros backends built; cbn.
  - intros [= <-]. now rewrite app_nil_r.
  - destruct (buildBackendRef b namespace ref) as [backend|err] eqn:Href; [|discriminate].
    apply buildBackendRef_Ok in Href. rewrite <- Href.
    destruct backend as [backend|]; intros Hrest; apply IH in Hrest; rewrite Hrest.
    + now rewrite <- app_assoc.
    + reflexivity.
Qed.

(** X13.  The wire rule of an HTTP rule.  Building fails exactly when a
    match has a path whose type or value is nil, or a reference to a
    Service has no port.  Otherwise: a rule with no match gets the single
    match of path prefix "/", and a rule with matches has, position by
    position, the wire match built from each, so a wire rule always has a
    match; the backends are the wire backends of the rule's Service
    references in their order; and the timeout in milliseconds is the
    request timeout when that parses to at least one millisecond, and 0,
    which stands for no timeout, when it is missing, does not parse, is
    negative or is shorter than a millisecond.  Building the wire rule of
    a gRPC rule fails exactly when a reference to a Service has no port;
    otherwise its matches are the wire matches of the rule's matches,
    position by position and none added, and its backends are as for an
    HTTP rule. *)
Theorem buildHTTPRouteRule_wire `{DurationLib} (b : PingoraBuilder) (namespace : string)
    (rule : HTTPRouteRule) (grpcRule : GRPCRouteRule) :
  (forall s d, ParseDuration s = Ok d ->
     -9223372036854775808 <= d < 9223372036854775808) ->
  (is_ok (buildHTTPRouteRule b namespace rule) = false
   <-> (exists m, In m (hrr_Matches rule) /\ hasNilPath m)
       \/ (exists ref, In ref (hrr_BackendRefs rule) /\ serviceWithoutPort ref))
  /\ (forall wire,
        buildHTTPRouteRule b namespace rule = Ok wire ->
        (hrr_Matches rule = [] ->
         whr_Matches wire
         = [ {| whm_Path := Some {| wpm_Type := PATH_MATCH_TYPE_PREFIX; wpm_Value := "/" |};
                whm_Method := ""; whm_Headers := []; whm_QueryParams := [] |} ])
        /\ (hrr_Matches rule <> [] ->
            Forall2 (fun m wireMatch => buildHTTPRouteMatch b m = Ok wireMatch)
              (hrr_Matches rule) (whr_Matches wire))
        /\ List.length (whr_Matches wire) = Nat.max 1 (List.length (hrr_Matches rule))
        /\ whr_Backends wire = omap (wireBackendOf b namespace) (hrr_BackendRefs rule)
        /\ 0 <= whr_TimeoutMs wire
        /\ (0 < whr_TimeoutMs wire
            <-> exists timeouts request d,
                  hrr_Timeouts rule = Some timeouts
                  /\ ht_Request timeouts = Some request
                  /\ ParseDuration request = Ok d
                  /\ 1000000 <= d)
        /\ (forall timeouts request d,
              hrr_Timeouts rule = Some timeouts ->
              ht_Request timeouts = Some request ->
              ParseDuration request = Ok d ->
              1000000 <= d ->
              whr_TimeoutMs wire = d / 1000000))
  /\ (is_ok (buildGRPCRouteRule b namespace grpcRule) = false
      <-> exists ref, In ref (grr_BackendRefs grpcRule) /\ serviceWithoutPort ref)
  /\ (forall wire,
        buildGRPCRouteRule b namespace grpcRule = Ok wire ->
        wgr_Matches wire = map (buildGRPCRouteMatch b) (grr_Matches grpcRule)
        /\ wgr_Backends wire = omap (wireBackendOf b namespace) (grr_BackendRefs grpcRule)).
Proof.
  intros Hint64. split; [|split; [|split]].
  - unfold buildHTTPRouteRule.
    pose proof (buildBackends_fails b namespace (hrr_BackendRefs rule) []) as Hb.
    destruct (hrr_Matches rule) as [|m0 rest] eqn:Hm.
    + cbn [List.length Nat.eqb].
      destruct (buildBackends b namespace (hrr_BackendRefs rule) []) as [backends|err];
        cbn in Hb |- *.
      * split; [discriminate|]. intros [(m & [] & _) | Hnil]. now apply Hb.
      * split; [|reflexivity]. intros _. right. now apply Hb.
    + change (List.length (m0 :: rest) =? 0)%nat with false. cbv iota.
      pose proof (buildHTTPRouteMatches_fails b (m0 :: rest) []) as Hf.
      destruct (buildHTTPRouteMatches b (m0 :: rest) []) as [matches|err].
      * destruct (buildBackends b namespace (hrr_BackendRefs rule) []) as [backends|err];
          cbn in Hb, Hf |- *.
        -- split; [discriminate|]. intros [(m & Hin & Hnil) | Hnil].
           ++ assert (true = false) as Habs; [|discriminate].
              apply Hf. exists m. split; [exact Hin|].
              now apply buildHTTPRouteMatch_fails.
           ++ now apply Hb.
        -- split; [|reflexivity]. intros _. right. now apply Hb.
      * cbn in Hf |- *. split; [|reflexivity]. intros _. left.
        destruct (proj1 Hf eq_refl) as (m & Hin & Hfail).
        apply buildHTTPRouteMatch_fails in Hfail. eauto.
  - intros wire. unfold buildHTTPRouteRule.
    set (timeoutMs := match hrr_Timeouts rule with
                      | Some timeouts => _
                      | None => 0
                      end).
    assert (0 <= timeoutMs
            /\ (0 < timeoutMs
                <-> exists timeouts request d,
                      hrr_Timeouts rule = Some timeouts
                      /\ ht_Request timeouts = Some request
                      /\ ParseDuration request = Ok d
                      /\ 1000000 <= d)
            /\ (forall timeouts request d,
                  hrr_Timeouts rule = Some timeouts ->
                  ht_Request timeouts = Some request ->
                  ParseDuration request = Ok d ->
                  1000000 <= d ->
                  timeoutMs = d / 1000000)) as Htimeout.
    { subst timeoutMs. unfold parseGatewayDuration.
      destruct (hrr_Timeouts rule) as [timeouts|]; [|split; [lia|]; split;
        [split; [lia | intros (? & ? & ? & ? & _); discriminate] | intros; discriminate]].
      destruct (ht_Request timeouts) as [request|] eqn:Hreq; [|split; [lia|]; split;
        [split; [lia | intros (? & ? & ? & ? & ? & _); congruence] | intros; congruence]].
      destruct (ParseDuration request) as [d|err] eqn:Hparse; [|split; [lia|]; split;
        [split; [lia | intros (? & ? & ? & ? & ? & ? & _); congruence] | intros; congruence]].
      pose proof (Hint64 _ _ Hparse) as Hd64.
      pose proof (Milliseconds_pos d) as Hms.
      destruct (Z.ltb_spec 0 (Milliseconds d)) as [Hpos | Hnp].
      - assert (1000000 <= d) as Hd by now apply Hms.
        assert (to_uint64 (Milliseconds d) = d / 1000000) as ->.
        { unfold to_uint64, Milliseconds. rewrite Z.quot_div_nonneg by lia.
          apply Z.mod_small. split; [apply Z.div_pos; lia|].
          apply Z.div_lt_upper_bound; lia. }
        assert (0 < d / 1000000) as Hq by (apply Z.div_str_pos; lia).
        split; [lia|]. split.
        + split; [intros _; eauto 10 | intros _; exact Hq].
        + intros t r d' Ht Hr Hp _. assert (d' = d) as -> by congruence. reflexivity.
      - split; [lia|]. split.
        + split; [lia|]. intros (t & r & d' & Ht & Hr & Hp & Hd).
          assert (d' = d) as -> by congruence. apply Hms in Hd. lia.
        + intros t r d' Ht Hr Hp Hd. assert (d' = d) as -> by congruence.
          apply Hms in Hd. lia. }
    clearbody timeoutMs.
    destruct (hrr_Matches rule) as [|m0 rest] eqn:Hm.
    + cbn [List.length Nat.eqb].
      destruct (buildBackends b namespace (hrr_BackendRefs rule) []) as [backends|err]
        eqn:Hbackends; [|discriminate].
      apply buildBackends_Ok in Hbackends. cbn [app] in Hbackends. subst backends.
      intros [= <-]. cbn.
      split; [reflexivity|]. split; [intros Hne; now contradiction Hne|].
      split; [reflexivity|]. split; [reflexivity|]. exact Htimeout.
    + change (List.length (m0 :: rest) =? 0)%nat with false. cbv iota.
      destruct (buildHTTPRouteMatches b (m0 :: rest) []) as [matches|err] eqn:Hbuilt;
        [|discriminate].
      destruct (buildBackends b namespace (hrr_BackendRefs rule) []) as [backends|err]
        eqn:Hbackends; [|discriminate].
      apply buildBackends_Ok in Hbackends. cbn [app] in Hbackends. subst backends.
      intros [= <-]. cbn [whr_Matches whr_Backends whr_TimeoutMs].
      split; [discriminate|]. split.
      * intros _. apply buildHTTPRouteMatches_Forall2 in Hbuilt.
        destruct Hbuilt as (added & -> & Hall). exact Hall.
      * split.
        -- apply buildHTTPRouteMatches_length in Hbuilt. rewrite Hbuilt. cbn. lia.
        -- split; [reflexivity | exact Htimeout].
  - unfold buildGRPCRouteRule.
    pose proof (buildBackends_fails b namespace (grr_BackendRefs grpcRule) []) as Hb.
    destruct (buildBackends b namespace (grr_BackendRefs grpcRule) []); exact Hb.
  - intros wire. unfold buildGRPCRouteRule.
    destruct (buildBackends b namespace (grr_BackendRefs grpcRule) []) as [backends|err]
      eqn:Hbackends; [|discriminate].
    apply buildBackends_Ok in Hbackends. cbn [app] in Hbackends. subst backends.
    intros [= <-]. cbn. split; [|reflexivity].
    rewrite fold_left_snoc_map. reflexivity.
Qed.

Lemma buildHTTPRouteRule_wire_witness :
  exists wire short,
    @buildHTTPRouteRule RuleExamples.durations (NewPingoraBuilder "cluster.local") "ns"
      (RuleExamples.rule "10s") = Ok wire
    /\ whr_TimeoutMs wire = 10000
    /\ List.length (whr_Matches wire) = 1%nat
    /\ map b_Address (whr_Backends wire) = ["svc.ns.svc.cluster.local:80"]
    /\ @buildHTTPRouteRule RuleExamples.durations (NewPingoraBuilder "cluster.local") "ns"
         (RuleExamples.rule "500us") = Ok short
    /\ whr_TimeoutMs short = 0
    /\ is_ok (@buildHTTPRouteRule RuleExamples.durations (NewPingoraBuilder "cluster.local")
                "ns" RuleExamples.ruleWithoutPort) = false.
Proof.
  assert (forall s d, @ParseDuration RuleExamples.durations s = Ok d ->
                      -9223372036854775808 <= d < 9223372036854775808) as Hint64.
  { intros s d. cbn. destruct (String.eqb s "10s"); [intros [= <-]; lia|].
    destruct (String.eqb s "500us"); [intros [= <-]; lia | discriminate]. }
  destruct (@buildHTTPRouteRule RuleExamples.durations (NewPingoraBuilder "cluster.local")
              "ns" (RuleExamples.rule "10s")) as [wire|] eqn:Hwire;
    [|vm_compute in Hwire; discriminate].
  destruct (@buildHTTPRouteRule RuleExamples.durations (NewPingoraBuilder "cluster.local")
              "ns" (RuleExamples.rule "500us")) as [short|] eqn:Hshort;
    [|vm_compute in Hshort; discriminate].
  exists wire, short. split; [reflexivity|].
  destruct (@buildHTTPRouteRule_wire RuleExamples.durations
              (NewPingoraBuilder "cluster.local") "ns" (RuleExamples.rule "10s")
              {| grr_Matches := []; grr_BackendRefs := [] |} Hint64)
    as (_ & Hbuilt & _).
  destruct (Hbuilt wire Hwire) as (_ & _ & Hlen & Hbackends & _ & _ & Hms).
  split; [apply (Hms _ "10s" 10000000000 eq_refl eq_refl eq_refl); lia|].
  split; [exact Hlen|].
  split; [rewrite Hbackends; vm_compute; reflexivity|].
  split; [reflexivity|].
  split; [vm_compute in Hshort; now injection Hshort as <-|].
  destruct (@buildHTTPRouteRule_wire RuleExamples.durations
              (NewPingoraBuilder "cluster.local") "ns" RuleExamples.ruleWithoutPort
              {| grr_Matches := []; grr_BackendRefs := [] |} Hint64)
    as (Hfails & _).
  apply Hfails. right. exists (RuleExamples.backendRef (Some "Service") None).
  split; [left; reflexivity|]. split; [now right | reflexivity].
Defined.

(* ===================================================================== *)
(** ** Event mappers: properties *)
(* ===================================================================== *)

Lemma fold_left_filter_map {A B : Type} (keep : A -> bool) (f : A -> B) (l : list A) :
  forall acc,
    fold_left (fun acc x => if keep x then acc ++ [f x] else acc) l acc
    = acc ++ map f (List.filter keep l).
Proof.
  induction l as [|x l IH]; intros acc; cbn; [now rewrite app_nil_r|].
  rewrite IH. destruct (keep x); cbn; [now rewrite <- app_assoc | reflexivity].
Qed.

Lemma fold_left_snoc_flat_map (rules : list RouteRule) :
  forall refs,
    fold_left
      (fun refs rule => fold_left (fun refs ref => refs ++ [ref]) (rr_BackendRefs rule) refs)
      rules refs
    = refs ++ flat_map rr_BackendRefs rules.
Proof.
  assert (forall (l acc : list BackendRef),
            fold_left (fun refs ref => refs ++ [ref]) l acc = acc ++ l) as Hsnoc.
  { induction l as [|x l IH]; intros acc; cbn; [now rewrite app_nil_r|].
    now rewrite IH, <- app_assoc. }
  induction rules as [|rule rules IH]; intros refs; cbn; [now rewrite app_nil_r|].
  now rewrite IH, Hsnoc, <- app_assoc.
Qed.

Lemma extract_fold (routeNamespace : string) (refs : list BackendRef) :
  forall (namespaces : list string) (seen : gmap string bool),
    (forall ns, default false (seen !! ns) = true <-> In ns namespaces) ->
    NoDup namespaces ->
    let out :=
      fst (fold_left
             (fun (state : list string * gmap string bool) ref =>
                let '(namespaces, seen) := state in
                match br_Namespace ref with
                | Some backendNs =>
                    if (negb (String.eqb backendNs routeNamespace)
                        && negb (default false (seen !! backendNs)))%bool
                    then (namespaces ++ [backendNs], <[backendNs := true]> seen)
                    else state
                | None => state
                end)
             refs (namespaces, seen)) in
    NoDup out
    /\ forall ns,
         In ns out
         <-> In ns namespaces
             \/ (ns <> routeNamespace
                 /\ exists ref, In ref refs /\ br_Namespace ref = Some ns).
Proof.
  induction refs as [|ref refs IH]; intros namespaces seen Hseen Hnd; cbn.
  - split; [exact Hnd|]. intros ns. split; [tauto|].
    intros [? | [_ (r & [] & _)]]. assumption.
  - destruct (br_Namespace ref) as [b|] eqn:Hb.
    + destruct (String.eqb_spec b routeNamespace) as [->|Hne]; cbn [negb andb].
      * destruct (IH namespaces seen Hseen Hnd) as [Hnd' Hin]. split; [exact Hnd'|].
        intros ns. rewrite Hin. split.
        -- intros [? | [Hns (r & Hr & Hrb)]]; [tauto|]. right. split; [exact Hns|].
           exists r. tauto.
        -- intros [? | [Hns (r & [<- | Hr] & Hrb)]]; [tauto | congruence |].
           right. split; [exact Hns|]. eauto.
      * destruct (default false (seen !! b)) eqn:Hsb; cbn [negb].
        -- destruct (IH namespaces seen Hseen Hnd) as [Hnd' Hin]. split; [exact Hnd'|].
           intros ns. rewrite Hin. split.
           ++ intros [? | [Hns (r & Hr & Hrb)]]; [tauto|]. right. split; [exact Hns|].
              exists r. tauto.
           ++ intros [? | [Hns (r & [<- | Hr] & Hrb)]]; [tauto | |].
              ** left. apply Hseen. congruence.
              ** right. split; [exact Hns|]. eauto.
        -- assert (~ In b namespaces) as Hfresh.
           { intros Hin. apply Hseen in Hin. congruence. }
           assert (forall ns, default false (<[b := true]> seen !! ns) = true
                              <-> In ns (namespaces ++ [b])) as Hseen'.
           { intros ns. rewrite in_app_iff. cbn.
             destruct (decide (b = ns)) as [<-|Hbn].
             - rewrite lookup_insert_eq. cbn. tauto.
             - rewrite lookup_insert_ne by exact Hbn. rewrite Hseen. intuition congruence. }
           assert (NoDup (namespaces ++ [b])) as Hnd1.
           { apply NoDup_app. split; [exact Hnd|]. split; [|apply NoDup_singleton].
             intros x Hx Hxb. apply list_elem_of_singleton in Hxb. subst x.
             apply Hfresh. now apply list_elem_of_In. }
           destruct (IH _ _ Hseen' Hnd1) as [Hnd' Hin]. split; [exact Hnd'|].
           intros ns. rewrite Hin, in_app_iff. cbn. split.
           ++ intros [[? | [<- | []]] | [Hns (r & Hr & Hrb)]]; [tauto | |].
              ** right. split; [exact Hne|]. exists ref. tauto.
              ** right. split; [exact Hns|]. exists r. tauto.
           ++ intros [? | [Hns (r & [<- | Hr] & Hrb)]]; [tauto | |].
              ** left. right. left. congruence.
              ** right. split; [exact Hns|]. eauto.
    + destruct (IH namespaces seen Hseen Hnd) as [Hnd' Hin]. split; [exact Hnd'|].
      intros ns. rewrite Hin. split.
      * intros [? | [Hns (r & Hr & Hrb)]]; [tauto|]. right. split; [exact Hns|].
        exists r. tauto.
      * intros [? | [Hns (r & [<- | Hr] & Hrb)]]; [tauto | congruence |].
        right. split; [exact Hns|]. eauto.
Qed.

(** The namespaces of other namespaces' backends of a route: those that a
    backend reference of some rule names and that differ from the route's
    own. *)
Lemma GetCrossNamespaceBackendNamespaces_In (route : WrappedRoute) (ns : string) :
  In ns (GetCrossNamespaceBackendNamespaces route)
  <-> ns <> wrapper.GetNamespace route
      /\ exists rule ref,
           In rule (r_Rules (wrapper.wrapped route))
           /\ In ref (rr_BackendRefs rule)
           /\ br_Namespace ref = Some ns.
Proof.
  unfold GetCrossNamespaceBackendNamespaces, extractCrossNamespaceBackends.
  rewrite fold_left_snoc_flat_map. cbn [app].
  destruct (extract_fold (r_Namespace (wrapper.wrapped route))
              (flat_map rr_BackendRefs (r_Rules (wrapper.wrapped route))) [] ∅)
    as [_ Hin].
  { intros x. rewrite lookup_empty. cbn. split; [discriminate | intros []]. }
  { apply NoDup_nil_2. }
  cbv zeta in Hin. rewrite Hin. unfold wrapper.GetNamespace. split.
  - intros [[] | [Hne (ref & Href & Hb)]]. split; [exact Hne|].
    apply in_flat_map in Href. destruct Href as (rule & Hrule & Href). eauto.
  - intros [Hne (rule & ref & Hrule & Href & Hb)]. right. split; [exact Hne|].
    exists ref. split; [|exact Hb]. apply in_flat_map. eauto.
Qed.

(** X14.  The cross-namespace backends of a route list every namespace
    once: the list has no duplicates, never holds the route's own
    namespace, and holds exactly the namespaces that the backend
    references name explicitly and that differ from the route's own; a
    reference with no namespace contributes nothing. *)
Theorem extractCrossNamespaceBackends_unique (routeNamespace : string)
    (refs : list BackendRef) :
  let namespaces := extractCrossNamespaceBackends routeNamespace refs in
  NoDup namespaces
  /\ ~ In routeNamespace namespaces
  /\ (forall ns,
        In ns namespaces
        <-> ns <> routeNamespace
            /\ exists ref, In ref refs /\ br_Namespace ref = Some ns)
  /\ ((forall ref, In ref refs ->
         br_Namespace ref = None \/ br_Namespace ref = Some routeNamespace) ->
      namespaces = []).
Proof.
  cbv zeta. unfold extractCrossNamespaceBackends.
  destruct (extract_fold routeNamespace refs [] ∅) as [Hnd Hin].
  { intros x. rewrite lookup_empty. cbn. split; [discriminate | intros []]. }
  { apply NoDup_nil_2. }
  cbv zeta in Hin, Hnd.
  assert (forall ns,
            In ns (fold_left
                     (fun (state : list string * gmap string bool) ref =>
                        let '(namespaces, seen) := state in
                        match br_Namespace ref with
                        | Some backendNs =>
                            if (negb (String.eqb backendNs routeNamespace)
                                && negb (default false (seen !! backendNs)))%bool
                            then (namespaces ++ [backendNs], <[backendNs := true]> seen)
                            else state
                        | None => state
                        end) refs ([], ∅)).1
            <-> ns <> routeNamespace
                /\ exists ref, In ref refs /\ br_Namespace ref = Some ns) as Hin'.
  { intros ns. rewrite Hin. cbn. tauto. }
  split; [exact Hnd|]. split; [|split; [exact Hin'|]].
  - intros Habs. apply Hin' in Habs. now destruct Habs as [Hne _].
  - intros Hall.
    destruct (fold_left _ refs ([], ∅)).1 as [|ns rest] eqn:Hout; [reflexivity|].
    exfalso. assert (In ns (ns :: rest)) as Hns by now left.
    apply Hin' in Hns. destruct Hns as [Hne (ref & Href & Hb)].
    destruct (Hall ref Href) as [Hnone | Hsame]; congruence.
Qed.

(** X15.  A change of a ReferenceGrant enqueues exactly the routes handed
    in that have a backend reference into the grant's namespace from
    another namespace, each at most once and in the order handed in; the
    entries of the grant are not read, and any other object enqueues
    nothing. *)
Theorem FindRoutesForReferenceGrant_requests `{LabelSelectorLib} (obj : Object)
    (routes : list WrappedRoute) :
  (forall req,
     In req (FindRoutesForReferenceGrant obj routes)
     <-> exists refGrant route rule ref,
           obj = ReferenceGrantObject refGrant
           /\ In route routes
           /\ req = requestFor route
           /\ rg_Namespace refGrant <> wrapper.GetNamespace route
           /\ In rule (r_Rules (wrapper.wrapped route))
           /\ In ref (rr_BackendRefs rule)
           /\ br_Namespace ref = Some (rg_Namespace refGrant))
  /\ sublist (FindRoutesForReferenceGrant obj routes) (map requestFor routes)
  /\ (forall refGrant refGrant',
        rg_Namespace refGrant = rg_Namespace refGrant' ->
        FindRoutesForReferenceGrant (ReferenceGrantObject refGrant) routes
        = FindRoutesForReferenceGrant (ReferenceGrantObject refGrant') routes).
Proof.
  split; [|split].
  - intros req. unfold FindRoutesForReferenceGrant.
    destruct obj as [| |refGrant| | | |];
      try (split; [intros [] | intros (g & ? & ? & ? & [=] & _)]).
    rewrite fold_left_filter_map. cbn [app]. rewrite in_map_iff. split.
    + intros (route & <- & Hin). apply filter_In in Hin. destruct Hin as [Hin Hex].
      apply existsb_exists in Hex. destruct Hex as (ns & Hns & Heq).
      apply String.eqb_eq in Heq. subst ns.
      apply GetCrossNamespaceBackendNamespaces_In in Hns.
      destruct Hns as [Hne (rule & ref & Hrule & Href & Hb)].
      exists refGrant, route, rule, ref. tauto.
    + intros (g & route & rule & ref & [= <-] & Hin & -> & Hne & Hrule & Href & Hb).
      exists route. split; [reflexivity|]. apply filter_In. split; [exact Hin|].
      apply existsb_exists. exists (rg_Namespace refGrant). split; [|apply String.eqb_refl].
      apply GetCrossNamespaceBackendNamespaces_In. eauto 10.
  - unfold FindRoutesForReferenceGrant.
    destruct obj as [| |refGrant| | | |]; try apply sublist_nil_l.
    rewrite fold_left_filter_map. cbn [app].
    induction routes as [|route routes IH]; cbn; [constructor|].
    destruct (existsb _ _); cbn; [now apply sublist_skip | now apply sublist_cons].
  - intros refGrant refGrant' Hns. unfold FindRoutesForReferenceGrant. now rewrite Hns.
Qed.

(** X16.  A change of a Gateway of another class, or of any object that is
    not a Gateway, enqueues nothing.  A change of a Gateway of the class
    enqueues exactly the routes handed in that have a parent reference
    with the Gateway's name, whatever the namespace and kind of the
    reference; each such route is enqueued once, however many of its parent
    references name the Gateway; and every route that the Gateway
    reconciler counts as attached to the Gateway is among them. *)
Theorem FindRoutesForGateway_requests `{LabelSelectorLib} (obj : Object)
    (gatewayClassName : string) (routes : list WrappedRoute) :
  (forall req,
     In req (FindRoutesForGateway obj gatewayClassName routes)
     <-> exists gateway route ref,
           obj = GatewayObject gateway
           /\ gw_GatewayClassName gateway = gatewayClassName
           /\ In route routes
           /\ req = requestFor route
           /\ In ref (wrapper.GetParentRefs route)
           /\ pr_Name ref = gw_Name gateway)
  /\ sublist (FindRoutesForGateway obj gatewayClassName routes) (map requestFor routes)
  /\ (forall gateway route ref,
        obj = GatewayObject gateway ->
        gw_GatewayClassName gateway = gatewayClassName ->
        In route routes ->
        In ref (wrapper.GetParentRefs route) ->
        refMatchesGateway ref gateway (wrapper.GetNamespace route) = true ->
        In (requestFor route) (FindRoutesForGateway obj gatewayClassName routes)).
Proof.
  assert (forall req,
            In req (FindRoutesForGateway obj gatewayClassName routes)
            <-> exists gateway route ref,
                  obj = GatewayObject gateway
                  /\ gw_GatewayClassName gateway = gatewayClassName
                  /\ In route routes
                  /\ req = requestFor route
                  /\ In ref (wrapper.GetParentRefs route)
                  /\ pr_Name ref = gw_Name gateway) as Hiff.
  { intros req. unfold FindRoutesForGateway.
    destruct obj as [gateway| | | | | |];
      try (split; [intros [] | intros (g & ? & ? & [=] & _)]).
    destruct (String.eqb_spec (gw_GatewayClassName gateway) gatewayClassName) as [Hc|Hc];
      cbn [negb].
    - rewrite fold_left_filter_map. cbn [app]. rewrite in_map_iff. split.
      + intros (route & <- & Hin). apply filter_In in Hin. destruct Hin as [Hin Hex].
        apply existsb_exists in Hex. destruct Hex as (ref & Href & Heq).
        apply String.eqb_eq in Heq. exists gateway, route, ref. tauto.
      + intros (g & route & ref & [= <-] & _ & Hin & -> & Href & Hname).
        exists route. split; [reflexivity|]. apply filter_In. split; [exact Hin|].
        apply existsb_exists. exists ref. split; [exact Href|]. now apply String.eqb_eq.
    - split; [intros [] | intros (g & ? & ? & [= <-] & ? & _); contradiction]. }
  split; [exact Hiff|]. split.
  - clear Hiff. unfold FindRoutesForGateway.
    destruct obj as [gateway| | | | | |]; try apply sublist_nil_l.
    destruct (negb _); [apply sublist_nil_l|].
    rewrite fold_left_filter_map. cbn [app].
    induction routes as [|route routes IH]; cbn; [constructor|].
    destruct (existsb _ _); cbn; [now apply sublist_skip | now apply sublist_cons].
  - intros gateway route ref Hobj Hclass Hin Href Hmatch. apply Hiff.
    exists gateway, route, ref. repeat split; try assumption.
    unfold refMatchesGateway in Hmatch.
    destruct (String.eqb_spec (pr_Name ref) (gw_Name gateway)); [assumption | discriminate].
Qed.

Lemma acceptedByParentRefs_eval `{LabelSelectorLib} (s : PingoraRouteSyncer)
    (route : WrappedRoute) (refs : list ParentReference) :
  forall (refIdx : nat) results hasAccepted,
    (evalParentRefs s (wrapper.GetRouteKind route) (wrapper.wrapped route) refs refIdx
       results hasAccepted).2
    = (hasAccepted
       || acceptedByParentRefs (s_Client s) (s_bindingValidator s) (s_GatewayClassName s)
            route refs)%bool.
Proof.
  induction refs as [|ref rest IH]; intros refIdx results hasAccepted;
    cbn [evalParentRefs acceptedByParentRefs].
  - cbn. now rewrite orb_false_r.
  - destruct (match pr_Kind ref with
              | Some k => negb (String.eqb k kindGateway)
              | None => false
              end); [apply IH|].
    unfold wrapper.GetNamespace.
    destruct (GetGateway _ _ _) as [gateway|]; [|apply IH].
    destruct (negb _); [apply IH|].
    unfold wrapper.GetName, wrapper.GetNamespace, wrapper.GetHostnames.
    destruct (ValidateBinding _ _ _) as [result|]; [|apply IH].
    rewrite IH. destruct (Accepted result); [now rewrite !orb_true_r | reflexivity].
Qed.

(** X17.  The test the reconcilers use to tell their routes gives the same
    answer as the syncer's selection of the routes to push: a route is
    accepted by a Gateway of the class exactly when it has a qualifying
    parent reference with an accepted binding result, for an HTTPRoute and
    for a GRPCRoute. *)
Theorem IsRouteAcceptedByGateway_hasAcceptedParent `{LabelSelectorLib}
    (s : PingoraRouteSyncer) (route : Route) :
  (IsRouteAcceptedByGateway (s_Client s) (s_bindingValidator s) (s_GatewayClassName s)
     (HTTPRouteWrapper route) = true
   <-> hasAcceptedParent s KindHTTPRoute route)
  /\ (IsRouteAcceptedByGateway (s_Client s) (s_bindingValidator s) (s_GatewayClassName s)
        (GRPCRouteWrapper route) = true
      <-> hasAcceptedParent s KindGRPCRoute route).
Proof.
  split.
  - rewrite <- hasAcceptedParent_eval. unfold IsRouteAcceptedByGateway.
    now rewrite (acceptedByParentRefs_eval s (HTTPRouteWrapper route)).
  - rewrite <- hasAcceptedParent_eval. unfold IsRouteAcceptedByGateway.
    now rewrite (acceptedByParentRefs_eval s (GRPCRouteWrapper route)).
Qed.

Lemma FilterAcceptedRoutes_relevant `{LabelSelectorLib} (s : PingoraRouteSyncer)
    (wrap : Route -> WrappedRoute) (routeKind : string) (items : list Route) :
  (forall route, wrapper.wrapped (wrap route) = route
                 /\ wrapper.GetRouteKind (wrap route) = routeKind) ->
  FilterAcceptedRoutes (s_Client s) (s_bindingValidator s) (s_GatewayClassName s)
    (map wrap items)
  = map (fun route => requestFor (wrap route))
      (fold_left (collectRoute s routeKind) items ([], ∅)).1.
Proof.
  intros Hwrap. unfold FilterAcceptedRoutes. rewrite fold_left_filter_map. cbn [app].
  destruct (collectRoute_fold s routeKind items ([], ∅)) as [-> _]. cbn [fst app].
  induction items as [|item items IH]; [reflexivity|].
  cbn [map List.filter]. unfold IsRouteAcceptedByGateway at 1.
  pose proof (acceptedByParentRefs_eval s (wrap item)
                (wrapper.GetParentRefs (wrap item)) 0 ∅ false) as Heval.
  unfold wrapper.GetParentRefs in Heval |- *.
  destruct (Hwrap item) as [Hw Hk]. rewrite Hw, Hk in Heval. cbn [orb] in Heval.
  rewrite Hw, <- Heval.
  destruct (evalParentRefs s routeKind item (r_ParentRefs item) 0 ∅ false).2; cbn [map];
    now rewrite IH.
Qed.

(** X18.  The routes a reconciler enqueues when the proxy's configuration
    changes are exactly the routes its syncer pushes, in the same order,
    provided both read the same cluster with the same validator and class
    name; when the routes cannot be listed, nothing is enqueued. *)
Theorem getAllRelevantRoutes_pushed `{LabelSelectorLib} (r : PingoraRouteReconciler)
    (s : PingoraRouteSyncer) :
  rt_Client r = s_Client s ->
  rt_bindingValidator r = s_bindingValidator s ->
  rt_GatewayClassName r = s_GatewayClassName s ->
  (rt_Type r = HTTPRouteType ->
   match getRelevantHTTPRoutes s with
   | Ok (relevant, _) =>
       getAllRelevantRoutes r = map (fun route => requestFor (HTTPRouteWrapper route)) relevant
   | Err _ => getAllRelevantRoutes r = []
   end)
  /\ (rt_Type r = GRPCRouteType ->
      match getRelevantGRPCRoutes s with
      | Ok (relevant, _) =>
          getAllRelevantRoutes r
          = map (fun route => requestFor (GRPCRouteWrapper route)) relevant
      | Err _ => getAllRelevantRoutes r = []
      end).
Proof.
  intros Hc Hv Hg. split; intros Ht.
  - unfold getAllRelevantRoutes, listRoutes, getRelevantHTTPRoutes.
    rewrite Ht, Hc, Hv, Hg.
    destruct (ListHTTPRoutes (s_Client s)) as [items|]; [|reflexivity].
    rewrite (FilterAcceptedRoutes_relevant s (wrapRoute HTTPRouteType) KindHTTPRoute items)
      by (intros route; split; reflexivity).
    now destruct (fold_left _ _ _).
  - unfold getAllRelevantRoutes, listRoutes, getRelevantGRPCRoutes.
    rewrite Ht, Hc, Hv, Hg.
    destruct (ListGRPCRoutes (s_Client s)) as [items|]; [|reflexivity].
    rewrite (FilterAcceptedRoutes_relevant s (wrapRoute GRPCRouteType) KindGRPCRoute items)
      by (intros route; split; reflexivity).
    now destruct (fold_left _ _ _).
Qed.

(* ===================================================================== *)
(** ** Further properties: the route syncer *)
(* ===================================================================== *)

Lemma pushes_app (before after : list Effect) :
  pushes (before ++ after) = pushes before ++ pushes after.
Proof. unfold pushes. apply flat_map_app. Qed.

Lemma pushes_Connect `{LabelSelectorLib} (s : PingoraRouteSyncer) :
  pushes (Connect s).1.2 = [].
Proof.
  unfold Connect.
  destruct (s_conn s); destruct (ResolveFromGatewayClassName _ _) as [resolved|];
    try destruct (CreateGRPCConnection _ _); reflexivity.
Qed.

(** The outcomes of [syncConnected] when a client handle is held: a list
    failure before anything is sent, or one push of the next version with
    the snapshot that was collected and built. *)
Lemma syncConnected_cases `{LabelSelectorLib} (s : PingoraRouteSyncer) :
  s_grpcClient s <> None ->
  let out := syncConnected s in
  (pushes (effects out) = []
   /\ effects out = []
   /\ syncer' out = s
   /\ syncResult out = None
   /\ RequeueAfter out = 0
   /\ ((exists err, getRelevantHTTPRoutes s = Err err
                    /\ syncErr out = Some (Wrap err "failed to list httproutes"))
       \/ (exists err, is_ok (getRelevantHTTPRoutes s) = true
                       /\ getRelevantGRPCRoutes s = Err err
                       /\ syncErr out = Some (Wrap err "failed to list grpcroutes"))))
  \/ exists req reply result,
       In (CallUpdateRoutes req reply) (effects out)
       /\ pushes (effects out) = [(to_uint64 (s_version s + 1), reply)]
       /\ s_version (syncer' out) = to_uint64 (s_version s + 1)
       /\ syncResult out = Some result
       /\ getRelevantHTTPRoutes s = Ok (HTTPRoutes result, HTTPRouteBindings result)
       /\ getRelevantGRPCRoutes s = Ok (GRPCRoutes result, GRPCRouteBindings result)
       /\ req_HttpRoutes req = map (BuildHTTPRoute (s_builder s)) (HTTPRoutes result)
       /\ req_GrpcRoutes req = map (BuildGRPCRoute (s_builder s)) (GRPCRoutes result)
       /\ req_Version req = to_uint64 (s_version s + 1)
       /\ (forall req' reply', In (CallUpdateRoutes req' reply') (effects out) ->
             req' = req /\ reply' = reply).
Proof.
  intros Hclient. cbv zeta. unfold syncConnected.
  destruct (getRelevantHTTPRoutes s) as [[httpRoutes httpBindings]|errH] eqn:Hhttp.
  2:{ left. cbn. repeat split; try reflexivity. left. eauto. }
  destruct (getRelevantGRPCRoutes s) as [[grpcRoutes grpcBindings]|errG] eqn:Hgrpc.
  2:{ left. cbn. repeat split; try reflexivity. right. eauto. }
  right. cbv zeta. change (s_grpcClient (set_version s _)) with (s_grpcClient s).
  change (s_conn (set_version s (to_uint64 (s_version s + 1)))) with (s_conn s).
  destruct (s_grpcClient s) as [grpcClient|]; [|contradiction].
  destruct (UpdateRoutes grpcClient _) as [resp|err] eqn:Hcall.
  - destruct (resp_Success resp); cbn [negb];
      eexists _, (Ok resp), _; cbn;
      (split; [left; reflexivity|]); do 8 (split; [reflexivity|]);
      intros req' reply' Hin; in_effects Hin; split; reflexivity.
  - destruct (s_conn s) as [conn|];
      eexists _, (Err err), _; cbn;
      (split; [left; reflexivity|]); do 8 (split; [reflexivity|]);
      intros req' reply' Hin; in_effects Hin; split; reflexivity.
Qed.

(** The two ways of a sync: it stops before the push, or it goes through
    [syncConnected] with a client handle. *)
Lemma SyncAllRoutes_cases `{LabelSelectorLib} (s : PingoraRouteSyncer) :
  (IsConnected s = false
   /\ (Connect s).2 <> None
   /\ SyncAllRoutes s
      = {| RequeueAfter := apiErrorRequeueDelay; syncResult := None; syncErr := None;
           syncer' := (Connect s).1.1;
           effects := (Connect s).1.2
                      ++ [RecordSyncDuration "error"; RecordSyncError "connection_failed"] |})
  \/ exists s1 connectEffects,
       ((IsConnected s = true /\ s1 = s /\ connectEffects = [])
        \/ (IsConnected s = false /\ Connect s = (s1, connectEffects, None)))
       /\ pushes connectEffects = []
       /\ s_grpcClient s1 <> None
       /\ s_version s1 = s_version s
       /\ s_builder s1 = s_builder s
       /\ SyncAllRoutes s = afterEffects connectEffects (syncConnected s1).
Proof.
  unfold SyncAllRoutes. destruct (IsConnected s) eqn:Hc; cbn [negb].
  - right. exists s, []. split; [now left|]. split; [reflexivity|].
    split; [unfold IsConnected in Hc; now destruct (s_grpcClient s)|].
    split; [reflexivity|]. split; [reflexivity|]. now destruct (syncConnected s).
  - pose proof (pushes_Connect s) as Hp.
    destruct (Connect s) as [[s1 connectEffects] [err|]] eqn:Hconnect; cbn in Hp |- *.
    + left. split; [reflexivity|]. split; [discriminate | reflexivity].
    + right. exists s1, connectEffects. split; [now right|]. split; [exact Hp|].
      pose proof (Connect_syncer _ _ _ Hconnect)
        as (Hv & _ & _ & _ & _ & resolved & conn & _ & _ & _ & Hclient).
      split; [rewrite Hclient; discriminate|]. split; [exact Hv|]. split; [|reflexivity].
      unfold Connect in Hconnect.
      destruct (ResolveFromGatewayClassName _ _); [|discriminate].
      destruct (CreateGRPCConnection _ _); [|discriminate].
      now injection Hconnect as <- _.
Qed.

(** X19.  The version counter: a sync either sends nothing, leaves the
    counter as it was and hands back no snapshot, or it sends exactly one
    update, carrying the successor of the counter modulo 2^64, sets the
    counter to that version whatever the answer, and hands back a
    snapshot. *)
Theorem SyncAllRoutes_version_counter `{LabelSelectorLib} (s : PingoraRouteSyncer) :
  let out := SyncAllRoutes s in
  (pushes (effects out) = []
   /\ s_version (syncer' out) = s_version s
   /\ syncResult out = None)
  \/ (exists reply,
        pushes (effects out) = [(to_uint64 (s_version s + 1), reply)]
        /\ s_version (syncer' out) = to_uint64 (s_version s + 1)
        /\ 0 <= s_version (syncer' out) < 18446744073709551616
        /\ syncResult out <> None).
Proof.
  cbv zeta.
  destruct (SyncAllRoutes_cases s)
    as [(Hc & Herr & ->) | (s1 & connectEffects & Hfrom & Hp & Hclient & Hv & _ & ->)].
  - left. cbn. rewrite pushes_app, pushes_Connect. split; [reflexivity|].
    split; [|reflexivity]. unfold Connect.
    destruct (ResolveFromGatewayClassName _ _); [|reflexivity].
    destruct (CreateGRPCConnection _ _); [|reflexivity].
    reflexivity.
  - cbn. rewrite pushes_app, Hp. cbn [app].
    destruct (syncConnected_cases s1 Hclient)
      as [(Hnone & _ & -> & Hres & _) | (req & reply & result & _ & Hpush & Hver & Hres & _)].
    + left. rewrite Hv. tauto.
    + right. exists reply. rewrite Hpush, Hver, Hres, Hv.
      split; [reflexivity|]. split; [reflexivity|]. split; [|discriminate].
      unfold to_uint64. apply Z.mod_pos_bound. lia.
Qed.

(** X20.  What is pushed is the snapshot handed back: the update a sync
    sends holds the wire routes of the HTTPRoutes and of the GRPCRoutes of
    its snapshot, one for one and in the same order, and a sync sends no
    second update. *)
Theorem SyncAllRoutes_pushes_snapshot `{LabelSelectorLib} (s : PingoraRouteSyncer)
    (req : UpdateRoutesRequest) (reply : result UpdateRoutesResponse) :
  In (CallUpdateRoutes req reply) (effects (SyncAllRoutes s)) ->
  (exists result,
     syncResult (SyncAllRoutes s) = Some result
     /\ req_HttpRoutes req = map (BuildHTTPRoute (s_builder s)) (HTTPRoutes result)
     /\ req_GrpcRoutes req = map (BuildGRPCRoute (s_builder s)) (GRPCRoutes result))
  /\ (forall req' reply',
        In (CallUpdateRoutes req' reply') (effects (SyncAllRoutes s)) ->
        req' = req /\ reply' = reply).
Proof.
  intros Hin.
  destruct (SyncAllRoutes_cases s)
    as [(Hc & Herr & Heq) | (s1 & connectEffects & Hfrom & Hp & Hclient & Hv & Hb & Heq)].
  - exfalso. rewrite Heq in Hin. cbn in Hin. apply in_app_iff in Hin.
    destruct Hin as [Hin | Hin]; [|in_effects Hin].
    pose proof (Connect_effects s) as [Hno _]. now apply Hno in Hin.
  - assert (forall req' reply',
              In (CallUpdateRoutes req' reply') (effects (SyncAllRoutes s)) ->
              In (CallUpdateRoutes req' reply') (effects (syncConnected s1))) as Hsame.
    { intros req' reply'. rewrite Heq. cbn. rewrite in_app_iff. intros [Hin' | Hin'];
        [|exact Hin']. exfalso.
      assert (In (req_Version req', reply') (pushes connectEffects)) as Habs.
      { unfold pushes. apply in_flat_map. eexists. split; [exact Hin'|]. now left. }
      now rewrite Hp in Habs. }
    destruct (syncConnected_cases s1 Hclient)
      as [(_ & Hnone & _) | (req0 & reply0 & result & _ & _ & _ & Hres & _ & _ & Hh & Hg
                               & _ & Huniq)].
    + apply Hsame in Hin. now rewrite Hnone in Hin.
    + destruct (Huniq _ _ (Hsame _ _ Hin)) as [-> ->]. split.
      * exists result. rewrite Heq. cbn. rewrite <- Hb. tauto.
      * intros req' reply' Hin'. now apply Huniq, Hsame.
Qed.

Lemma SyncAllRoutes_pushes_snapshot_witness :
  let s := ExampleControllers.syncer ExampleControllers.echoProxy in
  exists req reply result,
    In (CallUpdateRoutes req reply) (effects (SyncAllRoutes s))
    /\ syncResult (SyncAllRoutes s) = Some result
    /\ req_HttpRoutes req = map (BuildHTTPRoute (s_builder s)) (HTTPRoutes result)
    /\ List.length (req_HttpRoutes req) = 1%nat.
Proof.
  cbv zeta.
  destruct (pushes (effects (SyncAllRoutes
                               (ExampleControllers.syncer ExampleControllers.echoProxy))))
    as [|[version reply] rest] eqn:Hp; [vm_compute in Hp; discriminate|].
  assert (In (version, reply)
            (pushes (effects (SyncAllRoutes
                                (ExampleControllers.syncer ExampleControllers.echoProxy)))))
    as Hin by (rewrite Hp; now left).
  unfold pushes in Hin. apply in_flat_map in Hin. destruct Hin as (effect & Hin & Heff).
  destruct effect as [| | | | | | |req reply']; try (now destruct Heff).
  destruct Heff as [[= _ <-] | []].
  destruct (SyncAllRoutes_pushes_snapshot _ req reply' Hin)
    as [(result & Hres & Hhttp & _) _].
  exists req, reply', result. split; [exact Hin|]. split; [exact Hres|].
  split; [exact Hhttp|]. rewrite Hhttp, length_map.
  vm_compute in Hres. injection Hres as <-. reflexivity.
Defined.

(** X21.  A sync that cannot get as far as the push.  When no client
    handle is held and the connection cannot be made, the sync asks for a
    requeue after 30 seconds and reports no error and no snapshot, and the
    syncer stays without a client handle.  When a connected syncer cannot
    list the HTTPRoutes, or the GRPCRoutes after the HTTPRoutes, the sync
    reports the list error, wrapped twice with the same message, with no
    requeue, no snapshot and no metric, and leaves the syncer as it is. *)
Theorem SyncAllRoutes_stops_before_push `{LabelSelectorLib} (s : PingoraRouteSyncer) :
  let out := SyncAllRoutes s in
  (IsConnected s = false ->
   (is_ok (ResolveFromGatewayClassName (s_ConfigResolver s) (s_GatewayClassName s)) = false
    \/ exists resolved,
         ResolveFromGatewayClassName (s_ConfigResolver s) (s_GatewayClassName s)
           = Ok resolved
         /\ is_ok (CreateGRPCConnection (s_ConfigResolver s) resolved) = false) ->
   RequeueAfter out = 30 * Second
   /\ syncErr out = None
   /\ syncResult out = None
   /\ pushes (effects out) = []
   /\ In (RecordSyncError "connection_failed") (effects out)
   /\ syncer' out = s)
  /\ (forall err,
        IsConnected s = true ->
        ListHTTPRoutes (s_Client s) = Err err ->
        out = {| RequeueAfter := 0; syncResult := None;
                 syncErr := Some (Wrap (Wrap err "failed to list httproutes")
                                    "failed to list httproutes");
                 syncer' := s; effects := [] |})
  /\ (forall items err,
        IsConnected s = true ->
        ListHTTPRoutes (s_Client s) = Ok items ->
        ListGRPCRoutes (s_Client s) = Err err ->
        out = {| RequeueAfter := 0; syncResult := None;
                 syncErr := Some (Wrap (Wrap err "failed to list grpcroutes")
                                    "failed to list grpcroutes");
                 syncer' := s; effects := [] |}).
Proof.
  cbv zeta. split; [|split].
  - intros Hc Hfail. unfold SyncAllRoutes. rewrite Hc. cbn [negb].
    assert (exists connectEffects err,
              Connect s = (s, connectEffects, Some err)
              /\ pushes connectEffects = []) as (connectEffects & err & Hconnect & Hp).
    { pose proof (pushes_Connect s) as Hp. unfold Connect in Hp |- *.
      destruct Hfail as [Hres | (resolved & Hres & Hdial)].
      - destruct (ResolveFromGatewayClassName _ _) as [resolved|e]; [discriminate|].
        eauto.
      - rewrite Hres in Hp |- *.
        destruct (CreateGRPCConnection _ _) as [conn|e]; [discriminate|]. eauto. }
    rewrite Hconnect. cbn. rewrite pushes_app, Hp. repeat split; try reflexivity.
    apply in_app_iff. right. right. now left.
  - intros err Hc Hlist. unfold SyncAllRoutes. rewrite Hc. cbn [negb].
    unfold syncConnected, getRelevantHTTPRoutes. now rewrite Hlist.
  - intros items err Hc Hhttp Hgrpc. unfold SyncAllRoutes. rewrite Hc. cbn [negb].
    unfold syncConnected, getRelevantHTTPRoutes, getRelevantGRPCRoutes.
    rewrite Hhttp, Hgrpc. now destruct (fold_left _ _ _).
Qed.

(** X22.  The two handles of the syncer are held together.  A new syncer
    holds none; [Connect], [Close] and a sync keep a client handle from
    being held without its connection.  [Connect] first closes the
    connection it finds, and when it then fails it leaves the syncer as it
    was; [Close] leaves the syncer not connected, closes a connection at
    most once, and a second [Close] does nothing. *)
Theorem syncer_handles `{LabelSelectorLib} (s : PingoraRouteSyncer) :
  handlesConsistent s ->
  handlesConsistent (Connect s).1.1
  /\ handlesConsistent (Close s).1
  /\ handlesConsistent (syncer' (SyncAllRoutes s))
  /\ (forall conn, s_conn s = Some conn ->
        exists rest, (Connect s).1.2 = ConnClose conn :: rest)
  /\ ((Connect s).2 <> None -> (Connect s).1.1 = s)
  /\ ((Connect s).2 = None -> IsConnected (Connect s).1.1 = true)
  /\ IsConnected (Close s).1 = false
  /\ s_conn (Close s).1 = None
  /\ (Close s).2 = match s_conn s with Some conn => [ConnClose conn] | None => [] end
  /\ Close (Close s).1 = ((Close s).1, []).
Proof.
  intros Hs.
  split; [now apply handlesConsistent_Connect|].
  split; [now apply handlesConsistent_Close|].
  split; [now apply handlesConsistent_SyncAllRoutes|].
  split; [|split; [|split]].
  - intros conn Hconn. unfold Connect. rewrite Hconn.
    destruct (ResolveFromGatewayClassName _ _) as [resolved|]; [|cbn; eauto].
    destruct (CreateGRPCConnection _ _); cbn; eauto.
  - unfold Connect. destruct (ResolveFromGatewayClassName _ _) as [resolved|]; [|reflexivity].
    destruct (CreateGRPCConnection _ _); [intros Hn; now contradiction Hn | reflexivity].
  - unfold Connect. destruct (ResolveFromGatewayClassName _ _) as [resolved|]; [|discriminate].
    destruct (CreateGRPCConnection _ _); [reflexivity | discriminate].
  - unfold Close, IsConnected, handlesConsistent in *.
    destruct (s_conn s) as [conn|] eqn:Hconn; cbn.
    + repeat split; reflexivity.
    + rewrite Hconn. destruct (s_grpcClient s) as [grpcClient|] eqn:Hclient.
      * exfalso. now apply Hs.
      * repeat split; reflexivity.
Qed.

Lemma syncer_handles_witness :
  let s := (Connect (ExampleControllers.syncer ExampleControllers.echoProxy)).1.1 in
  IsConnected s = true
  /\ IsConnected (Close s).1 = false
  /\ Close (Close s).1 = ((Close s).1, []).
Proof.
  cbv zeta. split; [reflexivity|].
  assert (handlesConsistent
            (Connect (ExampleControllers.syncer ExampleControllers.echoProxy)).1.1) as Hs.
  { vm_compute. discriminate. }
  destruct (syncer_handles _ Hs) as (_ & _ & _ & _ & _ & _ & Hclosed & _ & _ & Hidem).
  split; [exact Hclosed | exact Hidem].
Defined.

(* ===================================================================== *)
(** ** Route reconcilers: properties *)
(* ===================================================================== *)

Lemma parentStatuses_step `{LabelSelectorLib} (r : PingoraRouteReconciler)
    (freshRoute : Route) (bindingInfo : routeBindingInfo) (syncErr : option error)
    (ref : ParentReference) (rest : list ParentReference) (refIdx : nat)
    (parents : list RouteParentStatus) :
  parentStatuses r freshRoute bindingInfo syncErr (ref :: rest) refIdx parents
  = parentStatuses r freshRoute bindingInfo syncErr rest (S refIdx)
      (parents ++ match parentStatusFor r freshRoute bindingInfo syncErr refIdx ref with
                  | Some parentStatus => [parentStatus]
                  | None => []
                  end).
Proof.
  cbn [parentStatuses]. unfold parentStatusFor, parentQualifies.
  destruct (pr_Kind ref) as [k|] eqn:Hk.
  - destruct (String.eqb k kindGateway); cbn [negb andb]; [|now rewrite app_nil_r].
    replace (match pr_Namespace ref with Some ns => ns | None => r_Namespace freshRoute end)
      with (default (r_Namespace freshRoute) (pr_Namespace ref))
      by (now destruct (pr_Namespace ref)).
    destruct (GetGateway _ _ _) as [gateway|]; [|now rewrite app_nil_r].
    destruct (String.eqb _ _); cbn [negb]; [|now rewrite app_nil_r].
    unfold acceptedCondition, resolvedParentRef, resolvedRefsCondition. rewrite Hk.
    destruct syncErr as [err|]; [reflexivity|].
    destruct (bindingResults bindingInfo !! refIdx) as [b|]; [|reflexivity].
    now destruct (Accepted b).
  - cbn [andb].
    replace (match pr_Namespace ref with Some ns => ns | None => r_Namespace freshRoute end)
      with (default (r_Namespace freshRoute) (pr_Namespace ref))
      by (now destruct (pr_Namespace ref)).
    destruct (GetGateway _ _ _) as [gateway|]; [|now rewrite app_nil_r].
    destruct (String.eqb _ _); cbn [negb]; [|now rewrite app_nil_r].
    unfold acceptedCondition, resolvedParentRef, resolvedRefsCondition. rewrite Hk.
    destruct syncErr as [err|]; [reflexivity|].
    destruct (bindingResults bindingInfo !! refIdx) as [b|]; [|reflexivity].
    now destruct (Accepted b).
Qed.

(** The parent statuses are the statuses of the qualifying parent
    references, taken in order with their indices. *)
Lemma parentStatuses_In `{LabelSelectorLib} (r : PingoraRouteReconciler)
    (freshRoute : Route) (bindingInfo : routeBindingInfo) (syncErr : option error)
    (refs : list ParentReference) :
  forall (refIdx : nat) (parents : list RouteParentStatus),
    exists added,
      parentStatuses r freshRoute bindingInfo syncErr refs refIdx parents = parents ++ added
      /\ map ps_ParentRef added
         = map (resolvedParentRef (r_Namespace freshRoute))
             (List.filter
                (parentQualifies (rt_Client r) (rt_GatewayClassName r)
                   (r_Namespace freshRoute)) refs)
      /\ (forall parentStatus,
            In parentStatus added
            <-> exists (j : nat) ref,
                  refs !! j = Some ref
                  /\ parentStatusFor r freshRoute bindingInfo syncErr (refIdx + j) ref
                     = Some parentStatus).
Proof.
  induction refs as [|ref rest IH]; intros refIdx parents.
  - exists []. cbn. split; [now rewrite app_nil_r|]. split; [reflexivity|].
    intros p. split; [intros [] | intros (j & ref & Hj & _); discriminate].
  - rewrite parentStatuses_step.
    destruct (IH (S refIdx)
                (parents ++ match parentStatusFor r freshRoute bindingInfo syncErr refIdx ref
                            with Some p => [p] | None => [] end))
      as (added & Heq & Hmap & Hin).
    exists (match parentStatusFor r freshRoute bindingInfo syncErr refIdx ref
            with Some p => [p] | None => [] end ++ added).
    split; [now rewrite Heq, <- app_assoc|]. split.
    + cbn [List.filter]. unfold parentStatusFor at 1.
      destruct (parentQualifies _ _ _ ref); cbn; now rewrite Hmap.
    + intros p. rewrite in_app_iff, Hin. split.
      * intros [Hp | (j & ref' & Hj & Hp)].
        -- exists 0%nat, ref. rewrite Nat.add_0_r. split; [reflexivity|].
           destruct (parentStatusFor r freshRoute bindingInfo syncErr refIdx ref);
             [destruct Hp as [-> | []]; reflexivity | destruct Hp].
        -- exists (S j), ref'. split; [exact Hj|]. now rewrite Nat.add_succ_r.
      * intros (j & ref' & Hj & Hp). destruct j as [|j].
        -- left. cbn in Hj. injection Hj as <-. rewrite Nat.add_0_r in Hp. rewrite Hp.
           now left.
        -- right. exists j, ref'. split; [exact Hj|]. now rewrite Nat.add_succ_r in Hp.
Qed.

(** X23.  The parent statuses written for a route list the parent
    references the controller answers for (kind Gateway or none, Gateway
    fetched and of the class), in order and each with its namespace filled
    in; every entry carries the controller name and exactly two
    conditions, Accepted and then ResolvedRefs, the latter always true;
    and when the sync failed every Accepted condition is false with reason
    Pending and the text of the sync error, whatever the binding result. *)
Theorem parentStatuses_entries `{LabelSelectorLib} (r : PingoraRouteReconciler)
    (freshRoute : Route) (bindingInfo : routeBindingInfo) (syncErr : option error) :
  let parents :=
    parentStatuses r freshRoute bindingInfo syncErr (r_ParentRefs freshRoute) 0 [] in
  map ps_ParentRef parents
  = map (resolvedParentRef (r_Namespace freshRoute))
      (List.filter
         (parentQualifies (rt_Client r) (rt_GatewayClassName r) (r_Namespace freshRoute))
         (r_ParentRefs freshRoute))
  /\ (forall parentStatus,
        In parentStatus parents ->
        ps_ControllerName parentStatus = rt_ControllerName r
        /\ exists accepted,
             ps_Conditions parentStatus = [accepted; resolvedRefsCondition]
             /\ c_Type accepted = RouteConditionAccepted
             /\ (forall err, syncErr = Some err ->
                   c_Status accepted = ConditionFalse
                   /\ c_Reason accepted = RouteReasonPending
                   /\ c_Message accepted = Error err)
             /\ (c_Status accepted = ConditionTrue ->
                 c_Reason accepted = RouteReasonAccepted
                 /\ c_Message accepted = pingoraRouteAcceptedMessage)).
Proof.
  cbv zeta.
  destruct (parentStatuses_In r freshRoute bindingInfo syncErr (r_ParentRefs freshRoute) 0 [])
    as (added & -> & Hmap & Hin).
  cbn [app]. split; [exact Hmap|].
  intros p Hp. apply Hin in Hp. destruct Hp as (j & ref & _ & Hp).
  unfold parentStatusFor in Hp. destruct (parentQualifies _ _ _ ref); [|discriminate].
  set (binding := bindingResults bindingInfo !! (0 + j)%nat) in Hp. clearbody binding.
  injection Hp as <-. cbn [ps_ControllerName ps_Conditions]. split; [reflexivity|].
  exists (acceptedCondition syncErr binding). split; [reflexivity|].
  unfold acceptedCondition.
  destruct syncErr as [err|].
  - cbn. split; [reflexivity|]. split; [|discriminate]. intros e [= <-]. tauto.
  - destruct binding as [b|].
    + destruct (Accepted b); cbn; (split; [reflexivity|]); (split; [discriminate|]);
        [tauto | discriminate].
    + cbn. split; [reflexivity|]. split; [discriminate | tauto].
Qed.

(** X24.  After a sync without error, the Accepted condition of each
    parent the controller answers for follows the binding result the
    syncer recorded for that parent reference: true with reason Accepted
    when the result is accepted, false with the result's reason and
    message when it is rejected, and true with reason Accepted also when
    the binding evaluation itself failed, since no result is recorded
    then. *)
Theorem parentStatuses_after_sync `{LabelSelectorLib} (r : PingoraRouteReconciler)
    (s : PingoraRouteSyncer) (routeKind : string) (route : Route) (refIdx : nat)
    (ref : ParentReference) :
  rt_Client r = s_Client s ->
  rt_GatewayClassName r = s_GatewayClassName s ->
  r_ParentRefs route !! refIdx = Some ref ->
  parentQualifies (rt_Client r) (rt_GatewayClassName r) (r_Namespace route) ref = true ->
  let parents :=
    parentStatuses r route (recordedBindings s routeKind route) None
      (r_ParentRefs route) 0 [] in
  exists gateway accepted,
    GetGateway (rt_Client r) (default (r_Namespace route) (pr_Namespace ref)) (pr_Name ref)
      = Ok gateway
    /\ In {| ps_ParentRef := resolvedParentRef (r_Namespace route) ref;
             ps_ControllerName := rt_ControllerName r;
             ps_Conditions := [accepted; resolvedRefsCondition] |} parents
    /\ match ValidateBinding (s_bindingValidator s) gateway
               (routeInfoFor routeKind route ref) with
       | Ok bindingResult =>
           if Accepted bindingResult then
             c_Status accepted = ConditionTrue
             /\ c_Reason accepted = RouteReasonAccepted
             /\ c_Message accepted = pingoraRouteAcceptedMessage
           else
             c_Status accepted = ConditionFalse
             /\ c_Reason accepted = Reason bindingResult
             /\ c_Message accepted = Message bindingResult
       | Err _ =>
           c_Status accepted = ConditionTrue
           /\ c_Reason accepted = RouteReasonAccepted
           /\ c_Message accepted = pingoraRouteAcceptedMessage
       end.
Proof.
  intros Hc Hg Href Hq. cbv zeta.
  destruct (parentStatuses_In r route (recordedBindings s routeKind route) None
              (r_ParentRefs route) 0 []) as (added & -> & _ & Hin).
  cbn [app].
  assert (bindingResults (recordedBindings s routeKind route) !! refIdx
          = bindingOf s routeKind route ref) as Hrec.
  { unfold recordedBindings. cbn [bindingResults].
    pose proof (evalParentRefs_results s routeKind route (r_ParentRefs route) 0 ∅ false
                  (fun i _ => lookup_empty i) refIdx) as Hres.
    cbn [Nat.add] in Hres.
    destruct (bindingOf s routeKind route ref) as [b|] eqn:Hb.
    - apply Hres. eauto.
    - destruct ((evalParentRefs s routeKind route (r_ParentRefs route) 0 ∅ false).1
                  !! refIdx) as [b|] eqn:Hl; [|reflexivity].
      destruct (proj1 (Hres b) eq_refl) as (ref' & Href' & Hb'). congruence. }
  pose proof Hq as Hq'. unfold parentQualifies in Hq'. apply andb_true_iff in Hq'.
  destruct Hq' as [Hkind Hgw].
  destruct (GetGateway (rt_Client r) _ _) as [gateway|] eqn:Hget; [|discriminate].
  apply String.eqb_eq in Hgw.
  exists gateway, (acceptedCondition None (bindingOf s routeKind route ref)).
  split; [reflexivity|]. split.
  - apply Hin. exists refIdx, ref. split; [exact Href|]. cbn [Nat.add].
    unfold parentStatusFor. now rewrite Hq, Hrec.
  - unfold bindingOf. rewrite <- Hc, Hget, <- Hg, Hgw, String.eqb_refl. cbn [negb].
    assert (match pr_Kind ref with
            | Some k => negb (String.eqb k kindGateway)
            | None => false
            end = false) as ->.
    { destruct (pr_Kind ref); [now rewrite Hkind | reflexivity]. }
    destruct (ValidateBinding _ _ _) as [b|]; cbn.
    + destruct (Accepted b); cbn; repeat split; reflexivity.
    + repeat split; reflexivity.
Qed.

Lemma parentStatuses_after_sync_witness :
  let r := ReconcilerExamples.reconciler Examples.gwBadSelector in
  let s := ReconcilerExamples.syncer Examples.gwBadSelector in
  let route := ReconcilerExamples.twoParents in
  is_ok (ValidateBinding (s_bindingValidator s) Examples.gwBadSelector
           (routeInfoFor KindHTTPRoute route (Examples.parentRef None))) = false
  /\ exists accepted,
       In {| ps_ParentRef := resolvedParentRef "ns" (Examples.parentRef None);
             ps_ControllerName := rt_ControllerName r;
             ps_Conditions := [accepted; resolvedRefsCondition] |}
         (parentStatuses r route (recordedBindings s KindHTTPRoute route) None
            (r_ParentRefs route) 0 [])
       /\ c_Status accepted = ConditionTrue.
Proof.
  cbv zeta. split; [reflexivity|].
  destruct (parentStatuses_after_sync
              (ReconcilerExamples.reconciler Examples.gwBadSelector)
              (ReconcilerExamples.syncer Examples.gwBadSelector)
              KindHTTPRoute ReconcilerExamples.twoParents 0 (Examples.parentRef None)
              eq_refl eq_refl eq_refl eq_refl)
    as (gateway & accepted & Hget & Hin & Hcond).
  exists accepted. split; [exact Hin|].
  vm_compute in Hget. injection Hget as <-.
  vm_compute in Hcond. apply Hcond.
Defined.






Lemma SyncAllRoutes_requeue `{LabelSelectorLib} (s : PingoraRouteSyncer) :
  RequeueAfter (SyncAllRoutes s) = 0 \/ RequeueAfter (SyncAllRoutes s) = apiErrorRequeueDelay.
Proof.
  assert (forall s1, RequeueAfter (syncConnected s1) = 0
                     \/ RequeueAfter (syncConnected s1) = apiErrorRequeueDelay) as Hconnected.
  { intros s1. unfold syncConnected.
    destruct (getRelevantHTTPRoutes s1) as [[httpRoutes httpBindings]|]; [|now left].
    destruct (getRelevantGRPCRoutes s1) as [[grpcRoutes grpcBindings]|]; [|now left].
    cbv zeta. change (s_grpcClient (set_version s1 _)) with (s_grpcClient s1).
    change (s_conn (set_version s1 (to_uint64 (s_version s1 + 1)))) with (s_conn s1).
    destruct (s_grpcClient s1) as [grpcClient|]; [|now right].
    destruct (UpdateRoutes grpcClient _) as [resp|err].
    - destruct (resp_Success resp); cbn; [now left | now right].
    - destruct (s_conn s1); cbn; now right. }
  unfold SyncAllRoutes. destruct (negb (IsConnected s)); [|apply Hconnected].
  destruct (Connect s) as [[s1 connectEffects] [err|]]; cbn; [now right | apply Hconnected].
Qed.

Lemma syncAndUpdateStatus_requeue `{LabelSelectorLib} (r : PingoraRouteReconciler)
    (syncer : PingoraRouteSyncer) :
  rec_RequeueAfter (syncAndUpdateStatus r syncer) = 0
  \/ rec_RequeueAfter (syncAndUpdateStatus r syncer) = apiErrorRequeueDelay.
Proof.
  unfold syncAndUpdateStatus.
  pose proof (SyncAllRoutes_requeue syncer) as Hsync.
  destruct (match syncResult (SyncAllRoutes syncer) with
            | Some res => updateStatuses r res (syncErr (SyncAllRoutes syncer))
            | None => (None, [])
            end) as [statusUpdateErr writes].
  destruct (syncErr (SyncAllRoutes syncer));
    [destruct (RequeueAfter (SyncAllRoutes syncer) =? 0)|];
    try destruct statusUpdateErr; cbn; tauto.
Qed.

(** X26.  The startup barrier and the gate of a reconcile.  Until the
    startup sync has returned, a reconcile touches nothing and asks to be
    called again after one second.  Afterwards it runs the sync and the
    status updates exactly when the route is gone or is accepted by a
    Gateway of the class: in both cases the reconcile is that run, and in
    no other case is anything sent or written; a route that no such
    Gateway accepts is left alone without a sync, and a failed fetch is
    returned as an error without a sync; the requeue is then 0 or 30
    seconds, never the startup delay.  The startup sync is that same run;
    it always returns no error and sets the flag, whatever the sync did. *)
Theorem Reconcile_gate `{LabelSelectorLib} (r : PingoraRouteReconciler)
    (startupComplete : bool) (syncer : PingoraRouteSyncer) (req : Request) :
  let out := Reconcile r startupComplete syncer req in
  let fetched := GetRoute (rt_Routes r) (rq_Namespace req) (rq_Name req) in
  let untouched := fun (requeueAfter : Z) (err : option error) =>
    {| rec_RequeueAfter := requeueAfter; rec_Err := err; rec_syncer := syncer;
       rec_effects := []; rec_writes := [] |} in
  (startupComplete = false -> out = untouched (1 * Second) None)
  /\ (forall err,
        startupComplete = true -> fetched = Err err ->
        IsNotFound (rt_Routes r) err = true ->
        out = syncAndUpdateStatus r syncer)
  /\ (forall route,
        startupComplete = true -> fetched = Ok route ->
        isRouteForOurGateway r route = true ->
        out = syncAndUpdateStatus r syncer)
  /\ (rec_effects out <> [] \/ rec_writes out <> [] ->
      startupComplete = true
      /\ out = syncAndUpdateStatus r syncer
      /\ ((exists err, fetched = Err err /\ IsNotFound (rt_Routes r) err = true)
          \/ (exists route, fetched = Ok route /\ isRouteForOurGateway r route = true)))
  /\ (forall route,
        startupComplete = true -> fetched = Ok route ->
        isRouteForOurGateway r route = false ->
        out = untouched 0 None)
  /\ (forall err,
        startupComplete = true -> fetched = Err err ->
        IsNotFound (rt_Routes r) err = false ->
        out = untouched 0 (Some (Wrap err ("failed to get " +:+ resourceName (rt_Type r)))))
  /\ (startupComplete = true ->
      rec_RequeueAfter out = 0 \/ rec_RequeueAfter out = 30 * Second)
  /\ Start r syncer = (None, true, syncAndUpdateStatus r syncer).
Proof.
  cbv zeta. unfold Reconcile.
  split; [intros ->; reflexivity|].
  split; [intros err -> -> ->; reflexivity|].
  split; [intros route -> -> ->; reflexivity|].
  split; [|split; [|split; [|split; [|reflexivity]]]].
  - destruct startupComplete; cbn [negb]; [|cbn; intros [Hn | Hn]; now contradiction Hn].
    destruct (GetRoute _ _ _) as [route|err].
    + destruct (isRouteForOurGateway r route) eqn:Hours; cbn [negb];
        [|cbn; intros [Hn | Hn]; now contradiction Hn].
      intros _. split; [reflexivity|]. split; [reflexivity|]. right. eauto.
    + destruct (IsNotFound (rt_Routes r) err) eqn:Hnf;
        [|cbn; intros [Hn | Hn]; now contradiction Hn].
      intros _. split; [reflexivity|]. split; [reflexivity|]. left. eauto.
  - intros route -> -> ->. reflexivity.
  - intros err -> -> ->. reflexivity.
  - intros ->. cbn [negb].
    destruct (GetRoute _ _ _) as [route|err].
    + destruct (isRouteForOurGateway r route); cbn [negb];
        [apply syncAndUpdateStatus_requeue | now left].
    + destruct (IsNotFound (rt_Routes r) err);
        [apply syncAndUpdateStatus_requeue | now left].
Qed.

(* ===================================================================== *)
(** ** Config resolver and its watches: properties *)
(* ===================================================================== *)

Lemma resolveConfig_Ok (r : config.PingoraResolver) (pingoraConfig : PingoraConfig)
    (resolved : config.ResolvedPingoraConfig) :
  config.resolveConfig r pingoraConfig = Ok resolved ->
  let spec := pc_Spec pingoraConfig in
  pcs_Address spec <> ""
  /\ config.Address resolved = pcs_Address spec
  /\ config.ConfigName resolved = pc_Name pingoraConfig
  /\ config.TLSEnabled resolved = IsTLSEnabled spec
  /\ config.ConnectTimeout resolved = GetConnectTimeout spec * Second
  /\ config.RequestTimeout resolved = GetRequestTimeout spec * Second
  /\ config.KeepaliveTime resolved = GetKeepaliveTime spec * Second
  /\ config.MaxRetries resolved = GetMaxRetries spec
  /\ config.RetryBackoff resolved = GetRetryBackoff spec * config.Millisecond
  /\ (IsTLSEnabled spec = false ->
      config.TLSCert resolved = [] /\ config.TLSKey resolved = []
      /\ config.TLSCA resolved = []
      /\ config.TLSInsecureSkipVerify resolved = false
      /\ config.TLSServerName resolved = "").
Proof.
  unfold config.resolveConfig. cbv zeta.
  destruct (String.eqb_spec (pcs_Address (pc_Spec pingoraConfig)) "") as [|Hne];
    [discriminate|].
  destruct (IsTLSEnabled (pc_Spec pingoraConfig)) eqn:Htls.
  - destruct (pcs_TLS (pc_Spec pingoraConfig)) as [tls|].
    + destruct (tls_SecretRef tls) as [secretRef|].
      * destruct (config.getSecret r _ _) as [secret|]; [|discriminate].
        intros [= <-]. cbn. repeat split; try reflexivity; try assumption; discriminate.
      * intros [= <-]. cbn. repeat split; try reflexivity; try assumption; discriminate.
    + intros [= <-]. cbn. repeat split; try reflexivity; try assumption; discriminate.
  - intros [= <-]. cbn. repeat split; try reflexivity; try assumption.
Qed.

(** X27.  A configuration that resolves comes from the PingoraConfig that
    the GatewayClass names through a parametersRef of group
    pingora.k8s.lex.la and kind PingoraConfig.  Its address is that
    config's and is not empty, and its name is recorded for the watch;
    with no connection settings the timeouts are 5, 30 and 30 seconds, the
    retries 3 and the backoff one second; and when TLS is not enabled no
    certificate, key, CA, server name or skip-verify flag is carried
    over. *)
Theorem ResolveFromGatewayClassName_resolved (r : config.PingoraResolver)
    (gatewayClassName : string) (resolved : config.ResolvedPingoraConfig) :
  config.ResolveFromGatewayClassName r gatewayClassName = Ok resolved ->
  exists gatewayClass ref pingoraConfig,
    GetGatewayClass (config.client r) gatewayClassName = Ok gatewayClass
    /\ gc_ParametersRef gatewayClass = Some ref
    /\ pref_Group ref = "pingora.k8s.lex.la"
    /\ pref_Kind ref = "PingoraConfig"
    /\ GetPingoraConfig (config.client r) (pref_Name ref) = Ok pingoraConfig
    /\ config.Address resolved = pcs_Address (pc_Spec pingoraConfig)
    /\ config.Address resolved <> ""
    /\ config.ConfigName resolved = pc_Name pingoraConfig
    /\ config.TLSEnabled resolved = IsTLSEnabled (pc_Spec pingoraConfig)
    /\ (pcs_Connection (pc_Spec pingoraConfig) = None ->
        config.ConnectTimeout resolved = 5 * Second
        /\ config.RequestTimeout resolved = 30 * Second
        /\ config.KeepaliveTime resolved = 30 * Second
        /\ config.MaxRetries resolved = 3
        /\ config.RetryBackoff resolved = 1 * Second)
    /\ (config.TLSEnabled resolved = false ->
        config.TLSCert resolved = [] /\ config.TLSKey resolved = []
        /\ config.TLSCA resolved = []
        /\ config.TLSInsecureSkipVerify resolved = false
        /\ config.TLSServerName resolved = "").
Proof.
  unfold config.ResolveFromGatewayClassName, config.ResolveFromGatewayClass.
  destruct (GetGatewayClass _ _) as [gatewayClass|]; [|discriminate].
  destruct (gc_ParametersRef gatewayClass) as [ref|] eqn:Href; [|discriminate].
  destruct (String.eqb_spec (pref_Group ref) config.PingoraParametersRefGroup) as [Hg|];
    [|discriminate].
  destruct (String.eqb_spec (pref_Kind ref) config.PingoraParametersRefKind) as [Hk|];
    [|discriminate].
  cbn [negb].
  destruct (GetPingoraConfig _ _) as [pingoraConfig|] eqn:Hcfg; [|discriminate].
  intros Hres. apply resolveConfig_Ok in Hres. cbv zeta in Hres.
  destruct Hres as (Hne & Haddr & Hname & Htls & Hct & Hrt & Hkt & Hmr & Hrb & Hoff).
  exists gatewayClass, ref, pingoraConfig.
  split; [reflexivity|]. split; [exact Href|]. split; [exact Hg|]. split; [exact Hk|].
  split; [exact Hcfg|]. split; [exact Haddr|]. split; [congruence|].
  split; [exact Hname|]. split; [exact Htls|]. split.
  - intros Hconn. rewrite Hct, Hrt, Hkt, Hmr, Hrb.
    unfold GetConnectTimeout, GetRequestTimeout, GetKeepaliveTime, GetMaxRetries,
      GetRetryBackoff. rewrite Hconn. repeat split; reflexivity.
  - intros Hoff'. apply Hoff. congruence.
Qed.

Lemma ResolveFromGatewayClassName_resolved_witness :
  exists resolved,
    config.ResolveFromGatewayClassName
      (ConfigExamples.resolver ConfigExamples.plainConfig) "pingora" = Ok resolved
    /\ config.Address resolved = "pingora-proxy:50051"
    /\ config.ConnectTimeout resolved = 5 * Second
    /\ config.TLSCert resolved = [].
Proof.
  destruct (config.ResolveFromGatewayClassName
              (ConfigExamples.resolver ConfigExamples.plainConfig) "pingora")
    as [resolved|] eqn:Hres; [|vm_compute in Hres; discriminate].
  exists resolved. split; [reflexivity|].
  destruct (ResolveFromGatewayClassName_resolved _ _ _ Hres)
    as (gatewayClass & ref & pingoraConfig & Hgc & Href & _ & _ & Hcfg & Haddr & _ & _ & Htls
        & Hdefaults & Hoff).
  vm_compute in Hgc. injection Hgc as <-. cbn in Href. injection Href as <-.
  vm_compute in Hcfg. injection Hcfg as <-.
  split; [exact Haddr|]. split; [now apply Hdefaults|].
  apply Hoff. rewrite Htls. reflexivity.
Defined.

(** X28.  The TLS Secret is read only when TLS is enabled and a Secret is
    referenced.  It is then looked up under the referenced name in the
    referenced namespace, or in the resolver's default namespace when the
    reference leaves the namespace empty; a Secret that cannot be read
    fails the resolution, and one that can yields the certificate, key and
    CA of its keys tls.crt, tls.key and ca.crt, a missing key yielding
    none.  With TLS not enabled the resolution does not depend on any
    Secret. *)
Theorem resolveConfig_secret (r : config.PingoraResolver) (pingoraConfig : PingoraConfig)
    (tls : TLSConfig) (secretRef : SecretReference) :
  pcs_Address (pc_Spec pingoraConfig) <> "" ->
  pcs_TLS (pc_Spec pingoraConfig) = Some tls ->
  tls_SecretRef tls = Some secretRef ->
  let namespace :=
    if String.eqb (sr_Namespace secretRef) "" then config.defaultNamespace r
    else sr_Namespace secretRef in
  (tls_Enabled tls = true ->
   match GetSecret (config.client r) namespace (sr_Name secretRef) with
   | Ok secret =>
       exists resolved,
         config.resolveConfig r pingoraConfig = Ok resolved
         /\ config.TLSEnabled resolved = true
         /\ config.TLSCert resolved = default [] (sec_Data secret !! "tls.crt")
         /\ config.TLSKey resolved = default [] (sec_Data secret !! "tls.key")
         /\ config.TLSCA resolved = default [] (sec_Data secret !! "ca.crt")
         /\ config.TLSServerName resolved = tls_ServerName tls
         /\ config.TLSInsecureSkipVerify resolved = tls_InsecureSkipVerify tls
   | Err err =>
       config.resolveConfig r pingoraConfig
       = Err (Wrap (Wrap err ("failed to get secret " +:+ namespace +:+ "/"
                              +:+ sr_Name secretRef))
                "failed to get TLS secret")
   end)
  /\ (tls_Enabled tls = false ->
      is_ok (config.resolveConfig r pingoraConfig) = true
      /\ forall r', config.resolveConfig r' pingoraConfig
                    = config.resolveConfig r pingoraConfig).
Proof.
  intros Haddr Htls Href. cbv zeta. unfold config.resolveConfig. cbv zeta.
  unfold IsTLSEnabled. apply String.eqb_neq in Haddr. rewrite Haddr, Htls. split.
  - intros Hon. rewrite Hon, Href. unfold config.getSecret.
    destruct (GetSecret _ _ _) as [secret|err]; [|reflexivity].
    eexists. split; [reflexivity|]. cbn. repeat split; reflexivity.
  - intros Hoff. rewrite Hoff. split; [reflexivity|]. intros r'. reflexivity.
Qed.

Lemma resolveConfig_secret_witness :
  exists resolved,
    config.resolveConfig (ConfigExamples.resolver ConfigExamples.tlsConfig)
      ConfigExamples.tlsConfig = Ok resolved
    /\ config.TLSCert resolved = [Byte.x01]
    /\ config.TLSCA resolved = [].
Proof.
  pose proof (resolveConfig_secret (ConfigExamples.resolver ConfigExamples.tlsConfig)
                ConfigExamples.tlsConfig _ _ ltac:(discriminate) eq_refl eq_refl) as [Hon _].
  specialize (Hon eq_refl). cbn in Hon.
  destruct Hon as (resolved & Hres & _ & Hcert & _ & Hca & _).
  exists resolved. split; [exact Hres|]. split; [exact Hcert | exact Hca].
Defined.

(** X29.  What the watches of the configuration cover.  A change of a
    PingoraConfig enqueues the routes exactly when the GatewayClass can be
    fetched, its parametersRef has the PingoraConfig group and kind, and
    it names that config.  A change of a Secret enqueues the routes
    exactly when the PingoraConfig of the GatewayClass can be fetched and
    has a TLS Secret reference with the Secret's name and with the
    Secret's namespace, an empty namespace in the reference standing for
    [default].  So for the Secret at the key the resolver reads, which has
    the resolver's default namespace for an empty one: its change enqueues
    the routes when the reference gives a namespace or the resolver's
    default namespace is [default], and enqueues nothing when the
    reference leaves the namespace out and the default namespace is
    another one. *)
Theorem config_watches `{LabelSelectorLib} (m : PingoraConfigMapper)
    (getRoutes : unit -> list Request) :
  (forall pingoraConfig,
     MapConfigToRequests m getRoutes (PingoraConfigObject pingoraConfig)
     = match GetGatewayClass (m_Client m) (m_GatewayClassName m) with
       | Ok gatewayClass =>
           match gc_ParametersRef gatewayClass with
           | Some ref =>
               if (String.eqb (pref_Group ref) "pingora.k8s.lex.la"
                   && String.eqb (pref_Kind ref) "PingoraConfig"
                   && String.eqb (pref_Name ref) (pc_Name pingoraConfig))%bool
               then getRoutes tt else []
           | None => []
           end
       | Err _ => []
       end)
  /\ (forall secret,
        MapSecretToRequests m getRoutes (SecretObject secret)
        = match GetGatewayClass (m_Client m) (m_GatewayClassName m) with
          | Ok gatewayClass =>
              match gc_ParametersRef gatewayClass with
              | Some ref =>
                  if (String.eqb (pref_Group ref) "pingora.k8s.lex.la"
                      && String.eqb (pref_Kind ref) "PingoraConfig")%bool
                  then
                    match GetPingoraConfig (config.client (m_ConfigResolver m))
                            (pref_Name ref) with
                    | Ok pingoraConfig =>
                        match pcs_TLS (pc_Spec pingoraConfig) with
                        | Some tls =>
                            match tls_SecretRef tls with
                            | Some secretRef =>
                                if (String.eqb (sec_Name secret) (sr_Name secretRef)
                                    && String.eqb (sec_Namespace secret)
                                         (if String.eqb (sr_Namespace secretRef) ""
                                          then "default"
                                          else sr_Namespace secretRef))%bool
                                then getRoutes tt else []
                            | None => []
                            end
                        | None => []
                        end
                    | Err _ => []
                    end
                  else []
              | None => []
              end
          | Err _ => []
          end)
  /\ (forall gatewayClass ref pingoraConfig tls secretRef secret,
        GetGatewayClass (m_Client m) (m_GatewayClassName m) = Ok gatewayClass ->
        gc_ParametersRef gatewayClass = Some ref ->
        pref_Group ref = "pingora.k8s.lex.la" ->
        pref_Kind ref = "PingoraConfig" ->
        GetPingoraConfig (config.client (m_ConfigResolver m)) (pref_Name ref)
          = Ok pingoraConfig ->
        pcs_TLS (pc_Spec pingoraConfig) = Some tls ->
        tls_SecretRef tls = Some secretRef ->
        sec_Name secret = sr_Name secretRef ->
        sec_Namespace secret
        = (if String.eqb (sr_Namespace secretRef) ""
           then config.defaultNamespace (m_ConfigResolver m)
           else sr_Namespace secretRef) ->
        (forall found,
           GetSecret (config.client (m_ConfigResolver m)) (sec_Namespace secret)
             (sec_Name secret) = Ok found ->
           config.getSecret (m_ConfigResolver m) (sr_Name secretRef)
             (sr_Namespace secretRef) = Ok found)
        /\ MapSecretToRequests m getRoutes (SecretObject secret)
           = if (String.eqb (sr_Namespace secretRef) ""
                 && negb (String.eqb (config.defaultNamespace (m_ConfigResolver m))
                            "default"))%bool
             then [] else getRoutes tt).
Proof.
  assert (forall secret,
            MapSecretToRequests m getRoutes (SecretObject secret)
            = match GetGatewayClass (m_Client m) (m_GatewayClassName m) with
              | Ok gatewayClass =>
                  match gc_ParametersRef gatewayClass with
                  | Some ref =>
                      if (String.eqb (pref_Group ref) "pingora.k8s.lex.la"
                          && String.eqb (pref_Kind ref) "PingoraConfig")%bool
                      then
                        match GetPingoraConfig (config.client (m_ConfigResolver m))
                                (pref_Name ref) with
                        | Ok pingoraConfig =>
                            match pcs_TLS (pc_Spec pingoraConfig) with
                            | Some tls =>
                                match tls_SecretRef tls with
                                | Some secretRef =>
                                    if (String.eqb (sec_Name secret) (sr_Name secretRef)
                                        && String.eqb (sec_Namespace secret)
                                             (if String.eqb (sr_Namespace secretRef) ""
                                              then "default"
                                              else sr_Namespace secretRef))%bool
                                    then getRoutes tt else []
                                | None => []
                                end
                            | None => []
                            end
                        | Err _ => []
                        end
                      else []
                  | None => []
                  end
              | Err _ => []
              end) as Hsecret.
  { intros secret. unfold MapSecretToRequests, config.GetConfigForGatewayClass.
    destruct (GetGatewayClass _ _) as [gatewayClass|]; [|reflexivity].
    destruct (gc_ParametersRef gatewayClass) as [ref|]; [|reflexivity].
    change config.PingoraParametersRefGroup with "pingora.k8s.lex.la".
    change config.PingoraParametersRefKind with "PingoraConfig".
    destruct (String.eqb (pref_Group ref) "pingora.k8s.lex.la");
      destruct (String.eqb (pref_Kind ref) "PingoraConfig"); cbn [negb orb andb];
      try reflexivity.
    destruct (GetPingoraConfig _ _) as [pingoraConfig|]; reflexivity. }
  split; [|split; [exact Hsecret|]].
  - intros pingoraConfig. unfold MapConfigToRequests.
    destruct (GetGatewayClass _ _) as [gatewayClass|]; [|reflexivity].
    destruct (gc_ParametersRef gatewayClass) as [ref|]; [|reflexivity].
    change config.PingoraParametersRefGroup with "pingora.k8s.lex.la".
    change config.PingoraParametersRefKind with "PingoraConfig".
    destruct (String.eqb (pref_Group ref) "pingora.k8s.lex.la");
      destruct (String.eqb (pref_Kind ref) "PingoraConfig");
      destruct (String.eqb (pref_Name ref) (pc_Name pingoraConfig)); reflexivity.
  - intros gatewayClass ref pingoraConfig tls secretRef secret
      Hclass Hparams Hgroup Hkind Hconfig Htls Href Hname Hnamespace.
    split.
    + intros found Hfound. unfold config.getSecret.
      rewrite Hname, Hnamespace in Hfound. now rewrite Hfound.
    + rewrite Hsecret, Hclass, Hparams, Hgroup, Hkind, Hconfig, Htls, Href.
      cbn [String.eqb Ascii.eqb Bool.eqb andb].
      rewrite Hname, Hnamespace, String.eqb_refl. cbn [andb].
      destruct (String.eqb_spec (sr_Namespace secretRef) "") as [Hempty|Hgiven]; cbn [andb].
      * destruct (String.eqb (config.defaultNamespace (m_ConfigResolver m)) "default");
          reflexivity.
      * now rewrite String.eqb_refl.
Qed.

Lemma config_watches_witness :
  let m := ConfigExamples.mapper ConfigExamples.tlsConfig in
  let getRoutes := fun _ : unit => [ {| rq_Namespace := "ns"; rq_Name := "r1" |} ] in
  config.getSecret (m_ConfigResolver m) "proxy-tls" "" = Ok ConfigExamples.tlsSecret
  /\ @MapConfigToRequests Examples.lib m getRoutes
       (PingoraConfigObject ConfigExamples.tlsConfig) = getRoutes tt
  /\ @MapSecretToRequests Examples.lib m getRoutes (SecretObject ConfigExamples.tlsSecret)
     = [].
Proof.
  cbv zeta.
  destruct (@config_watches Examples.lib (ConfigExamples.mapper ConfigExamples.tlsConfig)
              (fun _ : unit => [ {| rq_Namespace := "ns"; rq_Name := "r1" |} ]))
    as (Hconfig & _ & Hread).
  destruct (Hread {| gc_Name := "pingora";
                     gc_ParametersRef :=
                       Some {| pref_Group := config.PingoraParametersRefGroup;
                               pref_Kind := config.PingoraParametersRefKind;
                               pref_Name := "pingora-config" |} |}
              {| pref_Group := config.PingoraParametersRefGroup;
                 pref_Kind := config.PingoraParametersRefKind;
                 pref_Name := "pingora-config" |}
              ConfigExamples.tlsConfig
              {| tls_Enabled := true;
                 tls_SecretRef := Some {| sr_Name := "proxy-tls"; sr_Namespace := "" |};
                 tls_InsecureSkipVerify := false;
                 tls_ServerName := "pingora-proxy" |}
              {| sr_Name := "proxy-tls"; sr_Namespace := "" |}
              ConfigExamples.tlsSecret
              eq_refl eq_refl eq_refl eq_refl eq_refl eq_refl eq_refl eq_refl eq_refl)
    as [Hresolver Hwatch].
  split; [apply (Hresolver ConfigExamples.tlsSecret); reflexivity|].
  split; [rewrite Hconfig; reflexivity|].
  etransitivity; [exact Hwatch | reflexivity].
Defined.

(* ===================================================================== *)
(** ** Across the controllers *)
(* ===================================================================== *)

Lemma getAllRelevantRoutes_pushed_witness :
  getAllRelevantRoutes (ReconcilerExamples.reconciler Examples.gwS5)
  = map (fun route => requestFor (HTTPRouteWrapper route)) [Examples.r1].
Proof.
  destruct (getAllRelevantRoutes_pushed
              (ReconcilerExamples.reconciler Examples.gwS5)
              (ReconcilerExamples.syncer Examples.gwS5) eq_refl eq_refl eq_refl)
    as [Hhttp _].
  specialize (Hhttp eq_refl).
  destruct (getRelevantHTTPRoutes (ReconcilerExamples.syncer Examples.gwS5))
    as [[relevant bindings]|] eqn:Hrel; [|vm_compute in Hrel; discriminate].
  rewrite Hhttp. vm_compute in Hrel. injection Hrel as <- _. reflexivity.
Defined.

(** X30.  What the Gateway reconciler counts, the syncer pushes: when a
    parent reference of a route is counted as attached to a listener of a
    Gateway, the reference's kind is Gateway or left out, the Gateway is
    of the syncer's class and is the one the cluster holds under its name,
    then the route has an accepted parent for the syncer and is among the
    routes it pushes. *)
Theorem attached_routes_are_pushed `{LabelSelectorLib} (s : PingoraRouteSyncer)
    (gateway : Gateway) (routeKind listenerName : string) (route : Route)
    (ref : ParentReference) :
  attachedTo (s_bindingValidator s) gateway routeKind listenerName route ref = true ->
  In ref (r_ParentRefs route) ->
  pr_Kind ref = None \/ pr_Kind ref = Some kindGateway ->
  GetGateway (s_Client s) (gw_Namespace gateway) (gw_Name gateway) = Ok gateway ->
  gw_GatewayClassName gateway = s_GatewayClassName s ->
  hasAcceptedParent s routeKind route
  /\ forall items,
       In route items ->
       In route (fold_left (collectRoute s routeKind) items ([], ∅)).1.
Proof.
  intros Hatt Hin Hkind Hget Hclass.
  unfold attachedTo in Hatt. apply andb_true_iff in Hatt. destruct Hatt as [Hmatch Hbind].
  unfold refMatchesGateway in Hmatch.
  destruct (String.eqb_spec (pr_Name ref) (gw_Name gateway)) as [Hname|]; [|discriminate].
  cbn [negb] in Hmatch. apply String.eqb_eq in Hmatch.
  destruct (ValidateBinding (s_bindingValidator s) gateway (routeInfoFor routeKind route ref))
    as [bindingResult|] eqn:Hv; [|discriminate].
  apply andb_true_iff in Hbind. destruct Hbind as [Hacc _].
  assert (hasAcceptedParent s routeKind route) as Hparent.
  { apply list_elem_of_In, list_elem_of_lookup in Hin. destruct Hin as [refIdx Href].
    exists refIdx, ref, bindingResult. split; [exact Href|]. split; [|exact Hacc].
    split; [exact Hkind|]. exists gateway.
    replace (default (r_Namespace route) (pr_Namespace ref)) with (gw_Namespace gateway)
      by (now destruct (pr_Namespace ref)).
    rewrite Hname. tauto. }
  split; [exact Hparent|].
  intros items Hitems.
  destruct (collectRoute_fold s routeKind items ([], ∅)) as [-> _]. cbn [fst app].
  apply filter_In. split; [exact Hitems|]. now apply hasAcceptedParent_eval.
Qed.

Lemma attached_routes_are_pushed_witness :
  hasAcceptedParent (ReconcilerExamples.syncer Examples.gwS5) KindHTTPRoute Examples.r1.
Proof.
  apply (attached_routes_are_pushed (ReconcilerExamples.syncer Examples.gwS5)
           Examples.gwS5 KindHTTPRoute "https" Examples.r1 (Examples.parentRef None)).
  - vm_compute. reflexivity.
  - now left.
  - now left.
  - reflexivity.
  - reflexivity.
Defined.
